(** * TaskManager: the report generation and scheduling pipeline

  A shallow embedding of
    backend/src/services/gemini.service.ts     (module [Gemini])
    backend/src/services/report.service.ts     (module [Report])
    backend/src/services/scheduler.service.ts  (module [Scheduler])
    backend/src/services/email.service.ts      (module [Mailer])
  followed by the properties established about them.

  Conventions.
  - A JavaScript string is held as its UTF-8 encoding, one byte per
    character of a [string]; array lengths are [nat].
  - The time value of a [Date] object is a whole number of milliseconds
    since the epoch, or NaN for an Invalid Date ([Js.Date]).  The
    database columns and the clock hold valid dates ([Js.Time]).
  - Local time is UTC plus an offset that depends on the instant
    ([localTZA]): daylight-saving changes are part of the model.
  - An [async] function is a computation over the process state [World]
    that ends in a value or in a thrown error ([Outcome]); at every
    [await] the rest of the process may run ([interleave]). *)

From Stdlib Require Import ZArith List Bool Ascii String Lia Arith.
From Stdlib Require Import Sorting.Sorted Sorting.Permutation.
From Stdlib Require Import Decimal DecimalString.
Import ListNotations.
Local Open Scope string_scope.

(* ================================================================== *)
(** * JavaScript values used by the services                           *)
(* ================================================================== *)

Module Js.

(** The character U+0022, written apart because it delimits literals. *)
Definition dquote : string := String (ascii_of_nat 34) EmptyString.
Definition newline : string := String (ascii_of_nat 10) EmptyString.

(** Template-literal interpolation [${n}] of a non-negative integer:
    its decimal digits, ["0"] for zero. *)
Definition showNat (n : nat) : string :=
  NilZero.string_of_uint (Nat.to_uint n).

(** [hay.includes(needle)] *)
Fixpoint includes (needle hay : string) : bool :=
  prefix needle hay ||
  match hay with
  | EmptyString => false
  | String _ rest => includes needle rest
  end.

(** ** Code points

    A text is read as UTF-8.  A byte that does not belong to a well
    formed sequence stands for the code point of the same number. *)

Definition byte (c : ascii) : N := N_of_ascii c.

(** A continuation byte, [10xxxxxx]. *)
Definition isCont (c : ascii) : bool :=
  ((128 <=? byte c) && (byte c <=? 191))%N.

Definition low6 (c : ascii) : N := (byte c - 128)%N.

(** The code point at the front of a text and the number of bytes it
    takes; overlong forms are not well formed. *)
Definition decodeFront (s : string) : option (N * nat) :=
  match s with
  | EmptyString => None
  | String b0 rest =>
      let one := Some (byte b0, 1) in
      if (byte b0 <? 194)%N then one
      else if (byte b0 <? 224)%N then
        match rest with
        | String b1 _ =>
            if isCont b1
            then Some (((byte b0 - 192) * 64 + low6 b1)%N, 2)
            else one
        | _ => one
        end
      else if (byte b0 <? 240)%N then
        match rest with
        | String b1 (String b2 _) =>
            let cp := ((byte b0 - 224) * 4096 + low6 b1 * 64 + low6 b2)%N in
            if isCont b1 && isCont b2 && (2048 <=? cp)%N
            then Some (cp, 3)
            else one
        | _ => one
        end
      else if (byte b0 <? 245)%N then
        match rest with
        | String b1 (String b2 (String b3 _)) =>
            let cp :=
              ((byte b0 - 240) * 262144 + low6 b1 * 4096 + low6 b2 * 64
               + low6 b3)%N in
            if isCont b1 && isCont b2 && isCont b3 && (65536 <=? cp)%N
            then Some (cp, 4)
            else one
        | _ => one
        end
      else one
  end.

Fixpoint takeBytes (n : nat) (s : string) : string :=
  match n, s with
  | S n', String c rest => String c (takeBytes n' rest)
  | _, _ => EmptyString
  end.

Fixpoint dropBytes (n : nat) (s : string) : string :=
  match n, s with
  | S n', String _ rest => dropBytes n' rest
  | _, _ => s
  end.

(** The code points of a text in order, each with its bytes. *)
Fixpoint codePointsWithin (fuel : nat) (s : string) : list (N * string) :=
  match fuel with
  | O => []
  | S fuel' =>
      match decodeFront s with
      | None => []
      | Some (cp, n) =>
          (cp, takeBytes n s) :: codePointsWithin fuel' (dropBytes n s)
      end
  end.

Definition codePoints (s : string) : list (N * string) :=
  codePointsWithin (String.length s) s.

(** WhiteSpace and LineTerminator of ECMAScript: TAB, LF, VT, FF, CR,
    SP, NBSP, the other space separators of Unicode (U+1680,
    U+2000-U+200A, U+202F, U+205F, U+3000), LS, PS and ZWNBSP. *)
Definition isWhiteSpace (cp : N) : bool :=
  (((9 <=? cp) && (cp <=? 13))
   || (cp =? 32) || (cp =? 160) || (cp =? 5760)
   || ((8192 <=? cp) && (cp <=? 8202))
   || (cp =? 8232) || (cp =? 8233) || (cp =? 8239) || (cp =? 8287)
   || (cp =? 12288) || (cp =? 65279))%N.

Fixpoint dropWhite (cps : list (N * string)) : list (N * string) :=
  match cps with
  | (cp, bytes) :: rest => if isWhiteSpace cp then dropWhite rest else cps
  | [] => []
  end.

Definition bytesOf (cps : list (N * string)) : string :=
  String.concat EmptyString (map snd cps).

(** [s.trimStart()], [s.trimEnd()] and [s.trim()] *)
Definition trimStart (s : string) : string := bytesOf (dropWhite (codePoints s)).

Definition trimEnd (s : string) : string :=
  bytesOf (List.rev (dropWhite (List.rev (codePoints s)))).

Definition trim (s : string) : string :=
  bytesOf (List.rev (dropWhite (List.rev (dropWhite (codePoints s))))).

(** The text with the given bytes. *)
Definition ofBytes (codes : list nat) : string :=
  fold_right (fun n s => String (ascii_of_nat n) s) EmptyString codes.

(** [s.replace(pat, by)] for a one-character pattern: the first
    occurrence only. *)
Fixpoint replaceFirst (pat : ascii) (by_ : string) (s : string) : string :=
  match s with
  | EmptyString => EmptyString
  | String c rest =>
      if Ascii.eqb c pat then by_ ++ rest
      else String c (replaceFirst pat by_ rest)
  end.

(** A decimal digit, and a text without its digits: what is left of a
    template once the interpolated numbers are taken out. *)
Definition isDigit (c : ascii) : bool :=
  let n := nat_of_ascii c in ((48 <=? n) && (n <=? 57))%nat.

Fixpoint dropDigits (s : string) : string :=
  match s with
  | EmptyString => EmptyString
  | String c rest =>
      if isDigit c then dropDigits rest else String c (dropDigits rest)
  end.

(** [xs.join(sep)] *)
Definition join (sep : string) (xs : list string) : string :=
  String.concat sep xs.

(** [xs.slice(0, n)] *)
Definition slice0 {A : Type} (n : nat) (xs : list A) : list A := firstn n xs.

(** [!x] on a value that is an object or [null]. *)
Definition isNull {A : Type} (x : option A) : bool :=
  match x with None => true | Some _ => false end.

(** ** Dates *)

(** A time value that is a number: milliseconds since the epoch.  A
    [DateTime] column of the database and the clock hold such values. *)
Definition Time : Type := Z.

(** The time value of a [Date] object: a number, or NaN for an Invalid
    Date, as [new Date(text)] gives for a text that is no date. *)
Inductive Date : Type :=
| Invalid
| At (t : Time).
Arguments At t%_Z.

Definition msPerDay : Z := 86400000.

(** The time values of [Date] objects are within 8.64e15 ms of the
    epoch. *)
Definition maxTime : Z := 8640000000000000.

(** TimeClip *)
Definition TimeClip (t : Z) : Date :=
  if (Z.abs t <=? maxTime)%Z then At t else Invalid.

(** [a <= b] and [a >= b] on two [Date] objects: the comparison of
    their time values, false when one of them is NaN. *)
Definition dateLeb (a b : Date) : bool :=
  match a, b with
  | At x, At y => (x <=? y)%Z
  | _, _ => false
  end.

Definition dateGeb (a b : Date) : bool :=
  match a, b with
  | At x, At y => (y <=? x)%Z
  | _, _ => false
  end.

End Js.

(* ================================================================== *)
(** * Errors, process state and asynchronous computations              *)
(* ================================================================== *)

(** A thrown [Error]: its message. *)
Definition JsError : Type := string.

Inductive Outcome (A : Type) : Type :=
| Ok (a : A)
| Throw (e : JsError).
Arguments Ok {A} a.
Arguments Throw {A} e.

Definition threw {A : Type} (o : Outcome A) : bool :=
  match o with Ok _ => false | Throw _ => true end.

(** ** Rows of the database tables read by the pipeline *)

Record User : Type := mkUser {
  user_id : string;
  user_email : string;
  user_name : string;
  user_role : string;
  user_isVerified : bool
}.

Record Project : Type := mkProject {
  project_id : string;
  project_name : string;
  project_ownerId : string;
  project_members : list string
}.

Record Task : Type := mkTask {
  task_id : string;
  task_title : string;
  task_status : string;
  task_priority : string;
  task_projectId : string;
  task_assigneeId : option string;
  task_reporterId : string;
  task_dueDate : option Js.Time;
  task_createdAt : Js.Time;
  task_updatedAt : Js.Time
}.

(** ** ReportData (report.service.ts, lines 8-23) *)

Record TaskSnapshot : Type := mkTaskSnapshot {
  snap_id : string;
  snap_title : string;
  snap_status : string;
  snap_priority : string;
  snap_project : string;
  snap_dueDate : option string;
  snap_createdAt : string;
  snap_updatedAt : string
}.

Record ReportData : Type := mkReportData {
  data_created : nat;
  data_completed : nat;
  data_inProgress : nat;
  data_overdue : nat;
  data_tasks : list TaskSnapshot
}.

Inductive ReportType : Type := DAILY | WEEKLY.

Record ReportRow : Type := mkReportRow {
  report_id : string;
  report_type : ReportType;
  report_summary : string;
  report_data : ReportData;
  report_userId : string;
  report_createdAt : Js.Time
}.

(** ** What leaves the process *)

Inductive LogLevel : Type := LInfo | LWarn | LError.

Record EmailRow : Type := mkEmailRow {
  row_title : string;
  row_status : string;
  row_project : string;
  row_id : string
}.

Record Stats : Type := mkStats {
  st_created : nat;
  st_completed : nat;
  st_inProgress : nat;
  st_overdue : nat
}.

(** A call of [emailService.sendDailySummary] / [sendWeeklySummary]:
    the arguments the HTML is rendered from. *)
Record Mail : Type := mkMail {
  mail_kind : ReportType;
  mail_to : string;
  mail_name : string;
  mail_summary : string;
  mail_stats : option Stats;
  mail_rows : list EmailRow
}.

(** ** The process state *)

Record World : Type := mkWorld {
  w_users : list User;
  w_projects : list Project;
  w_tasks : list Task;
  w_reports : list ReportRow;
  w_clock : Js.Time;                      (* what [new Date()] reads *)
  w_log : list (LogLevel * string);       (* oldest first *)
  w_prompts : list string;                (* requests to the completion model *)
  w_outbox : list Mail                    (* mails handed to the mailer *)
}.

(** A computation over a state [S] that returns or throws. *)
Definition Eff (S A : Type) : Type := S -> Outcome A * S.

Definition ret {S A : Type} (a : A) : Eff S A := fun w => (Ok a, w).

Definition throw {S A : Type} (e : JsError) : Eff S A := fun w => (Throw e, w).

Definition bind {S A B : Type} (m : Eff S A) (k : A -> Eff S B) : Eff S B :=
  fun w =>
    match m w with
    | (Ok a, w') => k a w'
    | (Throw e, w') => (Throw e, w')
    end.

(** [try { body } catch (error) { handler }] *)
Definition tryCatch {S A : Type} (body : Eff S A) (handler : JsError -> Eff S A)
    : Eff S A :=
  fun w =>
    match body w with
    | (Ok a, w') => (Ok a, w')
    | (Throw e, w') => handler e w'
    end.

Declare Scope js_scope.
Delimit Scope js_scope with js.
Notation "x <- m ;; k" := (bind m (fun x => k))
  (at level 61, m at next level, right associativity) : js_scope.
Notation "m ;;; k" := (bind m (fun _ => k))
  (at level 61, right associativity) : js_scope.
Local Open Scope js_scope.

Definition gets {S A : Type} (f : S -> A) : Eff S A := fun w => (Ok (f w), w).
Definition modify {S : Type} (f : S -> S) : Eff S unit := fun w => (Ok tt, f w).

(** The services run over the process state. *)
Definition M (A : Type) : Type := Eff World A.

Definition appendLog (lvl : LogLevel) (msg : string) (w : World) : World :=
  mkWorld (w_users w) (w_projects w) (w_tasks w) (w_reports w) (w_clock w)
          (w_log w ++ [(lvl, msg)]) (w_prompts w) (w_outbox w).

(** [logger.info] / [logger.warn] / [logger.error] *)
Definition logger (lvl : LogLevel) (msg : string) : M unit :=
  modify (appendLog lvl msg).

(** [new Date()], as the time value *)
Definition newDate : M Js.Time := gets w_clock.

(** ** What the process does not contain

    The JavaScript runtime's calendar and locale, the Gemini SDK, the
    mail transport, the id generator of the database, and the other
    activity of the process between two steps of an [async] function. *)

Record Runtime : Type := mkRuntime {
  (** LocalTZA(t, isUTC) of ECMAScript: the offset of local time from
      UTC in milliseconds, at the instant [t] when [isUTC] is set and at
      the local time [t] when it is not; the time zone of the process
      and its daylight-saving rules decide it *)
  localTZA : Z -> bool -> Z;
  (** the day number of the first day of the month that contains the
      given day number (days counted from the epoch, in local time) *)
  monthStart : Z -> Z;
  (** [toLocaleDateString('en-US', { weekday: 'long', year: 'numeric',
      month: 'long', day: 'numeric' })]; it does not throw for an Invalid
      Date *)
  formatLong : Js.Date -> string;
  (** [toLocaleDateString('en-US', { month: 'short', day: 'numeric' })] *)
  formatShort : Js.Date -> string;
  (** [toLocaleDateString('en-US', { month: 'short', day: 'numeric',
      year: 'numeric' })] *)
  formatShortYear : Js.Date -> string;
  (** on a valid date *)
  toISOString : Js.Time -> string;
  (** [model.generateContent(prompt)] followed by [result.response] and
      [response.text()]: the text, or the error one of them throws *)
  generateContent : string -> World -> Outcome string;
  (** [emailService.send]: [true] when the transport accepted the mail;
      it catches its own errors *)
  deliver : Mail -> World -> bool;
  (** the primary key the database gives a new report *)
  freshId : World -> string;
  (** the validation error of the database client for a query whose
      filter holds an Invalid Date *)
  invalidDateError : JsError;
  (** what the rest of the process does while this computation is
      suspended at an [await] *)
  interleave : World -> World
}.

Section Await.
Variable R : Runtime.

(** [await m]: [m] settles, and the continuation resumes after the
    rest of the process has had its turn. *)
Definition await {A : Type} (m : M A) : M A :=
  fun w => let (r, w') := m w in (r, interleave R w').
End Await.


(* ================================================================== *)
(** * gemini.service.ts                                                *)
(* ================================================================== *)

Module Gemini.

Record TaskSummaryInput : Type := mkTaskSummaryInput {
  title : string;
  status : string;
  priority : string;
  project : string;
  dueDate : option string;
  createdAt : string;
  updatedAt : string
}.

Record SummaryResult : Type := mkSummaryResult {
  summary : string;
  isAIGenerated : bool
}.

(** The handle [genAI.getGenerativeModel({ model: ... })] returns. *)
Record GenerativeModel : Type := mkGenerativeModel {
  modelName : string
}.

(** The service object: its field [model], [null] until configured. *)
Record GeminiService : Type := mkGeminiService {
  model : option GenerativeModel
}.

(** [constructor()], lines 24-32, on [config.gemini.apiKey]. *)
Definition constructor (apiKey : string) : M GeminiService :=
  if negb (apiKey =? "")%string then
    logger LInfo "Gemini service initialized" ;;;
    ret (mkGeminiService (Some (mkGenerativeModel "gemini-1.5-flash")))
  else
    logger LWarn "Gemini API key not configured - using fallback summaries" ;;;
    ret (mkGeminiService None).

(** [tasks.filter(p).length] *)
Definition countIf {A : Type} (p : A -> bool) (xs : list A) : nat :=
  List.length (filter p xs).

(** [generateFallbackDailySummary], lines 147-177.  Each [summary += x]
    is a rebinding of [summary]. *)
Definition generateFallbackDailySummary
    (userName : string) (tasks : list TaskSummaryInput) (dateStr : string)
    : SummaryResult :=
  let completed := countIf (fun t => status t =? "DONE") tasks in
  let inProgress := countIf (fun t => status t =? "IN_PROGRESS") tasks in
  let highPriority :=
    countIf (fun t => (priority t =? "HIGH") || (priority t =? "CRITICAL")) tasks in
  let summary := "Here's your daily summary for " ++ dateStr ++ ". " in
  let summary :=
    if (List.length tasks =? 0)%nat then
      summary ++ "You have no tasks assigned for today. Consider reviewing your backlog or checking in with your team."
    else
      let summary :=
        summary ++ ("You have " ++ Js.showNat (List.length tasks) ++ " total task"
                    ++ (if (List.length tasks =? 1)%nat then "" else "s") ++ ". ") in
      let summary :=
        if (0 <? completed)%nat then
          summary ++ ("Great work completing " ++ Js.showNat completed ++ " task"
                      ++ (if (completed =? 1)%nat then "" else "s") ++ "! ")
        else summary in
      let summary :=
        if (0 <? inProgress)%nat then
          summary ++ (Js.showNat inProgress ++ " task"
                      ++ (if (inProgress =? 1)%nat then " is" else "s are")
                      ++ " currently in progress. ")
        else summary in
      let summary :=
        if (0 <? highPriority)%nat then
          summary ++ ("Note: " ++ Js.showNat highPriority ++ " high-priority task"
                      ++ (if (highPriority =? 1)%nat then "" else "s")
                      ++ " need" ++ (if (highPriority =? 1)%nat then "s" else "")
                      ++ " attention.")
        else summary in
      summary in
  mkSummaryResult summary false.

(** [generateFallbackWeeklySummary], lines 179-214. *)
Definition generateFallbackWeeklySummary
    (userName : string) (tasks : list TaskSummaryInput)
    (startStr endStr : string) (stats : Stats) : SummaryResult :=
  let summary := "Weekly summary for " ++ startStr ++ " - " ++ endStr ++ ". " in
  let summary :=
    if (0 <? st_completed stats)%nat then
      summary ++ ("You completed " ++ Js.showNat (st_completed stats) ++ " task"
                  ++ (if (st_completed stats =? 1)%nat then "" else "s")
                  ++ " this week - nice work! ")
    else summary in
  let summary :=
    if (0 <? st_created stats)%nat then
      summary ++ (Js.showNat (st_created stats) ++ " new task"
                  ++ (if (st_created stats =? 1)%nat then " was" else "s were")
                  ++ " created. ")
    else summary in
  let summary :=
    if (0 <? st_inProgress stats)%nat then
      summary ++ (Js.showNat (st_inProgress stats) ++ " task"
                  ++ (if (st_inProgress stats =? 1)%nat then " is" else "s are")
                  ++ " currently in progress. ")
    else summary in
  let summary :=
    if (0 <? st_overdue stats)%nat then
      summary ++ ("Heads up: " ++ Js.showNat (st_overdue stats) ++ " task"
                  ++ (if (st_overdue stats =? 1)%nat then " is" else "s are")
                  ++ " overdue and may need immediate attention. ")
    else summary in
  let summary :=
    if ((st_completed stats =? 0)%nat && (0 <? List.length tasks)%nat)%bool then
      summary ++ "Focus on completing in-progress tasks to maintain momentum."
    else if (List.length tasks =? 0)%nat then
      summary ++ "No active tasks this week. Check your project backlogs for upcoming work."
    else summary in
  mkSummaryResult summary false.

(** [buildDailySummaryPrompt], lines 96-113.  The template literal is
    written line by line. *)
Definition buildDailySummaryPrompt
    (userName : string) (tasks : list TaskSummaryInput) (dateStr : string)
    : string :=
  let taskList :=
    Js.join Js.newline
      (map (fun t => "- " ++ Js.dquote ++ title t ++ Js.dquote ++ " (" ++ status t
                     ++ ", " ++ priority t ++ " priority, Project: "
                     ++ project t ++ ")") tasks) in
  Js.join Js.newline [
    "You are a helpful project management assistant. Generate a brief, professional daily summary (max 150 words) for "
      ++ userName ++ " about their tasks on " ++ dateStr ++ ".";
    "";
    "Tasks:";
    taskList;
    "";
    "Write a natural, encouraging summary that:";
    "1. Highlights key accomplishments or focus areas";
    "2. Mentions any high-priority or overdue tasks";
    "3. Provides a positive yet realistic overview";
    "4. Uses professional but friendly tone";
    "";
    "Do not use bullet points or lists. Write in flowing paragraphs." ].

(** [buildWeeklySummaryPrompt], lines 115-145. *)
Definition buildWeeklySummaryPrompt
    (userName : string) (tasks : list TaskSummaryInput)
    (startStr endStr : string) (stats : Stats) : string :=
  let taskList :=
    Js.join Js.newline
      (map (fun t => "- " ++ Js.dquote ++ title t ++ Js.dquote ++ " (" ++ status t
                     ++ ", " ++ priority t ++ ", Project: " ++ project t ++ ")")
           (Js.slice0 30 tasks)) in
  Js.join Js.newline [
    "You are a helpful project management assistant. Generate a concise weekly summary (max 200 words) for "
      ++ userName ++ " covering " ++ startStr ++ " - " ++ endStr ++ ".";
    "";
    "Weekly Stats:";
    "- Tasks Created: " ++ Js.showNat (st_created stats);
    "- Tasks Completed: " ++ Js.showNat (st_completed stats);
    "- Tasks In Progress: " ++ Js.showNat (st_inProgress stats);
    "- Overdue Tasks: " ++ Js.showNat (st_overdue stats);
    "";
    "Notable Tasks:";
    taskList;
    "";
    "Write a natural, insightful summary that:";
    "1. Celebrates completed work and productivity trends";
    "2. Identifies areas needing attention (overdue items)";
    "3. Provides encouragement and actionable insights";
    "4. Compares workload balance (created vs completed)";
    "";
    "Do not use bullet points or lists. Write in flowing paragraphs with a professional but motivating tone." ].

Section Service.
Variable R : Runtime.
Variable this : GeminiService.

(** [this.model.generateContent(prompt)]: the request leaves the
    process (and is noted in [w_prompts]); the text or the error comes
    from the SDK. *)
Definition callModel (prompt : string) : M string :=
  fun w =>
    (generateContent R prompt w,
     mkWorld (w_users w) (w_projects w) (w_tasks w) (w_reports w) (w_clock w)
             (w_log w) (w_prompts w ++ [prompt]) (w_outbox w)).

(** [generateDailySummary], lines 34-64. *)
Definition generateDailySummary
    (userName : string) (tasks : list TaskSummaryInput) (date : Js.Date)
    : M SummaryResult :=
  let dateStr := formatLong R date in
  if Js.isNull (model this) || (List.length tasks =? 0)%nat then
    ret (generateFallbackDailySummary userName tasks dateStr)
  else
    tryCatch
      (let prompt := buildDailySummaryPrompt userName tasks dateStr in
       result <- await R (callModel prompt) ;;
       response <- await R (ret result) ;;
       let summary := response in
       ret (mkSummaryResult (Js.trim summary) true))
      (fun error =>
         logger LError ("Gemini API error for daily summary: " ++ error) ;;;
         ret (generateFallbackDailySummary userName tasks dateStr)).

(** [generateWeeklySummary], lines 66-94. *)
Definition generateWeeklySummary
    (userName : string) (tasks : list TaskSummaryInput)
    (startDate endDate : Js.Date) (stats : Stats) : M SummaryResult :=
  let startStr := formatShort R startDate in
  let endStr := formatShortYear R endDate in
  if Js.isNull (model this) || (List.length tasks =? 0)%nat then
    ret (generateFallbackWeeklySummary userName tasks startStr endStr stats)
  else
    tryCatch
      (let prompt := buildWeeklySummaryPrompt userName tasks startStr endStr stats in
       result <- await R (callModel prompt) ;;
       response <- await R (ret result) ;;
       let summary := response in
       ret (mkSummaryResult (Js.trim summary) true))
      (fun error =>
         logger LError ("Gemini API error for weekly summary: " ++ error) ;;;
         ret (generateFallbackWeeklySummary userName tasks startStr endStr stats)).

End Service.

End Gemini.


(* ================================================================== *)
(** * Date arithmetic in local time (ECMAScript, Date objects)         *)
(* ================================================================== *)

Module JsDate.

Section Local.
Variable R : Runtime.

Definition LocalTime (t : Z) : Z := t + localTZA R t true.
Definition UTC (t : Z) : Z := t - localTZA R t false.
Definition Day (t : Z) : Z := t / Js.msPerDay.
Definition TimeWithinDay (t : Z) : Z := t mod Js.msPerDay.

Definition MakeTime (hour min sec ms : Z) : Z :=
  hour * 3600000 + min * 60000 + sec * 1000 + ms.

Definition MakeDate (day time : Z) : Z := day * Js.msPerDay + time.

(** [MakeDay(YearFromTime(t), MonthFromTime(t), dt)]: the day number of
    the first of the month of [t], plus [dt - 1]. *)
Definition MakeDayInMonthOf (t : Z) (dt : Z) : Z :=
  monthStart R (Day t) + dt - 1.

(** [d.getDate()]: the day of the month in local time, NaN ([None])
    for an Invalid Date *)
Definition getDate (d : Js.Date) : option Z :=
  match d with
  | Js.Invalid => None
  | Js.At tv =>
      let t := LocalTime tv in
      Some (Day t - monthStart R (Day t) + 1)%Z
  end.

(** [d.setDate(dt)], as the new time value *)
Definition setDate (d : Js.Date) (dt : option Z) : Js.Date :=
  match d, dt with
  | Js.At tv, Some dt =>
      let t := LocalTime tv in
      Js.TimeClip (UTC (MakeDate (MakeDayInMonthOf t dt) (TimeWithinDay t)))
  | _, _ => Js.Invalid
  end.

(** [d.setHours(hour, min, sec, ms)], as the new time value *)
Definition setHours (d : Js.Date) (hour min sec ms : Z) : Js.Date :=
  match d with
  | Js.Invalid => Js.Invalid
  | Js.At tv =>
      let t := LocalTime tv in
      Js.TimeClip (UTC (MakeDate (Day t) (MakeTime hour min sec ms)))
  end.

End Local.

End JsDate.

(* ================================================================== *)
(** * email.service.ts, as far as the reports use it                   *)
(* ================================================================== *)

Module EmailService.

Section Service.
Variable R : Runtime.

(** [send(options)], lines 36-75: hands the mail to the transport and
    answers [true] or [false]; its own [try]/[catch] keeps transport
    errors inside. *)
Definition send (mail : Mail) : M bool :=
  fun w =>
    (Ok (deliver R mail w),
     mkWorld (w_users w) (w_projects w) (w_tasks w) (w_reports w) (w_clock w)
             (w_log w) (w_prompts w) (w_outbox w ++ [mail])).

(** [sendDailySummary], lines 130-209; the HTML body is determined by
    the arguments kept in the [Mail]. *)
Definition sendDailySummary
    (email name summary : string) (tasks : list EmailRow) : M bool :=
  send (mkMail DAILY email name summary None tasks).

(** [sendWeeklySummary], lines 211-324. *)
Definition sendWeeklySummary
    (email name summary : string) (stats : Stats) (tasks : list EmailRow)
    : M bool :=
  send (mkMail WEEKLY email name summary (Some stats) (Js.slice0 20 tasks)).

End Service.

End EmailService.

(* ================================================================== *)
(** * email.service.ts: the transport behind [send]                    *)
(* ================================================================== *)

Module Mailer.

(** What [send] and the constructor read of [config]: [config.env],
    [config.email.provider], [config.email.from],
    [config.email.sendgrid.apiKey], [config.email.smtp.user]. *)
Record EmailConfig : Type := mkEmailConfig {
  env : string;
  provider : string;
  from : string;
  sendgridApiKey : string;
  smtpUser : string
}.

Record EmailOptions : Type := mkEmailOptions {
  to : string;
  subject : string;
  html : string;
  text : option string
}.

(** The object handed to [sgMail.send] or [transporter.sendMail]. *)
Record Message : Type := mkMessage {
  msg_to : string;
  msg_from : string;
  msg_subject : string;
  msg_html : string;
  msg_text : string
}.

(** The two mail libraries: what a call does to the process state and
    whether it returns or throws. *)
Record Sdk : Type := mkSdk {
  sgMail_send : Message -> M unit;
  transporter_sendMail : Message -> M unit
}.

(** The handle [nodemailer.createTransport] returns. *)
Inductive Transporter : Type := SmtpTransporter.

(** The service object: its field [transporter]. *)
Record EmailService : Type := mkEmailService {
  transporter : option Transporter
}.

(** [constructor()], lines 16-34. *)
Definition constructor (config : EmailConfig) : M EmailService :=
  if (provider config =? "sendgrid") && negb (sendgridApiKey config =? "") then
    logger LInfo "Email service initialized with SendGrid" ;;;
    ret (mkEmailService None)
  else if provider config =? "smtp" then
    logger LInfo "Email service initialized with SMTP" ;;;
    ret (mkEmailService (Some SmtpTransporter))
  else
    logger LWarn "No email provider configured - emails will be logged only" ;;;
    ret (mkEmailService None).

(** [html.replace(/<[^>]*>/g, '')], read left to right: [pending] is
    the text since a [<] that has not met its [>] yet; it is dropped at
    the [>] and kept if the text ends first. *)
Fixpoint stripTagsFrom (pending : option string) (s : string) : string :=
  match s with
  | EmptyString =>
      match pending with
      | Some p => p
      | None => EmptyString
      end
  | String c rest =>
      match pending with
      | None =>
          if Ascii.eqb c "<"%char
          then stripTagsFrom (Some (String c EmptyString)) rest
          else String c (stripTagsFrom None rest)
      | Some p =>
          if Ascii.eqb c ">"%char
          then stripTagsFrom None rest
          else stripTagsFrom (Some (p ++ String c EmptyString)) rest
      end
  end.

Definition stripTags (s : string) : string := stripTagsFrom None s.

(** [text || fallback] on an optional string: absent and empty are
    both falsy. *)
Definition orElse (text : option string) (fallback : string) : string :=
  match text with
  | Some t => if t =? "" then fallback else t
  | None => fallback
  end.

Section Service.
Variable R : Runtime.
Variable config : EmailConfig.
Variable sdk : Sdk.
Variable this : EmailService.

Definition messageOf (options : EmailOptions) : Message :=
  mkMessage (to options) (from config) (subject options) (html options)
            (orElse (text options) (stripTags (html options))).

(** [send(options)], lines 36-75. *)
Definition send (options : EmailOptions) : M bool :=
  if (env config =? "development") && (sendgridApiKey config =? "")
     && (smtpUser config =? "") then
    logger LInfo ("[DEV EMAIL] To: " ++ to options) ;;;
    logger LInfo ("[DEV EMAIL] Subject: " ++ subject options) ;;;
    logger LInfo ("[DEV EMAIL] Content: "
                  ++ orElse (text options) (html options)) ;;;
    ret true
  else
    tryCatch
      (if provider config =? "sendgrid" then
         await R (sgMail_send sdk (messageOf options)) ;;;
         logger LInfo ("Email sent to " ++ to options ++ ": " ++ subject options) ;;;
         ret true
       else
         match transporter this with
         | Some _ =>
             await R (transporter_sendMail sdk (messageOf options)) ;;;
             logger LInfo
               ("Email sent to " ++ to options ++ ": " ++ subject options) ;;;
             ret true
         | None =>
             logger LWarn
               ("Email not sent (no provider): " ++ to options ++ " - "
                ++ subject options) ;;;
             ret false
         end)
      (fun error =>
         logger LError ("Failed to send email to " ++ to options ++ ": " ++ error) ;;;
         ret false).

End Service.

End Mailer.

(* ================================================================== *)
(** * report.service.ts                                                *)
(* ================================================================== *)

Module Report.

(** The object [generateDailyReport] / [generateWeeklyReport] return. *)
Record GeneratedReport : Type := mkGeneratedReport {
  id : string;
  type : ReportType;
  summary : string;
  isAIGenerated : bool;
  data : ReportData;
  createdAt : Js.Time
}.

(** A task row with [include: { project: { select: { name: true } } }]. *)
Record TaskWithProject : Type := mkTaskWithProject {
  row : Task;
  projectName : string
}.

(** ** The queries (Prisma) *)

(** [prisma.user.findUnique({ where: { id: userId } })] *)
Definition user_findUnique (userId : string) : M (option User) :=
  gets (fun w => find (fun u => user_id u =? userId) (w_users w)).

(** [prisma.project.findMany] with [ownerId: userId] or a member row
    for [userId]; [select: { id: true }]. *)
Definition project_findMany_visible (userId : string) : M (list string) :=
  gets (fun w =>
    map project_id
      (filter (fun p => (project_ownerId p =? userId)
                        || existsb (fun m => m =? userId) (project_members p))
              (w_projects w))).

(** [orderBy: { updatedAt: 'desc' }]: insertion into a list that is
    already in order, after the rows that are not older. *)
Fixpoint insertByUpdatedAtDesc (t : TaskWithProject) (ts : list TaskWithProject)
    : list TaskWithProject :=
  match ts with
  | [] => [t]
  | t' :: rest =>
      if (task_updatedAt (row t') <? task_updatedAt (row t))%Z
      then t :: ts
      else t' :: insertByUpdatedAtDesc t rest
  end.

Definition orderByUpdatedAtDesc (ts : list TaskWithProject) : list TaskWithProject :=
  fold_right insertByUpdatedAtDesc [] ts.

Definition projectNameOf (w : World) (projectId : string) : string :=
  match find (fun p => project_id p =? projectId) (w_projects w) with
  | Some p => project_name p
  | None => ""
  end.

Definition optEqb (o : option string) (s : string) : bool :=
  match o with Some x => x =? s | None => false end.

(** [prisma.task.findMany], lines 56-68 and 156-168. *)
Definition task_findMany_for (projectIds : list string) (userId : string)
    : M (list TaskWithProject) :=
  gets (fun w =>
    orderByUpdatedAtDesc
      (map (fun t => mkTaskWithProject t (projectNameOf w (task_projectId t)))
           (filter (fun t => existsb (fun p => p =? task_projectId t) projectIds
                             && (optEqb (task_assigneeId t) userId
                                 || (task_reporterId t =? userId)))
                   (w_tasks w)))).

(** ** Report history and team reports: rows and queries *)

(** An element of the array [getReportHistory] returns. *)
Record HistoryEntry : Type := mkHistoryEntry {
  h_id : string;
  h_type : ReportType;
  h_summary : string;
  h_data : ReportData;
  h_createdAt : Js.Time
}.

(** [include: { user: { select: { id: true, name: true, email: true } } }] *)
Record UserRef : Type := mkUserRef {
  ref_id : string;
  ref_name : string;
  ref_email : string
}.

(** An element of [reports] in the object [getTeamReport] returns; the
    user is absent when no row of the user table has the report's
    [userId]. *)
Record TeamEntry : Type := mkTeamEntry {
  te_id : string;
  te_user : option UserRef;
  te_type : ReportType;
  te_summary : string;
  te_data : ReportData;
  te_createdAt : Js.Time
}.

Record TeamReport : Type := mkTeamReport {
  teamSize : nat;
  reportsCount : nat;
  reports : list TeamEntry
}.

Definition reportTypeEqb (a b : ReportType) : bool :=
  match a, b with
  | DAILY, DAILY => true
  | WEEKLY, WEEKLY => true
  | _, _ => false
  end.

(** [orderBy: { createdAt: 'desc' }] on report rows. *)
Fixpoint insertByCreatedAtDesc (r : ReportRow) (rs : list ReportRow)
    : list ReportRow :=
  match rs with
  | [] => [r]
  | r' :: rest =>
      if (report_createdAt r' <? report_createdAt r)%Z
      then r :: rs
      else r' :: insertByCreatedAtDesc r rest
  end.

Definition orderByCreatedAtDesc (rs : list ReportRow) : list ReportRow :=
  fold_right insertByCreatedAtDesc [] rs.

(** The [where] clause of [getReportHistory]:
    [{ userId, ...(type && { type }) }]. *)
Definition historyWhere (userId : string) (type : option ReportType)
    (r : ReportRow) : bool :=
  (report_userId r =? userId)
  && match type with
     | Some ty => reportTypeEqb (report_type r) ty
     | None => true
     end.

(** [prisma.report.findMany], lines 282-289, for a [take] that is not
    negative. *)
Definition report_findMany_history
    (userId : string) (type : option ReportType) (limit : nat)
    : M (list ReportRow) :=
  gets (fun w =>
    firstn limit
      (orderByCreatedAtDesc (filter (historyWhere userId type) (w_reports w)))).

(** [prisma.project.findMany({ where: { ownerId: managerId }, ... })] *)
Definition project_findMany_owned (managerId : string) : M (list Project) :=
  gets (fun w =>
    filter (fun p => project_ownerId p =? managerId) (w_projects w)).

(** [set.add(x)] on a [Set<string>] kept in insertion order. *)
Definition setAdd (x : string) (set : list string) : list string :=
  if existsb (fun y => y =? x) set then set else (set ++ [x])%list.

(** Lines 326-329: the two nested [forEach]. *)
Definition teamMemberIdsOf (projects : list Project) : list string :=
  fold_left
    (fun set p => fold_left (fun set m => setAdd m set) (project_members p) set)
    projects [].

(** The [where] clause of lines 337-341. *)
Definition teamWhere (teamMemberIds : list string) (type : ReportType)
    (startOfDay : Js.Date) (r : ReportRow) : bool :=
  existsb (fun m => m =? report_userId r) teamMemberIds
  && reportTypeEqb (report_type r) type
  && Js.dateGeb (Js.At (report_createdAt r)) startOfDay.

Definition userRefOf (w : World) (userId : string) : option UserRef :=
  option_map (fun u => mkUserRef (user_id u) (user_name u) (user_email u))
    (find (fun u => user_id u =? userId) (w_users w)).

(** [prisma.report.findMany], lines 336-346, for a [startOfDay] that
    is a valid date. *)
Definition report_findMany_team
    (teamMemberIds : list string) (type : ReportType) (startOfDay : Js.Date)
    : M (list (ReportRow * option UserRef)) :=
  gets (fun w =>
    map (fun r => (r, userRefOf w (report_userId r)))
      (orderByCreatedAtDesc
         (filter (teamWhere teamMemberIds type startOfDay) (w_reports w)))).

Section Service.
Variable R : Runtime.
Variable geminiService : Gemini.GeminiService.

(** [prisma.report.create({ data: ... })] *)
Definition report_create
    (ty : ReportType) (summary : string) (data : ReportData) (userId : string)
    : M ReportRow :=
  fun w =>
    let r := mkReportRow (freshId R w) ty summary data userId (w_clock w) in
    (Ok r,
     mkWorld (w_users w) (w_projects w) (w_tasks w) (w_reports w ++ [r])
             (w_clock w) (w_log w) (w_prompts w) (w_outbox w)).

Definition snapshot (t : TaskWithProject) : TaskSnapshot :=
  mkTaskSnapshot
    (task_id (row t)) (task_title (row t)) (task_status (row t))
    (task_priority (row t)) (projectName t)
    (option_map (toISOString R) (task_dueDate (row t)))
    (toISOString R (task_createdAt (row t)))
    (toISOString R (task_updatedAt (row t))).

(** [t.dueDate && t.dueDate < now && t.status !== 'DONE'] *)
Definition isOverdue (now : Js.Time) (t : TaskWithProject) : bool :=
  match task_dueDate (row t) with
  | None => false
  | Some due => (due <? now)%Z && negb (task_status (row t) =? "DONE")
  end.

(** "Calculate stats": the object literal of lines 72-87, which lines
    172-187 repeat with [startDate] and [endDate] for the window. *)
Definition calculateStats
    (tasks : list TaskWithProject) (windowStart windowEnd : Js.Date)
    (now : Js.Time) : ReportData :=
  mkReportData
    (Gemini.countIf
       (fun t => Js.dateGeb (Js.At (task_createdAt (row t))) windowStart
                 && Js.dateLeb (Js.At (task_createdAt (row t))) windowEnd)
       tasks)
    (Gemini.countIf
       (fun t => (task_status (row t) =? "DONE")
                 && Js.dateGeb (Js.At (task_updatedAt (row t))) windowStart
                 && Js.dateLeb (Js.At (task_updatedAt (row t))) windowEnd)
       tasks)
    (Gemini.countIf (fun t => task_status (row t) =? "IN_PROGRESS") tasks)
    (Gemini.countIf (isOverdue now) tasks)
    (map snapshot tasks).

Definition summaryInput (t : TaskSnapshot) : Gemini.TaskSummaryInput :=
  Gemini.mkTaskSummaryInput
    (snap_title t) (snap_status t) (snap_priority t) (snap_project t)
    (snap_dueDate t) (snap_createdAt t) (snap_updatedAt t).

(** [date || new Date()]: a [Date] object is truthy, an invalid one
    too. *)
Definition orNow (date : option Js.Date) : M Js.Date :=
  match date with
  | Some d => ret d
  | None => now <- newDate ;; ret (Js.At now)
  end.

(** The window of [generateDailyReport], lines 28-31. *)
Definition dailyWindow (targetDate : Js.Date) : Js.Date * Js.Date :=
  let startOfDay := JsDate.setHours R targetDate 0 0 0 0 in
  let endOfDay := JsDate.setHours R targetDate 23 59 59 999 in
  (startOfDay, endOfDay).

(** The window of [generateWeeklyReport], lines 128-131: [startDate]
    is a copy of [endDate] moved back seven days and to the start of
    its day; [endDate] itself is moved to the end of its day. *)
Definition weeklyWindow (endDate : Js.Date) : Js.Date * Js.Date :=
  let startDate := endDate in
  let startDate :=
    JsDate.setDate R startDate
      (option_map (fun dt => dt - 7)%Z (JsDate.getDate R startDate)) in
  let startDate := JsDate.setHours R startDate 0 0 0 0 in
  let endDate := JsDate.setHours R endDate 23 59 59 999 in
  (startDate, endDate).

(** [generateDailyReport], lines 26-124. *)
Definition generateDailyReport (userId : string) (date : option Js.Date)
    : M GeneratedReport :=
  targetDate <- orNow date ;;
  let '(startOfDay, endOfDay) := dailyWindow targetDate in
  user <- await R (user_findUnique userId) ;;
  match user with
  | None => throw "User not found"
  | Some user =>
      projectIds <- await R (project_findMany_visible userId) ;;
      tasks <- await R (task_findMany_for projectIds userId) ;;
      now <- newDate ;;
      let data := calculateStats tasks startOfDay endOfDay now in
      summaryResult <- await R
        (Gemini.generateDailySummary R geminiService (user_name user)
           (map summaryInput (data_tasks data)) targetDate) ;;
      report <- await R
        (report_create DAILY (Gemini.summary summaryResult) data userId) ;;
      logger LInfo ("Daily report generated for " ++ user_email user) ;;;
      ret (mkGeneratedReport (report_id report) (report_type report)
             (Gemini.summary summaryResult) (Gemini.isAIGenerated summaryResult)
             data (report_createdAt report))
  end.

(** [generateWeeklyReport], lines 126-231. *)
Definition generateWeeklyReport (userId : string) (weekEndDate : option Js.Date)
    : M GeneratedReport :=
  endDate <- orNow weekEndDate ;;
  let '(startDate, endDate) := weeklyWindow endDate in
  user <- await R (user_findUnique userId) ;;
  match user with
  | None => throw "User not found"
  | Some user =>
      projectIds <- await R (project_findMany_visible userId) ;;
      tasks <- await R (task_findMany_for projectIds userId) ;;
      now <- newDate ;;
      let data := calculateStats tasks startDate endDate now in
      summaryResult <- await R
        (Gemini.generateWeeklySummary R geminiService (user_name user)
           (map summaryInput (data_tasks data)) startDate endDate
           (mkStats (data_created data) (data_completed data) (data_inProgress data) (data_overdue data))) ;;
      report <- await R
        (report_create WEEKLY (Gemini.summary summaryResult) data userId) ;;
      logger LInfo ("Weekly report generated for " ++ user_email user) ;;;
      ret (mkGeneratedReport (report_id report) (report_type report)
             (Gemini.summary summaryResult) (Gemini.isAIGenerated summaryResult)
             data (report_createdAt report))
  end.

(** ** Points of a run of [generateDailyReport] / [generateWeeklyReport]

    The rows the task query returns (after the user and project
    queries have been awaited), the instant [now] is read, and the user
    row found for an id. *)
Definition tasksSeen (userId : string) (w : World) : list TaskWithProject :=
  let w1 := interleave R w in
  let w2 := interleave R w1 in
  match fst (project_findMany_visible userId w1) with
  | Ok projectIds =>
      match fst (task_findMany_for projectIds userId w2) with
      | Ok ts => ts
      | Throw _ => []
      end
  | Throw _ => []
  end.

(** The value of [date || new Date()]. *)
Definition dateOr (date : option Js.Date) (w : World) : Js.Date :=
  match date with
  | Some d => d
  | None => Js.At (w_clock w)
  end.

Definition nowSeen (w : World) : Js.Time :=
  w_clock (interleave R (interleave R (interleave R w))).

Definition findUser (userId : string) (w : World) : option User :=
  find (fun u => user_id u =? userId) (w_users w).

Definition emailRow (t : TaskSnapshot) : EmailRow :=
  mkEmailRow (snap_title t) (Js.replaceFirst "_"%char " " (snap_status t))
             (snap_project t) (snap_id t).

(** [sendDailyReportEmail], lines 233-250. *)
Definition sendDailyReportEmail (userId : string) : M unit :=
  report <- await R (generateDailyReport userId None) ;;
  user <- await R (user_findUnique userId) ;;
  match user with
  | None => ret tt
  | Some user =>
      await R (EmailService.sendDailySummary R
                 (user_email user) (user_name user) (summary report)
                 (map emailRow (Js.slice0 10 (data_tasks (data report))))) ;;;
      ret tt
  end.

(** [sendWeeklyReportEmail], lines 252-275. *)
Definition sendWeeklyReportEmail (userId : string) : M unit :=
  report <- await R (generateWeeklyReport userId None) ;;
  user <- await R (user_findUnique userId) ;;
  match user with
  | None => ret tt
  | Some user =>
      await R (EmailService.sendWeeklySummary R
                 (user_email user) (user_name user) (summary report)
                 (mkStats (data_created (data report)) (data_completed (data report))
                          (data_inProgress (data report)) (data_overdue (data report)))
                 (map emailRow (Js.slice0 20 (data_tasks (data report))))) ;;;
      ret tt
  end.

(** [getReportHistory], lines 277-298; [limit] absent is the default
    parameter value 10. *)
Definition getReportHistory
    (userId : string) (type : option ReportType) (limit : option nat)
    : M (list HistoryEntry) :=
  let limit := match limit with Some n => n | None => 10 end in
  reports <- await R (report_findMany_history userId type limit) ;;
  ret (map (fun r => mkHistoryEntry (report_id r) (report_type r)
                       (report_summary r) (report_data r) (report_createdAt r))
           reports).

(** [!manager || (manager.role !== 'MANAGER' && manager.role !== 'ADMIN')] *)
Definition accessDenied (manager : option User) : bool :=
  match manager with
  | None => true
  | Some m => negb (user_role m =? "MANAGER") && negb (user_role m =? "ADMIN")
  end.

(** [getTeamReport], lines 300-360.  The database client does not run
    a query whose filter holds an Invalid Date: it throws its validation
    error. *)
Definition getTeamReport
    (managerId : string) (type : ReportType) (date : option Js.Date)
    : M TeamReport :=
  manager <- await R (user_findUnique managerId) ;;
  if accessDenied manager then throw "Access denied"
  else
    projects <- await R (project_findMany_owned managerId) ;;
    let teamMemberIds := teamMemberIdsOf projects in
    targetDate <- orNow date ;;
    let startOfDay := JsDate.setHours R targetDate 0 0 0 0 in
    reports <- await R
      (match startOfDay with
       | Js.At _ => report_findMany_team teamMemberIds type startOfDay
       | Js.Invalid => throw (invalidDateError R)
       end) ;;
    ret (mkTeamReport
           (List.length teamMemberIds)
           (List.length reports)
           (map (fun ru =>
                   mkTeamEntry (report_id (fst ru)) (snd ru)
                     (report_type (fst ru)) (report_summary (fst ru))
                     (report_data (fst ru)) (report_createdAt (fst ru)))
                reports)).

End Service.

End Report.


(* ================================================================== *)
(** * scheduler.service.ts                                             *)
(* ================================================================== *)

Module Scheduler.

(** The two arrow functions [start()] hands to [cron.schedule]. *)
Inductive Callback : Type := DailyCallback | WeeklyCallback.

(** A task of node-cron: created running by [cron.schedule], stopped
    by its [stop()]. *)
Record ScheduledTask : Type := mkScheduledTask {
  expression : string;
  callback : Callback;
  running : bool
}.

(** One call of [reportService.sendDailyReportEmail] or
    [sendWeeklyReportEmail] made by a batch, and whether it threw.  A
    record kept beside the program, for stating what a batch did. *)
Record SendCall : Type := mkSendCall {
  call_type : ReportType;
  call_userId : string;
  call_threw : bool
}.

(** The scheduler object with what it runs on: the process state, the
    tasks node-cron holds (a handle is a position in [registry]), and
    the private fields [dailyJob] and [weeklyJob]. *)
Record State : Type := mkState {
  world : World;
  registry : list ScheduledTask;
  dailyJob : option nat;
  weeklyJob : option nat;
  sendCalls : list SendCall
}.

Definition SM (A : Type) : Type := Eff State A.

(** A service call made from the scheduler. *)
Definition liftWorld {A : Type} (m : M A) : SM A :=
  fun s =>
    let (r, w') := m (world s) in
    (r, mkState w' (registry s) (dailyJob s) (weeklyJob s) (sendCalls s)).

(** [cron.schedule(expression, callback)] *)
Definition cron_schedule (expr : string) (cb : Callback) : SM nat :=
  fun s =>
    (Ok (List.length (registry s)),
     mkState (world s) (registry s ++ [mkScheduledTask expr cb true])
             (dailyJob s) (weeklyJob s) (sendCalls s)).

Fixpoint stopAt (h : nat) (ts : list ScheduledTask) : list ScheduledTask :=
  match ts, h with
  | [], _ => []
  | t :: rest, O => mkScheduledTask (expression t) (callback t) false :: rest
  | t :: rest, S h' => t :: stopAt h' rest
  end.

(** [task.stop()] *)
Definition task_stop (h : nat) : SM unit :=
  modify (fun s =>
    mkState (world s) (stopAt h (registry s)) (dailyJob s) (weeklyJob s)
            (sendCalls s)).

Definition set_dailyJob (j : option nat) : SM unit :=
  modify (fun s => mkState (world s) (registry s) j (weeklyJob s) (sendCalls s)).

Definition set_weeklyJob (j : option nat) : SM unit :=
  modify (fun s => mkState (world s) (registry s) (dailyJob s) j (sendCalls s)).

(** [start()], lines 10-24. *)
Definition start : SM unit :=
  j <- cron_schedule "0 18 * * *" DailyCallback ;;
  set_dailyJob (Some j) ;;;
  j <- cron_schedule "0 18 * * 5" WeeklyCallback ;;
  set_weeklyJob (Some j) ;;;
  liftWorld (logger LInfo
    "Scheduler started: Daily reports at 6 PM, Weekly reports on Fridays at 6 PM").

(** [stop()], lines 26-36. *)
Definition stop : SM unit :=
  dj <- gets dailyJob ;;
  match dj with
  | Some j => task_stop j ;;; set_dailyJob None
  | None => ret tt
  end ;;;
  wj <- gets weeklyJob ;;
  match wj with
  | Some j => task_stop j ;;; set_weeklyJob None
  | None => ret tt
  end ;;;
  liftWorld (logger LInfo "Scheduler stopped").

(** [for (const x of xs) body], the loop variables threaded as [acc]. *)
Fixpoint forOf {St A Acc : Type}
    (xs : list A) (body : Acc -> A -> Eff St Acc) (acc : Acc) : Eff St Acc :=
  match xs with
  | [] => ret acc
  | x :: rest => acc' <- body acc x ;; forOf rest body acc'
  end.

(** The object [{ success, failed }]. *)
Record Counts : Type := mkCounts {
  success : nat;
  failed : nat
}.

(** The last log line of a batch. *)
Definition completedLine (ty : ReportType) (counts : Counts) : string :=
  match ty with
  | DAILY => "Daily reports completed: "
  | WEEKLY => "Weekly reports completed: "
  end ++ Js.showNat (success counts) ++ " success, "
  ++ Js.showNat (failed counts) ++ " failed".

(** A batch that has been started and is suspended at an [await]: at
    that of the user query, or at that of the send for [user], with the
    counters [acc] and the users [rest] still to come. *)
Inductive Suspended : Type :=
| AtQuery (ty : ReportType)
| AtSend (ty : ReportType) (acc : Counts) (user : string * string)
         (rest : list (string * string)).

Section Service.
Variable R : Runtime.
(** [reportService]: what a per-user send does to the process state,
    and whether it returns or throws. *)
Variable sendDailyReportEmail : string -> M unit.
Variable sendWeeklyReportEmail : string -> M unit.

Definition sendFor (ty : ReportType) : string -> M unit :=
  match ty with
  | DAILY => sendDailyReportEmail
  | WEEKLY => sendWeeklyReportEmail
  end.

(** [await reportService.send...ReportEmail(user.id)] *)
Definition awaitSend (ty : ReportType) (userId : string) : SM unit :=
  fun s =>
    let (r, w') := await R (sendFor ty userId) (world s) in
    (r, mkState w' (registry s) (dailyJob s) (weeklyJob s)
                (sendCalls s ++ [mkSendCall ty userId (threw r)])).

(** [prisma.user.findMany({ where: { isVerified: true },
    select: { id: true, email: true } })] *)
Definition user_findMany_verified : M (list (string * string)) :=
  gets (fun w =>
    map (fun u => (user_id u, user_email u))
        (filter user_isVerified (w_users w))).

(** The body of the loop of lines 47-56: the [try] block is the send,
    the increment and the log line; only the send can throw, so the
    [catch] block starts from the counters as they were. *)
Definition dailyIteration (acc : Counts) (user : string * string) : SM Counts :=
  let '(user_id, user_email) := user in
  tryCatch
    (awaitSend DAILY user_id ;;;
     let success := S (success acc) in
     liftWorld (logger LInfo ("Daily report sent to " ++ user_email)) ;;;
     ret (mkCounts success (failed acc)))
    (fun error =>
       let failed := S (failed acc) in
       liftWorld (logger LError
         ("Failed to send daily report to " ++ user_email ++ ": " ++ error)) ;;;
       ret (mkCounts (success acc) failed)).

(** The body of the loop of lines 71-80. *)
Definition weeklyIteration (acc : Counts) (user : string * string) : SM Counts :=
  let '(user_id, user_email) := user in
  tryCatch
    (awaitSend WEEKLY user_id ;;;
     let success := S (success acc) in
     liftWorld (logger LInfo ("Weekly report sent to " ++ user_email)) ;;;
     ret (mkCounts success (failed acc)))
    (fun error =>
       let failed := S (failed acc) in
       liftWorld (logger LError
         ("Failed to send weekly report to " ++ user_email ++ ": " ++ error)) ;;;
       ret (mkCounts (success acc) failed)).

(** [generateDailyReportsForAllUsers], lines 38-60. *)
Definition generateDailyReportsForAllUsers : SM Counts :=
  users <- liftWorld (await R user_findMany_verified) ;;
  counts <- forOf users dailyIteration (mkCounts 0 0) ;;
  liftWorld (logger LInfo
    ("Daily reports completed: " ++ Js.showNat (success counts) ++ " success, "
     ++ Js.showNat (failed counts) ++ " failed")) ;;;
  ret counts.

(** [generateWeeklyReportsForAllUsers], lines 62-84. *)
Definition generateWeeklyReportsForAllUsers : SM Counts :=
  users <- liftWorld (await R user_findMany_verified) ;;
  counts <- forOf users weeklyIteration (mkCounts 0 0) ;;
  liftWorld (logger LInfo
    ("Weekly reports completed: " ++ Js.showNat (success counts) ++ " success, "
     ++ Js.showNat (failed counts) ++ " failed")) ;;;
  ret counts.

(** [triggerDailyReportsNow], lines 87-90. *)
Definition triggerDailyReportsNow : SM Counts :=
  liftWorld (logger LInfo "Manually triggering daily reports") ;;;
  generateDailyReportsForAllUsers.

(** [triggerWeeklyReportsNow], lines 92-95. *)
Definition triggerWeeklyReportsNow : SM Counts :=
  liftWorld (logger LInfo "Manually triggering weekly reports") ;;;
  generateWeeklyReportsForAllUsers.

(** The arrow functions of lines 12-15 and 18-21. *)
Definition runCallback (cb : Callback) : SM unit :=
  match cb with
  | DailyCallback =>
      liftWorld (logger LInfo "Starting daily report generation for all users") ;;;
      generateDailyReportsForAllUsers ;;;
      ret tt
  | WeeklyCallback =>
      liftWorld (logger LInfo "Starting weekly report generation for all users") ;;;
      generateWeeklyReportsForAllUsers ;;;
      ret tt
  end.

(** Either loop body, and either batch, by report type. *)
Definition iteration (ty : ReportType) : Counts -> string * string -> SM Counts :=
  match ty with
  | DAILY => dailyIteration
  | WEEKLY => weeklyIteration
  end.

Definition batchOf (ty : ReportType) : SM Counts :=
  match ty with
  | DAILY => generateDailyReportsForAllUsers
  | WEEKLY => generateWeeklyReportsForAllUsers
  end.

(** ** node-cron

    A firing is a minute at which some cron expressions are due: 18:00
    on a day that is not a Friday, or 18:00 on a Friday. *)
Inductive Firing : Type := SixPM | SixPMFriday.

Definition isDue (f : Firing) (expr : string) : bool :=
  match f with
  | SixPM => expr =? "0 18 * * *"
  | SixPMFriday => (expr =? "0 18 * * *") || (expr =? "0 18 * * 5")
  end.

(** At a firing node-cron runs the callback of every task that is
    running and due, each task on its own.  [fire] is the firing in
    which every callback has come to its end before the next one is
    started, in the order of their creation; [fireWith] below is the
    firing with the callbacks taking turns, of which [fire] is the
    case that each callback takes all its turns in a row.  A callback's
    promise is dropped. *)
Definition fire (f : Firing) : SM unit :=
  ts <- gets registry ;;
  forOf (filter (fun t => running t && isDue f (expression t)) ts)
        (fun _ t => tryCatch (runCallback (callback t)) (fun _ => ret tt)) tt.

(** ** Callbacks that run at the same time

    node-cron does not await a callback.  The callbacks due at a firing
    are started one after the other, each runs up to its first [await]
    (the log line, then the user query is sent off), and from there the
    batches take turns: a batch resumes when what it awaits has settled
    and runs up to its next [await]. *)

(** The loop of a batch from the top of an iteration up to the next
    [await], or past the last log line when no user is left. *)
Definition loopFrom (ty : ReportType) (acc : Counts)
    (users : list (string * string)) : SM (option Suspended) :=
  match users with
  | user :: rest => ret (Some (AtSend ty acc user rest))
  | [] => liftWorld (logger LInfo (completedLine ty acc)) ;;; ret None
  end.

(** A suspended batch resumes: the awaited query or send settles, and
    the batch runs on to its next [await] or to its end.  A turn is the
    stretch between two [await]s of the batch itself; what goes on while
    the send waits at its own [await]s is [interleave R], and the send
    is recorded in [sendCalls] when it has settled. *)
Definition resume (p : Suspended) : SM (option Suspended) :=
  match p with
  | AtQuery ty =>
      users <- liftWorld (await R user_findMany_verified) ;;
      loopFrom ty (mkCounts 0 0) users
  | AtSend ty acc user rest =>
      acc' <- iteration ty acc user ;;
      loopFrom ty acc' rest
  end.

(** A callback is started: lines 13 and 19, then its batch up to the
    [await] of the user query. *)
Definition launch (cb : Callback) : SM Suspended :=
  match cb with
  | DailyCallback =>
      liftWorld (logger LInfo "Starting daily report generation for all users") ;;;
      ret (AtQuery DAILY)
  | WeeklyCallback =>
      liftWorld (logger LInfo "Starting weekly report generation for all users") ;;;
      ret (AtQuery WEEKLY)
  end.

(** The callback at position [i] resumes; one that has ended, or a
    position that holds none, is passed over. *)
Fixpoint resumeNth (i : nat) (ps : list (option Suspended))
    : SM (list (option Suspended)) :=
  match ps, i with
  | [], _ => ret []
  | Some p :: rest, O => p' <- resume p ;; ret (p' :: rest)
  | None :: rest, O => ret (None :: rest)
  | p :: rest, S j => rest' <- resumeNth j rest ;; ret (p :: rest')
  end.

(** The callbacks resume in the order [turns] gives. *)
Fixpoint takeTurns (turns : list nat) (ps : list (option Suspended))
    : SM (list (option Suspended)) :=
  match turns with
  | [] => ret ps
  | i :: later => ps' <- resumeNth i ps ;; takeTurns later ps'
  end.

(** The firing in which the callbacks due take turns as [turns] says;
    what it returns is where each callback stands after the last turn,
    [None] for one that has ended. *)
Definition fireWith (f : Firing) (turns : list nat)
    : SM (list (option Suspended)) :=
  ts <- gets registry ;;
  ps <- forOf (filter (fun t => running t && isDue f (expression t)) ts)
          (fun started t =>
             p <- launch (callback t) ;; ret (started ++ [Some p])%list)
          [] ;;
  takeTurns turns ps.

End Service.

(** The rows [findMany({ where: { isVerified: true } })] selects from. *)
Definition verifiedUsers (s : State) : list User :=
  filter user_isVerified (w_users (world s)).

(** The scheduler as [new SchedulerService()] leaves it. *)
Definition initial (w : World) : State := mkState w [] None None [].

End Scheduler.



(* ================================================================== *)
(** * Concrete runs                                                    *)
(* ================================================================== *)

Module Fixtures.

Definition clockNow : Js.Time := 1700000000000%Z.

(** The clock's date, and the epoch. *)
Definition today : Js.Date := Js.At clockNow.
Definition epoch : Js.Date := Js.At 0%Z.

Definition emptyWorld : World := mkWorld [] [] [] [] clockNow [] [] [].

(** A runtime in UTC whose completion service is down and in which
    nothing else happens during an [await]. *)
Definition quiet : Runtime :=
  mkRuntime (fun _ _ => 0%Z) (fun d => (d - 13)%Z)
    (fun _ => "Tuesday, November 14, 2023")
    (fun _ => "Nov 7") (fun _ => "Nov 14, 2023")
    (fun _ => "2023-11-14T22:13:20.000Z")
    (fun _ _ => Throw "503 Service Unavailable")
    (fun _ _ => true)
    (fun w => "report-" ++ Js.showNat (List.length (w_reports w)))
    "Provided Date object is invalid"
    (fun w => w).

(** The same runtime, except that the account is deleted by another
    request as soon as a report has been stored. *)
Definition accountDeleted : Runtime :=
  mkRuntime (fun _ _ => 0%Z) (fun d => (d - 13)%Z)
    (fun _ => "Tuesday, November 14, 2023")
    (fun _ => "Nov 7") (fun _ => "Nov 14, 2023")
    (fun _ => "2023-11-14T22:13:20.000Z")
    (fun _ _ => Throw "503 Service Unavailable")
    (fun _ _ => true)
    (fun w => "report-" ++ Js.showNat (List.length (w_reports w)))
    "Provided Date object is invalid"
    (fun w =>
       match w_reports w with
       | [] => w
       | _ :: _ =>
           mkWorld [] (w_projects w) (w_tasks w) (w_reports w) (w_clock w)
                   (w_log w) (w_prompts w) (w_outbox w)
       end).

Definition unconfigured : Gemini.GeminiService := Gemini.mkGeminiService None.

Definition flash : Gemini.GenerativeModel :=
  Gemini.mkGenerativeModel "gemini-1.5-flash".

Definition configured : Gemini.GeminiService :=
  Gemini.mkGeminiService (Some flash).

Definition ann : User := mkUser "A" "ann@example.com" "Ann" "MEMBER" true.
Definition bob : User := mkUser "B" "bob@example.com" "Bob" "MEMBER" true.
Definition cy : User := mkUser "C" "cy@example.com" "Cy" "MANAGER" true.
Definition dee : User := mkUser "D" "dee@example.com" "Dee" "MEMBER" false.

Definition website : Project := mkProject "P1" "Website" "A" ["B"].

(** Done, last touched at the final millisecond of 14 November 2023. *)
Definition landingPage : Task :=
  mkTask "T1" "Ship landing page" "DONE" "HIGH" "P1" (Some "A") "C"
         (Some 1699000000000%Z) 1698000000000%Z 1700006399999%Z.

(** In progress and past its due date. *)
Definition pricingTable : Task :=
  mkTask "T2" "Pricing table" "IN_PROGRESS" "MEDIUM" "P1" (Some "A") "C"
         (Some 1699990000000%Z) 1699900000000%Z 1699950000000%Z.

(** Reported by Ann, unassigned, due one millisecond ago. *)
Definition brokenLink : Task :=
  mkTask "T3" "Fix broken link" "TODO" "CRITICAL" "P1" None "A"
         (Some 1699999999999%Z) 1699800000000%Z 1699800000000%Z.

(** Due at this very millisecond: not yet overdue. *)
Definition newsletter : Task :=
  mkTask "T4" "Newsletter" "TODO" "LOW" "P1" (Some "A") "C"
         (Some 1700000000000%Z) 1699700000000%Z 1699700000000%Z.

(** Bob's own task. *)
Definition invoices : Task :=
  mkTask "T5" "Invoices" "TODO" "LOW" "P1" (Some "B") "B"
         (Some 1690000000000%Z) 1689000000000%Z 1689000000000%Z.

Definition team : World :=
  mkWorld [ann; bob; dee; cy] [website]
          [landingPage; pricingTable; brokenLink; newsletter; invoices]
          [] clockNow [] [] [].

(** A per-user send that fails for user B only. *)
Definition sendFailingForB (userId : string) : M unit :=
  if userId =? "B" then throw "connect ETIMEDOUT" else ret tt.

Definition sendOk (userId : string) : M unit := ret tt.

Definition input (status priority : string) : Gemini.TaskSummaryInput :=
  Gemini.mkTaskSummaryInput "Task" status priority "Website" None
    "2023-11-01T00:00:00.000Z" "2023-11-14T00:00:00.000Z".

(** Three tasks: two done, one in progress, none of high priority. *)
Definition threeTasks : list Gemini.TaskSummaryInput :=
  [input "DONE" "LOW"; input "IN_PROGRESS" "MEDIUM"; input "DONE" "LOW"].

End Fixtures.

(* ================================================================== *)
(** * More concrete runs                                               *)
(* ================================================================== *)

Module Samples.

Import Fixtures.

(** A runtime whose completion service answers, with a byte order mark
    and a space before the text and a no-break space and a line feed
    after it. *)
Definition answering : Runtime :=
  mkRuntime (fun _ _ => 0%Z) (fun d => (d - 13)%Z)
    (fun _ => "Tuesday, November 14, 2023")
    (fun _ => "Nov 7") (fun _ => "Nov 14, 2023")
    (fun _ => "2023-11-14T22:13:20.000Z")
    (fun _ _ => Ok (Js.ofBytes [239; 187; 191; 32] ++ "A steady day."
                    ++ Js.ofBytes [194; 160; 10]))
    (fun _ _ => true)
    (fun w => "report-" ++ Js.showNat (List.length (w_reports w)))
    "Provided Date object is invalid"
    (fun w => w).

Definition thirtyTasks : list Gemini.TaskSummaryInput :=
  repeat (input "TODO" "LOW") 30.

(** Twelve tasks assigned to Ann. *)
Definition twelveTasks : list Task :=
  map (fun n =>
         mkTask ("T" ++ Js.showNat n) "Chore" "TODO" "LOW" "P1" (Some "A") "C"
                None 1699000000000%Z (1699000000000 + Z.of_nat n)%Z)
      (seq 1 12).

Definition busy : World :=
  mkWorld [ann; bob; dee; cy] [website] twelveTasks [] clockNow [] [] [].

Definition noData : ReportData := mkReportData 0 0 0 0 [].

Definition dailyOfAnn : ReportRow :=
  mkReportRow "r1" DAILY "Ann's day" noData "A" 1699990000000%Z.

Definition weeklyOfAnn : ReportRow :=
  mkReportRow "r2" WEEKLY "Ann's week" noData "A" 1699930000000%Z.

Definition dailyOfBob : ReportRow :=
  mkReportRow "r3" DAILY "Bob's day" noData "B" 1699995000000%Z.

(** From July 2023. *)
Definition oldDailyOfAnn : ReportRow :=
  mkReportRow "r4" DAILY "Ann's day in July" noData "A" 1690000000000%Z.

Definition dailyOfDee : ReportRow :=
  mkReportRow "r5" DAILY "Dee's day" noData "D" 1699999000000%Z.

(** Cy's project; Ann is listed twice. *)
Definition studio : Project := mkProject "P2" "Studio" "C" ["A"; "B"; "A"].

Definition office : World :=
  mkWorld [ann; bob; dee; cy] [website; studio]
          [landingPage; pricingTable; brokenLink; newsletter; invoices]
          [oldDailyOfAnn; weeklyOfAnn; dailyOfAnn; dailyOfBob; dailyOfDee]
          clockNow [] [] [].

Definition development : Mailer.EmailConfig :=
  Mailer.mkEmailConfig "development" "smtp" "noreply@litejira.com" "" "".

Definition productionSmtp : Mailer.EmailConfig :=
  Mailer.mkEmailConfig "production" "smtp" "noreply@litejira.com" "" "mailer".

Definition productionNoProvider : Mailer.EmailConfig :=
  Mailer.mkEmailConfig "production" "ses" "noreply@litejira.com" "" "".

Definition sendgridNoKey : Mailer.EmailConfig :=
  Mailer.mkEmailConfig "production" "sendgrid" "noreply@litejira.com" "" "".

(** Both mail libraries refuse the connection. *)
Definition sdkDown : Mailer.Sdk :=
  Mailer.mkSdk (fun _ => throw "ECONNREFUSED") (fun _ => throw "ECONNREFUSED").

Definition sdkUp : Mailer.Sdk :=
  Mailer.mkSdk (fun _ => ret tt) (fun _ => ret tt).

Definition welcome : Mailer.EmailOptions :=
  Mailer.mkEmailOptions "ann@example.com" "Welcome"
    "<p>Dear <b>Ann</b></p>" None.

(** ** New York in 2023

    Eastern time: five hours behind UTC, four from 12 March, 07:00 UTC,
    to 5 November, 06:00 UTC.  A local time that the clocks skip or
    show twice is read with the offset in force before the change. *)
Definition newYorkOffset (t : Z) (isUTC : bool) : Z :=
  if isUTC then
    if ((1678604400000 <=? t) && (t <? 1699164000000))%Z
    then (-14400000)%Z else (-18000000)%Z
  else
    if ((1678590000000 <=? t) && (t <? 1699149600000))%Z
    then (-14400000)%Z else (-18000000)%Z.

Definition newYork : Runtime :=
  mkRuntime newYorkOffset
    (fun d => if (d <? 19662)%Z then 19631%Z else 19662%Z)
    (fun _ => "Wednesday, November 8, 2023")
    (fun _ => "Nov 1") (fun _ => "Nov 8, 2023")
    (fun _ => "2023-11-08T17:00:00.000Z")
    (fun _ _ => Throw "503 Service Unavailable")
    (fun _ _ => true)
    (fun w => "report-" ++ Js.showNat (List.length (w_reports w)))
    "Provided Date object is invalid"
    (fun w => w).

(** Wednesday 8 November 2023, 12:00 in New York. *)
Definition nov8Noon : Js.Time := 1699462800000%Z.

(** Done at 23:59:59.999 of 8 November, New York time. *)
Definition justInTime : Task :=
  mkTask "T7" "Release notes" "DONE" "HIGH" "P1" (Some "A") "C"
         None 1699000000000%Z 1699505999999%Z.

(** Done at 23:59:59.999 of 31 October, New York time. *)
Definition tooEarly : Task :=
  mkTask "T6" "Halloween banner" "DONE" "LOW" "P1" (Some "A") "C"
         None 1698000000000%Z 1698811199999%Z.

Definition manhattan : World :=
  mkWorld [ann] [website] [tooEarly; justInTime] [] nov8Noon [] [] [].

(** ** The first day a [Date] can hold: 20 April of the year -271821,
    and a task of its last millisecond. *)
Definition firstDay : Js.Time := (-8640000000000000)%Z.

Definition ancient : Task :=
  mkTask "T0" "Invent the wheel" "DONE" "LOW" "P1" (Some "A") "C"
         None (-8640000000000000)%Z (-8639999913600001)%Z.

End Samples.

(* ================================================================== *)
(** * Notions used to state what the services do                       *)
(* ================================================================== *)

Module Notions.

(** The line of a task in the daily prompt, and in the weekly one. *)
Definition dailyLine (t : Gemini.TaskSummaryInput) : string :=
  "- " ++ Js.dquote ++ Gemini.title t ++ Js.dquote ++ " (" ++ Gemini.status t
  ++ ", " ++ Gemini.priority t ++ " priority, Project: " ++ Gemini.project t
  ++ ")".

Definition weeklyLine (t : Gemini.TaskSummaryInput) : string :=
  "- " ++ Js.dquote ++ Gemini.title t ++ Js.dquote ++ " (" ++ Gemini.status t
  ++ ", " ++ Gemini.priority t ++ ", Project: " ++ Gemini.project t ++ ")".

(** The completion service is asked: the guard
    [!this.model || tasks.length === 0] is false. *)
Definition asked (this : Gemini.GeminiService)
    (tasks : list Gemini.TaskSummaryInput) : bool :=
  negb (Js.isNull (Gemini.model this)) && negb (List.length tasks =? 0)%nat.

(** Most recently updated first; newest first. *)
Definition notOlder (a b : Report.TaskWithProject) : Prop :=
  (task_updatedAt (Report.row b) <= task_updatedAt (Report.row a))%Z.

Definition newerRow (a b : ReportRow) : Prop :=
  (report_createdAt b <= report_createdAt a)%Z.

(** The history entry of a report row. *)
Definition entryOf (r : ReportRow) : Report.HistoryEntry :=
  Report.mkHistoryEntry (report_id r) (report_type r) (report_summary r)
    (report_data r) (report_createdAt r).

(** The process state with one more report row. *)
Definition storeReport (r : ReportRow) (w : World) : World :=
  mkWorld (w_users w) (w_projects w) (w_tasks w) (w_reports w ++ [r])%list
          (w_clock w) (w_log w) (w_prompts w) (w_outbox w).

(** The statistics of a daily report and the summary call made with
    them, for a user that was found. *)
Definition dailySummaryRun (R : Runtime) (g : Gemini.GeminiService)
    (user : User) (userId : string) (date : option Js.Date) (w : World)
    : ReportData * (Outcome Gemini.SummaryResult * World) :=
  let w3 := interleave R (interleave R (interleave R w)) in
  let target := Report.dateOr date w in
  let data :=
    Report.calculateStats R (Report.tasksSeen R userId w)
      (fst (Report.dailyWindow R target)) (snd (Report.dailyWindow R target))
      (w_clock w3) in
  (data,
   Gemini.generateDailySummary R g (user_name user)
     (map Report.summaryInput (data_tasks data)) target w3).

Definition weeklySummaryRun (R : Runtime) (g : Gemini.GeminiService)
    (user : User) (userId : string) (weekEndDate : option Js.Date) (w : World)
    : ReportData * (Outcome Gemini.SummaryResult * World) :=
  let w3 := interleave R (interleave R (interleave R w)) in
  let target := Report.dateOr weekEndDate w in
  let startDate := fst (Report.weeklyWindow R target) in
  let endDate := snd (Report.weeklyWindow R target) in
  let data :=
    Report.calculateStats R (Report.tasksSeen R userId w) startDate endDate
      (w_clock w3) in
  (data,
   Gemini.generateWeeklySummary R g (user_name user)
     (map Report.summaryInput (data_tasks data)) startDate endDate
     (mkStats (data_created data) (data_completed data) (data_inProgress data)
        (data_overdue data)) w3).

(** Two process states with the same tables, outbox and clock. *)
Definition sameTables (w w' : World) : Prop :=
  w_users w' = w_users w /\ w_projects w' = w_projects w
  /\ w_tasks w' = w_tasks w /\ w_reports w' = w_reports w
  /\ w_outbox w' = w_outbox w /\ w_clock w' = w_clock w.

(** The per-user send of a report type, and the number of task rows
    its mail shows at most. *)
Definition sendOf (R : Runtime) (g : Gemini.GeminiService) (ty : ReportType)
    : string -> M unit :=
  match ty with
  | DAILY => Report.sendDailyReportEmail R g
  | WEEKLY => Report.sendWeeklyReportEmail R g
  end.

Definition rowCap (ty : ReportType) : nat :=
  match ty with DAILY => 10 | WEEKLY => 20 end.

(** The same runtime with another mailer. *)
Definition withDeliver (R : Runtime) (d : Mail -> World -> bool) : Runtime :=
  mkRuntime (localTZA R) (monthStart R) (formatLong R) (formatShort R)
    (formatShortYear R) (toISOString R) (generateContent R) d (freshId R)
    (invalidDateError R) (interleave R).

(** The team of a manager: the members of the projects the manager
    owns, as the project query of [getTeamReport] sees them; and the
    start of the day its report query compares with. *)
Definition teamSeen (R : Runtime) (managerId : string) (w : World)
    : list string :=
  Report.teamMemberIdsOf
    (filter (fun p => project_ownerId p =? managerId)
            (w_projects (interleave R w))).

Definition teamStartOfDay (R : Runtime) (date : option Js.Date) (w : World)
    : Js.Date :=
  JsDate.setHours R (Report.dateOr date (interleave R (interleave R w))) 0 0 0 0.

(** ** Local time

    The local day of an instant; the instant at which the local clock
    shows a time of the day on a local day; and the instant a number of
    local calendar days earlier, at the same time of the day.  The last
    two are Invalid Dates when they fall outside the range of [Date]. *)
Definition localDay (R : Runtime) (t : Js.Time) : Z :=
  JsDate.Day (JsDate.LocalTime R t).

Definition atLocal (R : Runtime) (day timeOfDay : Z) : Js.Date :=
  Js.TimeClip (JsDate.UTC R (day * Js.msPerDay + timeOfDay)).

Definition daysEarlier (R : Runtime) (n : Z) (t : Js.Time) : Js.Date :=
  Js.TimeClip (JsDate.UTC R (JsDate.LocalTime R t - n * Js.msPerDay)).

(** The time zone keeps the offset [o] from [lo] to [hi]: no
    daylight-saving change in between. *)
Definition steadyOffset (R : Runtime) (o lo hi : Z) : Prop :=
  forall x isUTC, (lo <= x <= hi)%Z -> localTZA R x isUTC = o.

(** No offset of the time zone exceeds a day. *)
Definition offsetsWithinADay (R : Runtime) : Prop :=
  forall x isUTC, (Z.abs (localTZA R x isUTC) <= Js.msPerDay)%Z.

(** An instant lies in the window from [windowStart] to [windowEnd],
    both valid, ends included. *)
Definition within (windowStart windowEnd : Js.Date) (t : Js.Time) : Prop :=
  exists s e,
    windowStart = Js.At s /\ windowEnd = Js.At e /\ (s <= t <= e)%Z.

(** The process state with one more mail handed to the mailer. *)
Definition handMail (mail : Mail) (w : World) : World :=
  mkWorld (w_users w) (w_projects w) (w_tasks w) (w_reports w) (w_clock w)
          (w_log w) (w_prompts w) (w_outbox w ++ [mail])%list.

(** The task is one the user is assigned to or has reported, in one of
    the given projects that the user owns or is a member of. *)
Definition ownTaskIn (userId : string) (projects : list Project) (t : Task)
    : bool :=
  existsb
    (fun p => (project_id p =? task_projectId t)
              && ((project_ownerId p =? userId)
                  || existsb (fun m => m =? userId) (project_members p)))
    projects
  && (Report.optEqb (task_assigneeId t) userId
      || (task_reporterId t =? userId)).

(** The user ids of the sends of a report type a batch has made, in
    the order of the calls. *)
Definition sentTo (ty : ReportType) (s : Scheduler.State) : list string :=
  map Scheduler.call_userId
    (filter (fun c => Report.reportTypeEqb (Scheduler.call_type c) ty)
            (Scheduler.sendCalls s)).

(** A send that leaves the user table as it is. *)
Definition keepsUsers (send : string -> M unit) : Prop :=
  forall userId w, w_users (snd (send userId w)) = w_users w.

(** Where the batch of type [ty] over [users] stands after [k] of its
    turns: at its query before the first, at the send for the user at
    position [k - 1] after that, at its end when no such user is left. *)
Definition standsAt (ty : ReportType) (users : list (string * string))
    (k : nat) (p : option Scheduler.Suspended) : Prop :=
  match k with
  | O => p = Some (Scheduler.AtQuery ty)
  | S j =>
      match skipn j users with
      | user :: rest => exists acc, p = Some (Scheduler.AtSend ty acc user rest)
      | [] => p = None
      end
  end.

(** The user a batch sends to at its turn [k]: nobody at the turn of its
    query, nobody once the users are through. *)
Definition sendAtTurn (ids : list string) (k : nat) : list string :=
  match k with
  | O => []
  | S j => firstn 1 (skipn j ids)
  end.

(** The scheduler state after a log line. *)
Definition logged (lvl : LogLevel) (msg : string) (s : Scheduler.State)
    : Scheduler.State :=
  Scheduler.mkState (appendLog lvl msg (Scheduler.world s))
    (Scheduler.registry s) (Scheduler.dailyJob s) (Scheduler.weeklyJob s)
    (Scheduler.sendCalls s).

Definition callbackOf (ty : ReportType) : Scheduler.Callback :=
  match ty with
  | DAILY => Scheduler.DailyCallback
  | WEEKLY => Scheduler.WeeklyCallback
  end.

(** The condition of line 40 of email.service.ts: development without
    credentials. *)
Definition devMode (config : Mailer.EmailConfig) : bool :=
  (Mailer.env config =? "development") && (Mailer.sendgridApiKey config =? "")
  && (Mailer.smtpUser config =? "").

(** The character does not occur in the text. *)
Definition lacks (c : ascii) (s : string) : Prop :=
  Js.includes (String c EmptyString) s = false.

End Notions.

(* ================================================================== *)
(** * Properties                                                       *)
(* ================================================================== *)

(** ** Strings: concatenation, occurrence, digits *)

Module StringFacts.

Lemma append_assoc (a b c : string) : (a ++ b) ++ c = a ++ (b ++ c).
Proof. induction a as [|x a IH]; simpl; [reflexivity | now rewrite IH]. Qed.

Lemma append_empty_r (a : string) : a ++ "" = a.
Proof. induction a as [|x a IH]; simpl; [reflexivity | now rewrite IH]. Qed.

Lemma prefix_iff (n s : string) :
  prefix n s = true <-> exists rest, s = n ++ rest.
Proof.
  revert s; induction n as [|a n IH]; intros s; simpl.
  - destruct s; split; eauto.
  - destruct s as [|b s]; simpl.
    + split; [discriminate | intros [r Hr]; discriminate].
    + destruct (ascii_dec a b) as [->|Hne].
      * split.
        -- intros H. apply IH in H. destruct H as [r ->]. now exists r.
        -- intros [r Hr]. apply IH. exists r. congruence.
      * split; [discriminate | intros [r Hr]; congruence].
Qed.

(** [includes] decides occurrence as a substring. *)
Lemma includes_iff (n s : string) :
  Js.includes n s = true <-> exists pre post, s = pre ++ n ++ post.
Proof.
  induction s as [|c s IH]; cbn [Js.includes].
  - rewrite orb_false_r, prefix_iff. split.
    + intros [r Hr]. exists "", r. exact Hr.
    + intros [pre [post H]]. destruct pre; simpl in H; [eauto | discriminate].
  - rewrite orb_true_iff, prefix_iff, IH. split.
    + intros [[r Hr] | [pre [post H]]].
      * exists "", r. exact Hr.
      * exists (String c pre), post. simpl. now rewrite H.
    + intros [pre [post H]]. destruct pre as [|x pre]; simpl in H.
      * left. eauto.
      * right. exists pre, post. congruence.
Qed.

Lemma includes_middle (n pre post : string) :
  Js.includes n (pre ++ n ++ post) = true.
Proof. apply includes_iff. eauto. Qed.

Lemma includes_append_r (n a b : string) :
  Js.includes n b = true -> Js.includes n (a ++ b) = true.
Proof.
  rewrite !includes_iff. intros [pre [post ->]].
  exists (a ++ pre), post. now rewrite append_assoc.
Qed.

Lemma includes_append_l (n a b : string) :
  Js.includes n a = true -> Js.includes n (a ++ b) = true.
Proof.
  rewrite !includes_iff. intros [pre [post ->]].
  exists pre, (post ++ b). now rewrite !append_assoc.
Qed.

Lemma dropDigits_append (a b : string) :
  Js.dropDigits (a ++ b) = Js.dropDigits a ++ Js.dropDigits b.
Proof.
  induction a as [|c a IH]; simpl; [reflexivity|].
  destruct (Js.isDigit c); simpl; now rewrite IH.
Qed.

Lemma dropDigits_uint (d : uint) : Js.dropDigits (NilEmpty.string_of_uint d) = "".
Proof. induction d; simpl; auto. Qed.

(** The decimal rendering of a number consists of digits only. *)
Lemma dropDigits_showNat (n : nat) : Js.dropDigits (Js.showNat n) = "".
Proof.
  unfold Js.showNat, NilZero.string_of_uint.
  destruct (Nat.to_uint n); try reflexivity; apply (dropDigits_uint (_ _)).
Qed.

(** A digit-free needle that occurs in a text still occurs once the
    digits of the text are dropped. *)
Lemma includes_dropDigits (n s : string) :
  Js.dropDigits n = n ->
  Js.includes n s = true -> Js.includes n (Js.dropDigits s) = true.
Proof.
  intros Hn. rewrite !includes_iff. intros [pre [post ->]].
  exists (Js.dropDigits pre), (Js.dropDigits post).
  now rewrite !dropDigits_append, Hn.
Qed.

Lemma not_includes_by_shape (n s : string) :
  Js.dropDigits n = n ->
  Js.includes n (Js.dropDigits s) = false -> Js.includes n s = false.
Proof.
  intros Hn Hs. destruct (Js.includes n s) eqn:E; [|reflexivity].
  apply (includes_dropDigits _ _ Hn) in E. congruence.
Qed.

(** [trim] at work: ASCII and Unicode white space goes from both ends,
    what is inside stays, and so does a character whose last byte is that
    of a no-break space. *)
Lemma trim_examples :
  Js.trim ("  a b" ++ Js.newline) = "a b"
  /\ Js.trim (Js.ofBytes [194; 160; 97; 239; 187; 191]) = "a"
  /\ Js.trim (Js.ofBytes [160; 97; 160]) = "a"
  /\ Js.trim (Js.ofBytes [226; 128; 168; 97; 226; 128; 169; 13; 10]) = "a"
  /\ Js.trim (Js.ofBytes [225; 154; 128; 226; 128; 137; 97; 227; 128; 128;
                          226; 129; 159; 226; 128; 175]) = "a"
  /\ Js.trim (Js.ofBytes [97; 195; 160]) = Js.ofBytes [97; 195; 160]
  /\ Js.trim (Js.ofBytes [32; 226; 128; 139; 32]) = Js.ofBytes [226; 128; 139]
  /\ Js.trim (Js.ofBytes [9; 11; 12; 32]) = "".
Proof. vm_compute. repeat split. Qed.

End StringFacts.

(** ** gemini.service.ts *)

Module GeminiFacts.

Import StringFacts.

Lemma dropDigits_if (b : bool) (x y : string) :
  Js.dropDigits (if b then x else y)
  = if b then Js.dropDigits x else Js.dropDigits y.
Proof. now destruct b. Qed.

(** The needle lies inside one of the pieces of a concatenation. *)
Ltac find_piece :=
  rewrite ?append_assoc;
  repeat first
    [ apply includes_append_l; vm_compute; reflexivity
    | apply includes_append_r ];
  vm_compute; reflexivity.

Ltac destruct_flags :=
  repeat match goal with
         | |- context [if ?b then _ else _] => destruct b
         end.

(** The needle has no digit and does not occur in the text once the
    numbers are taken out, whatever clauses are present. *)
Ltac absent_by_shape :=
  apply not_includes_by_shape; [reflexivity|];
  rewrite ?dropDigits_append, ?dropDigits_if, ?dropDigits_append,
    ?dropDigits_showNat;
  destruct_flags; vm_compute; reflexivity.

Ltac refute_occurrence H :=
  exfalso; revert H;
  match goal with
  | |- ?x = true -> False =>
      assert (x = false) as -> by absent_by_shape; discriminate
  end.

(** A clause guarded by [n > 0] occurs exactly when [n > 0]. *)
Ltac clause_iff n :=
  let H := fresh "H" in
  let Hn := fresh "Hn" in
  split; intros H;
  [ destruct (0 <? n)%nat eqn:Hn;
    [ apply Nat.ltb_lt; exact Hn | refute_occurrence H ]
  | apply Nat.ltb_lt in H; rewrite H; find_piece ].

(** C8.  The daily fallback text is the opening sentence, which carries
    the formatted date, followed by a body.  For an empty task list the
    body is the no-tasks sentence alone.  Otherwise it is the total
    count followed, in this order, by the completed clause, the
    in-progress clause and the high-priority attention clause, each
    present exactly when its count is positive. *)
Theorem fallback_daily_template
    (userName dateStr : string) (tasks : list Gemini.TaskSummaryInput) :
  let completed := Gemini.countIf (fun t => Gemini.status t =? "DONE") tasks in
  let inProgress :=
    Gemini.countIf (fun t => Gemini.status t =? "IN_PROGRESS") tasks in
  let highPriority :=
    Gemini.countIf (fun t => (Gemini.priority t =? "HIGH")
                             || (Gemini.priority t =? "CRITICAL")) tasks in
  exists body : string,
    Gemini.summary (Gemini.generateFallbackDailySummary userName tasks dateStr)
      = "Here's your daily summary for " ++ dateStr ++ ". " ++ body
    /\ body =
       match tasks with
       | [] => "You have no tasks assigned for today. Consider reviewing your backlog or checking in with your team."
       | _ :: _ =>
           ("You have " ++ Js.showNat (List.length tasks) ++ " total task"
            ++ (if (List.length tasks =? 1)%nat then "" else "s") ++ ". ")
           ++ (if (0 <? completed)%nat
               then "Great work completing " ++ Js.showNat completed ++ " task"
                    ++ (if (completed =? 1)%nat then "" else "s") ++ "! "
               else "")
           ++ (if (0 <? inProgress)%nat
               then Js.showNat inProgress ++ " task"
                    ++ (if (inProgress =? 1)%nat then " is" else "s are")
                    ++ " currently in progress. "
               else "")
           ++ (if (0 <? highPriority)%nat
               then "Note: " ++ Js.showNat highPriority ++ " high-priority task"
                    ++ (if (highPriority =? 1)%nat then "" else "s")
                    ++ " need" ++ (if (highPriority =? 1)%nat then "s" else "")
                    ++ " attention."
               else "")
       end
    /\ (Js.includes "no tasks" body = true <-> tasks = [])
    /\ (Js.includes "total task" body = true <-> tasks <> [])
    /\ (Js.includes "Great work completing" body = true <-> 0 < completed)
    /\ (Js.includes "currently in progress" body = true <-> 0 < inProgress)
    /\ (Js.includes "attention" body = true <-> 0 < highPriority).
Proof.
  intros completed inProgress highPriority.
  eexists. split; [|split; [reflexivity|]].
  - unfold Gemini.generateFallbackDailySummary.
    fold completed inProgress highPriority. cbn [Gemini.summary].
    destruct tasks as [|t ts].
    + cbn [List.length Nat.eqb]. rewrite !append_assoc. reflexivity.
    + cbn [List.length Nat.eqb].
      destruct (0 <? completed)%nat, (0 <? inProgress)%nat,
               (0 <? highPriority)%nat;
        rewrite ?append_assoc, ?append_empty_r; reflexivity.
  - destruct tasks as [|t ts].
    + repeat split; intros H; try reflexivity; try discriminate;
        try congruence; try (exfalso; vm_compute in H; lia).
    + generalize (List.length (t :: ts)); intros len.
      generalize completed inProgress highPriority. clear.
      intros c i h.
      split; [|split; [|split; [|split]]].
      * split; intros H; [refute_occurrence H | discriminate].
      * split; intros H; [discriminate | find_piece].
      * clause_iff c.
      * clause_iff i.
      * clause_iff h.
Qed.

(** Three tasks, two done, one in progress, none of high priority. *)
Lemma fallback_daily_three_tasks :
  let text :=
    Gemini.summary
      (Gemini.generateFallbackDailySummary "Ann" Fixtures.threeTasks
         "Tuesday, November 14, 2023") in
  Js.includes "3 total" text = true
  /\ Js.includes "Great work completing 2 tasks! " text = true
  /\ Js.includes "1 task is currently in progress" text = true
  /\ Js.includes "attention" text = false.
Proof.
  destruct (fallback_daily_template "Ann" "Tuesday, November 14, 2023"
              Fixtures.threeTasks) as [body [Htext [Hbody _]]].
  cbv zeta. rewrite Htext, Hbody. vm_compute. auto.
Defined.

(** C9.  The weekly fallback text is the opening sentence, which
    carries the date range, followed by the completed, created,
    in-progress and overdue clauses in this order, each present exactly
    when its count is positive, and by a closing sentence: the backlog
    sentence for an empty task list, the momentum sentence for a
    non-empty one with nothing completed, none otherwise. *)
Theorem fallback_weekly_template
    (userName startStr endStr : string) (tasks : list Gemini.TaskSummaryInput)
    (stats : Stats) :
  exists body : string,
    Gemini.summary
      (Gemini.generateFallbackWeeklySummary userName tasks startStr endStr stats)
      = "Weekly summary for " ++ startStr ++ " - " ++ endStr ++ ". " ++ body
    /\ body =
       (if (0 <? st_completed stats)%nat
        then "You completed " ++ Js.showNat (st_completed stats) ++ " task"
             ++ (if (st_completed stats =? 1)%nat then "" else "s")
             ++ " this week - nice work! "
        else "")
       ++ (if (0 <? st_created stats)%nat
           then Js.showNat (st_created stats) ++ " new task"
                ++ (if (st_created stats =? 1)%nat then " was" else "s were")
                ++ " created. "
           else "")
       ++ (if (0 <? st_inProgress stats)%nat
           then Js.showNat (st_inProgress stats) ++ " task"
                ++ (if (st_inProgress stats =? 1)%nat then " is" else "s are")
                ++ " currently in progress. "
           else "")
       ++ (if (0 <? st_overdue stats)%nat
           then "Heads up: " ++ Js.showNat (st_overdue stats) ++ " task"
                ++ (if (st_overdue stats =? 1)%nat then " is" else "s are")
                ++ " overdue and may need immediate attention. "
           else "")
       ++ match tasks with
          | [] => "No active tasks this week. Check your project backlogs for upcoming work."
          | _ :: _ =>
              if (st_completed stats =? 0)%nat
              then "Focus on completing in-progress tasks to maintain momentum."
              else ""
          end
    /\ (Js.includes "You completed" body = true <-> 0 < st_completed stats)
    /\ (Js.includes "new task" body = true <-> 0 < st_created stats)
    /\ (Js.includes "currently in progress" body = true
        <-> 0 < st_inProgress stats)
    /\ (Js.includes "overdue" body = true <-> 0 < st_overdue stats)
    /\ (Js.includes "maintain momentum" body = true
        <-> st_completed stats = 0 /\ tasks <> [])
    /\ (Js.includes "Check your project backlogs" body = true <-> tasks = []).
Proof.
  destruct stats as [cr c i o].
  cbn [st_created st_completed st_inProgress st_overdue].
  eexists. split; [|split; [reflexivity|]].
  - unfold Gemini.generateFallbackWeeklySummary.
    cbn [Gemini.summary st_created st_completed st_inProgress st_overdue].
    destruct tasks as [|t ts]; cbn [List.length];
      [ change (0 <? 0)%nat with false; change (0 =? 0)%nat with true
      | change (0 <? S (List.length ts))%nat with true;
        change (S (List.length ts) =? 0)%nat with false ];
      rewrite ?andb_false_r, ?andb_true_r;
      destruct (0 <? c)%nat, (0 <? cr)%nat, (0 <? i)%nat, (0 <? o)%nat,
               (c =? 0)%nat;
      rewrite ?append_assoc, ?append_empty_r; reflexivity.
  - split; [|split; [|split; [|split; [|split]]]].
    + destruct tasks; clause_iff c.
    + destruct tasks; clause_iff cr.
    + destruct tasks; clause_iff i.
    + destruct tasks; clause_iff o.
    + destruct tasks as [|t ts].
      * split; [intros H; refute_occurrence H | intros [_ H]; congruence].
      * split; intros H.
        -- split; [|discriminate].
           destruct (c =? 0)%nat eqn:Hc; [now apply Nat.eqb_eq|].
           refute_occurrence H.
        -- destruct H as [-> _]. change (0 <? 0)%nat with false.
           change (0 =? 0)%nat with true. find_piece.
    + destruct tasks as [|t ts].
      * split; intros H; [reflexivity | find_piece].
      * split; intros H; [refute_occurrence H | discriminate].
Qed.

(** Five created, none completed, two in progress, one overdue, and a
    task list that is not empty. *)
Lemma fallback_weekly_nothing_completed :
  let text :=
    Gemini.summary
      (Gemini.generateFallbackWeeklySummary "Ann" Fixtures.threeTasks
         "Nov 7" "Nov 14, 2023" (mkStats 5 0 2 1)) in
  Js.includes
    "Heads up: 1 task is overdue and may need immediate attention. " text = true
  /\ Js.includes
       "Focus on completing in-progress tasks to maintain momentum." text = true
  /\ Js.includes "You completed" text = false.
Proof.
  destruct (fallback_weekly_template "Ann" "Nov 7" "Nov 14, 2023"
              Fixtures.threeTasks (mkStats 5 0 2 1)) as [body [Htext [Hbody _]]].
  cbv zeta. rewrite Htext, Hbody. vm_compute. auto.
Defined.

(** C10.  Two calls of a fallback generator that differ in the user
    name only return the same result, text and flag. *)
Theorem fallback_ignores_userName
    (userName1 userName2 : string) (tasks : list Gemini.TaskSummaryInput)
    (dateStr startStr endStr : string) (stats : Stats) :
  Gemini.generateFallbackDailySummary userName1 tasks dateStr
    = Gemini.generateFallbackDailySummary userName2 tasks dateStr
  /\ Gemini.generateFallbackWeeklySummary userName1 tasks startStr endStr stats
    = Gemini.generateFallbackWeeklySummary userName2 tasks startStr endStr stats.
Proof. split; reflexivity. Qed.

Lemma length_eqb_0_cons {A : Type} (x : A) (xs : list A) :
  (List.length (x :: xs) =? 0)%nat = false.
Proof. reflexivity. Qed.

(** C1.  With a configured model and a task list that is not empty, a
    completion call that throws makes [generateDailySummary] and
    [generateWeeklySummary] return, not throw: the result is the
    deterministic fallback for the same inputs, flagged as not
    AI-generated. *)
Theorem summary_falls_back_when_completion_throws
    (R : Runtime) (this : Gemini.GeminiService) (m : Gemini.GenerativeModel)
    (userName : string) (tasks : list Gemini.TaskSummaryInput)
    (date startDate endDate : Js.Date) (stats : Stats) (w : World)
    (Hmodel : Gemini.model this = Some m) (Htasks : tasks <> []) :
  (forall e,
     generateContent R
       (Gemini.buildDailySummaryPrompt userName tasks (formatLong R date)) w
       = Throw e ->
     let fallback :=
       Gemini.generateFallbackDailySummary userName tasks (formatLong R date) in
     fst (Gemini.generateDailySummary R this userName tasks date w) = Ok fallback
     /\ Gemini.isAIGenerated fallback = false)
  /\
  (forall e,
     generateContent R
       (Gemini.buildWeeklySummaryPrompt userName tasks
          (formatShort R startDate) (formatShortYear R endDate) stats) w
       = Throw e ->
     let fallback :=
       Gemini.generateFallbackWeeklySummary userName tasks
         (formatShort R startDate) (formatShortYear R endDate) stats in
     fst (Gemini.generateWeeklySummary R this userName tasks startDate endDate
            stats w) = Ok fallback
     /\ Gemini.isAIGenerated fallback = false).
Proof.
  destruct tasks as [|t ts]; [congruence|].
  split; intros e He; cbv zeta; (split; [|reflexivity]).
  - unfold Gemini.generateDailySummary. rewrite Hmodel.
    cbn [Js.isNull orb]. rewrite length_eqb_0_cons.
    unfold tryCatch, bind, await, Gemini.callModel. rewrite He. reflexivity.
  - unfold Gemini.generateWeeklySummary. rewrite Hmodel.
    cbn [Js.isNull orb]. rewrite length_eqb_0_cons.
    unfold tryCatch, bind, await, Gemini.callModel. rewrite He. reflexivity.
Qed.

(** The completion service answers 503 to a request about three tasks. *)
Lemma summary_falls_back_on_503 :
  fst (Gemini.generateDailySummary Fixtures.quiet Fixtures.configured "Ann"
         Fixtures.threeTasks Fixtures.today Fixtures.emptyWorld)
  = Ok (Gemini.generateFallbackDailySummary "Ann" Fixtures.threeTasks
          "Tuesday, November 14, 2023")
  /\ fst (Gemini.generateWeeklySummary Fixtures.quiet Fixtures.configured "Ann"
            Fixtures.threeTasks Fixtures.epoch Fixtures.today (mkStats 5 0 2 1)
            Fixtures.emptyWorld)
  = Ok (Gemini.generateFallbackWeeklySummary "Ann" Fixtures.threeTasks
          "Nov 7" "Nov 14, 2023" (mkStats 5 0 2 1)).
Proof.
  assert (Hne : Fixtures.threeTasks <> []) by discriminate.
  destruct (summary_falls_back_when_completion_throws
              Fixtures.quiet Fixtures.configured Fixtures.flash "Ann"
              Fixtures.threeTasks Fixtures.today Fixtures.epoch Fixtures.today
              (mkStats 5 0 2 1) Fixtures.emptyWorld eq_refl Hne) as [Hd Hw].
  split.
  - exact (proj1 (Hd "503 Service Unavailable" eq_refl)).
  - exact (proj1 (Hw "503 Service Unavailable" eq_refl)).
Defined.

(** C4.  For an empty task list, whatever the configuration, and for
    any task list when no model is configured, the summary is the
    deterministic fallback, flagged as not AI-generated, and the process
    state is left as it was: no request reaches the completion service. *)
Theorem summary_short_circuit
    (R : Runtime) (this : Gemini.GeminiService)
    (userName : string) (tasks : list Gemini.TaskSummaryInput)
    (date startDate endDate : Js.Date) (stats : Stats) (w : World) :
  let unconfigured := Gemini.mkGeminiService None in
  Gemini.generateDailySummary R this userName [] date w
    = (Ok (Gemini.generateFallbackDailySummary userName [] (formatLong R date)),
       w)
  /\ Gemini.generateWeeklySummary R this userName [] startDate endDate stats w
    = (Ok (Gemini.generateFallbackWeeklySummary userName []
             (formatShort R startDate) (formatShortYear R endDate) stats), w)
  /\ Gemini.generateDailySummary R unconfigured userName tasks date w
    = (Ok (Gemini.generateFallbackDailySummary userName tasks
             (formatLong R date)), w)
  /\ Gemini.generateWeeklySummary R unconfigured userName tasks startDate
       endDate stats w
    = (Ok (Gemini.generateFallbackWeeklySummary userName tasks
             (formatShort R startDate) (formatShortYear R endDate) stats), w)
  /\ (forall tasks' dateStr,
        Gemini.isAIGenerated
          (Gemini.generateFallbackDailySummary userName tasks' dateStr) = false)
  /\ (forall tasks' startStr endStr,
        Gemini.isAIGenerated
          (Gemini.generateFallbackWeeklySummary userName tasks' startStr endStr
             stats) = false).
Proof.
  cbv zeta. repeat split.
  - unfold Gemini.generateDailySummary. cbn [List.length Nat.eqb].
    now rewrite orb_true_r.
  - unfold Gemini.generateWeeklySummary. cbn [List.length Nat.eqb].
    now rewrite orb_true_r.
Qed.

(** When the completion service answers, its trimmed text is the
    summary, flagged as AI-generated, and the prompt has left the
    process. *)
Lemma summary_uses_model_when_it_answers
    (R : Runtime) (this : Gemini.GeminiService) (m : Gemini.GenerativeModel)
    (userName text : string) (tasks : list Gemini.TaskSummaryInput)
    (date : Js.Date) (w : World) :
  Gemini.model this = Some m -> tasks <> [] ->
  generateContent R
    (Gemini.buildDailySummaryPrompt userName tasks (formatLong R date)) w
    = Ok text ->
  let r := Gemini.generateDailySummary R this userName tasks date w in
  fst r = Ok (Gemini.mkSummaryResult (Js.trim text) true)
  /\ w_prompts (snd r)
     = w_prompts
         (interleave R (interleave R
            (mkWorld (w_users w) (w_projects w) (w_tasks w) (w_reports w)
               (w_clock w) (w_log w)
               (w_prompts w
                ++ [Gemini.buildDailySummaryPrompt userName tasks
                      (formatLong R date)])%list
               (w_outbox w)))).
Proof.
  intros Hmodel Htasks Hanswer.
  destruct tasks as [|t ts]; [congruence|].
  cbv zeta. unfold Gemini.generateDailySummary. rewrite Hmodel.
  cbn [Js.isNull orb]. rewrite length_eqb_0_cons.
  unfold tryCatch, bind, await, Gemini.callModel, ret. rewrite Hanswer.
  split; reflexivity.
Qed.

End GeminiFacts.

(** ** report.service.ts *)

Module DateFacts.

Lemma TimeClip_in_range (t : Z) :
  (Z.abs t <= Js.maxTime)%Z -> Js.TimeClip t = Js.At t.
Proof.
  intros H. unfold Js.TimeClip.
  destruct (Z.leb_spec (Z.abs t) Js.maxTime); [reflexivity | lia].
Qed.

Lemma TimeClip_At (t x : Z) :
  Js.TimeClip t = Js.At x -> x = t /\ (Z.abs t <= Js.maxTime)%Z.
Proof.
  unfold Js.TimeClip.
  destruct (Z.leb_spec (Z.abs t) Js.maxTime) as [Hle|Hgt]; [|discriminate].
  intros E. inversion E; subst. split; [reflexivity | exact Hle].
Qed.

Lemma dateLeb_At (x y : Z) : Js.dateLeb (Js.At x) (Js.At y) = (x <=? y)%Z.
Proof. reflexivity. Qed.

Lemma dateGeb_At (x y : Z) : Js.dateGeb (Js.At x) (Js.At y) = (y <=? x)%Z.
Proof. reflexivity. Qed.

Lemma dateGeb_Invalid (a : Js.Date) : Js.dateGeb a Js.Invalid = false.
Proof. destruct a; reflexivity. Qed.

Lemma dateLeb_Invalid (a : Js.Date) : Js.dateLeb a Js.Invalid = false.
Proof. destruct a; reflexivity. Qed.

(** An instant is counted in a window exactly when it lies in it. *)
Lemma within_iff (ws we : Js.Date) (t : Js.Time) :
  Js.dateGeb (Js.At t) ws && Js.dateLeb (Js.At t) we = true
  <-> Notions.within ws we t.
Proof.
  unfold Notions.within. destruct ws as [|s], we as [|e]; cbn.
  - split; [discriminate | intros [s [e [H _]]]; discriminate].
  - split; [discriminate | intros [s [e' [H _]]]; discriminate].
  - rewrite andb_false_r.
    split; [discriminate | intros [s' [e [_ [H _]]]]; discriminate].
  - rewrite andb_true_iff, !Z.leb_le. split.
    + intros [H1 H2]. exists s, e. auto.
    + intros [s' [e' [E1 [E2 H]]]]. inversion E1; inversion E2; subst. tauto.
Qed.

Section Facts.
Variable R : Runtime.

Lemma MakeTime_end_of_day : JsDate.MakeTime 23 59 59 999 = (Js.msPerDay - 1)%Z.
Proof. reflexivity. Qed.

Lemma MakeTime_start_of_day : JsDate.MakeTime 0 0 0 0 = 0%Z.
Proof. reflexivity. Qed.

(** [setHours], in the words of local time. *)
Lemma setHours_start (t : Js.Time) :
  JsDate.setHours R (Js.At t) 0 0 0 0
  = Notions.atLocal R (Notions.localDay R t) 0.
Proof. reflexivity. Qed.

Lemma setHours_end (t : Js.Time) :
  JsDate.setHours R (Js.At t) 23 59 59 999
  = Notions.atLocal R (Notions.localDay R t) (Js.msPerDay - 1).
Proof. reflexivity. Qed.

(** [d.setDate(d.getDate() - 7)]: the month of [d] plays no part. *)
Lemma setDate_week_earlier (t : Js.Time) :
  JsDate.setDate R (Js.At t)
    (option_map (fun dt => dt - 7)%Z (JsDate.getDate R (Js.At t)))
  = Notions.daysEarlier R 7 t.
Proof.
  unfold JsDate.setDate, JsDate.getDate, Notions.daysEarlier. cbn [option_map].
  f_equal. f_equal.
  unfold JsDate.MakeDate, JsDate.MakeDayInMonthOf, JsDate.TimeWithinDay,
    JsDate.Day, Js.msPerDay.
  pose proof (Z.div_mod (JsDate.LocalTime R t) 86400000). lia.
Qed.

Lemma dailyWindow_local (t : Js.Time) :
  Report.dailyWindow R (Js.At t)
  = (Notions.atLocal R (Notions.localDay R t) 0,
     Notions.atLocal R (Notions.localDay R t) (Js.msPerDay - 1)).
Proof. reflexivity. Qed.

Lemma weeklyWindow_local (t : Js.Time) :
  Report.weeklyWindow R (Js.At t)
  = (match Notions.daysEarlier R 7 t with
     | Js.At t7 => Notions.atLocal R (Notions.localDay R t7) 0
     | Js.Invalid => Js.Invalid
     end,
     Notions.atLocal R (Notions.localDay R t) (Js.msPerDay - 1)).
Proof.
  unfold Report.weeklyWindow. rewrite setDate_week_earlier.
  destruct (Notions.daysEarlier R 7 t); reflexivity.
Qed.

Lemma weeklyWindow_end (d : Js.Date) :
  snd (Report.weeklyWindow R d) = snd (Report.dailyWindow R d).
Proof. reflexivity. Qed.

Lemma window_of_Invalid :
  Report.dailyWindow R Js.Invalid = (Js.Invalid, Js.Invalid)
  /\ Report.weeklyWindow R Js.Invalid = (Js.Invalid, Js.Invalid).
Proof. split; reflexivity. Qed.

(** ** A zone that keeps its offset *)

Lemma day_bounds (x : Z) :
  (x - Js.msPerDay < x / Js.msPerDay * Js.msPerDay <= x)%Z.
Proof.
  unfold Js.msPerDay.
  pose proof (Z.div_mod x 86400000 ltac:(lia)).
  pose proof (Z.mod_pos_bound x 86400000 ltac:(lia)). lia.
Qed.

Lemma day_start (x : Z) :
  (x / Js.msPerDay * Js.msPerDay = x - x mod Js.msPerDay)%Z.
Proof.
  unfold Js.msPerDay. pose proof (Z.div_mod x 86400000 ltac:(lia)). lia.
Qed.

Lemma dailyWindow_steady (t o : Z) :
  Notions.steadyOffset R o (t - 2 * Js.msPerDay) (t + 2 * Js.msPerDay) ->
  (Z.abs o <= Js.msPerDay)%Z ->
  (Z.abs t <= Js.maxTime - 2 * Js.msPerDay)%Z ->
  Report.dailyWindow R (Js.At t)
  = (Js.At (t - (t + o) mod Js.msPerDay),
     Js.At (t - (t + o) mod Js.msPerDay + (Js.msPerDay - 1))).
Proof.
  intros Hz Ho Hr. rewrite dailyWindow_local.
  unfold Notions.atLocal, Notions.localDay, JsDate.UTC, JsDate.LocalTime,
    JsDate.Day.
  assert (Et : localTZA R t true = o) by (apply Hz; unfold Js.msPerDay; lia).
  rewrite Et.
  pose proof (day_bounds (t + o)) as B. pose proof (day_start (t + o)) as S.
  assert (E0 : localTZA R ((t + o) / Js.msPerDay * Js.msPerDay + 0) false = o).
  { apply Hz. unfold Js.msPerDay in *. lia. }
  assert (E1 : localTZA R ((t + o) / Js.msPerDay * Js.msPerDay
                           + (Js.msPerDay - 1)) false = o).
  { apply Hz. unfold Js.msPerDay in *. lia. }
  rewrite E0, E1.
  rewrite !TimeClip_in_range
    by (unfold Js.maxTime, Js.msPerDay in *; lia).
  f_equal; f_equal; lia.
Qed.

Lemma weeklyWindow_steady (t o : Z) :
  Notions.steadyOffset R o (t - 9 * Js.msPerDay) (t + 2 * Js.msPerDay) ->
  (Z.abs o <= Js.msPerDay)%Z ->
  (Z.abs t <= Js.maxTime - 9 * Js.msPerDay)%Z ->
  Report.weeklyWindow R (Js.At t)
  = (Js.At (t - 7 * Js.msPerDay
            - (t - 7 * Js.msPerDay + o) mod Js.msPerDay),
     Js.At (t - (t + o) mod Js.msPerDay + (Js.msPerDay - 1))).
Proof.
  intros Hz Ho Hr. rewrite weeklyWindow_local.
  unfold Notions.daysEarlier, Notions.atLocal, Notions.localDay, JsDate.UTC,
    JsDate.LocalTime, JsDate.Day.
  assert (Et : localTZA R t true = o) by (apply Hz; unfold Js.msPerDay; lia).
  rewrite Et.
  assert (E7 : localTZA R (t + o - 7 * Js.msPerDay) false = o)
    by (apply Hz; unfold Js.msPerDay in *; lia).
  rewrite E7.
  rewrite (TimeClip_in_range (t + o - 7 * Js.msPerDay - o))
    by (unfold Js.maxTime, Js.msPerDay in *; lia).
  replace (t + o - 7 * Js.msPerDay - o)%Z with (t - 7 * Js.msPerDay)%Z by lia.
  assert (Et7 : localTZA R (t - 7 * Js.msPerDay) true = o)
    by (apply Hz; unfold Js.msPerDay in *; lia).
  rewrite Et7.
  pose proof (day_bounds (t + o)) as B. pose proof (day_start (t + o)) as S.
  pose proof (day_bounds (t - 7 * Js.msPerDay + o)) as B7.
  pose proof (day_start (t - 7 * Js.msPerDay + o)) as S7.
  assert (E0 : localTZA R ((t - 7 * Js.msPerDay + o) / Js.msPerDay
                           * Js.msPerDay + 0) false = o).
  { apply Hz. unfold Js.msPerDay in *. lia. }
  assert (E1 : localTZA R ((t + o) / Js.msPerDay * Js.msPerDay
                           + (Js.msPerDay - 1)) false = o).
  { apply Hz. unfold Js.msPerDay in *. lia. }
  rewrite E0, E1.
  rewrite !TimeClip_in_range
    by (unfold Js.maxTime, Js.msPerDay in *; lia).
  f_equal; f_equal; lia.
Qed.

(** ** Any zone whose offsets stay within a day *)

(** The start of the weekly window, when it is a date, is at least two
    days before the start of the daily window of the same date and at
    least three days before the end of both. *)
Lemma weekly_start_is_early (t s : Z) :
  Notions.offsetsWithinADay R ->
  fst (Report.weeklyWindow R (Js.At t)) = Js.At s ->
  (forall ds, fst (Report.dailyWindow R (Js.At t)) = Js.At ds ->
              (s + 2 * Js.msPerDay <= ds + 1)%Z)
  /\ (forall e, snd (Report.weeklyWindow R (Js.At t)) = Js.At e ->
                (s + 3 * Js.msPerDay <= e)%Z).
Proof.
  intros Hz. rewrite weeklyWindow_local, dailyWindow_local. cbn [fst snd].
  unfold Notions.daysEarlier.
  destruct (Js.TimeClip _) as [|t7] eqn:E7; [discriminate|].
  apply TimeClip_At in E7. destruct E7 as [E7 _].
  unfold Notions.atLocal, Notions.localDay, JsDate.UTC, JsDate.LocalTime,
    JsDate.Day in *.
  intros Hs. apply TimeClip_At in Hs. destruct Hs as [Hs _].
  pose proof (Hz t true) as A0.
  pose proof (Hz (t + localTZA R t true - 7 * Js.msPerDay)%Z false) as A1.
  pose proof (Hz t7 true) as A2.
  pose proof (day_bounds (t7 + localTZA R t7 true)) as B7.
  pose proof (day_bounds (t + localTZA R t true)) as B0.
  pose proof (Hz ((t7 + localTZA R t7 true) / Js.msPerDay * Js.msPerDay + 0)%Z
                 false) as A3.
  split.
  - intros ds Hd. apply TimeClip_At in Hd. destruct Hd as [Hd _].
    pose proof (Hz ((t + localTZA R t true) / Js.msPerDay * Js.msPerDay + 0)%Z
                   false) as A4.
    unfold Js.msPerDay in *. lia.
  - intros e He. apply TimeClip_At in He. destruct He as [He _].
    pose proof (Hz ((t + localTZA R t true) / Js.msPerDay * Js.msPerDay
                    + (Js.msPerDay - 1))%Z false) as A4.
    unfold Js.msPerDay in *. lia.
Qed.

(** A date two days inside the range of [Date] has a start of day. *)
Lemma start_of_day_is_a_date (t : Z) :
  Notions.offsetsWithinADay R ->
  (Z.abs t <= Js.maxTime - 2 * Js.msPerDay)%Z ->
  exists s, JsDate.setHours R (Js.At t) 0 0 0 0 = Js.At s.
Proof.
  intros Hz Hr. rewrite setHours_start.
  unfold Notions.atLocal, Notions.localDay, JsDate.UTC, JsDate.LocalTime,
    JsDate.Day.
  eexists. apply TimeClip_in_range.
  pose proof (Hz t true) as A0.
  pose proof (day_bounds (t + localTZA R t true)) as B0.
  pose proof (Hz ((t + localTZA R t true) / Js.msPerDay * Js.msPerDay + 0)%Z
                 false) as A1.
  unfold Js.maxTime, Js.msPerDay in *. lia.
Qed.

End Facts.

End DateFacts.

Module ReportFacts.

Ltac run :=
  cbv beta iota zeta delta
    [Report.generateDailyReport Report.generateWeeklyReport
     Report.sendDailyReportEmail Report.sendWeeklyReportEmail
     bind await gets newDate ret throw modify logger Report.orNow
     Report.user_findUnique Report.project_findMany_visible
     Report.task_findMany_for Report.report_create
     Report.dailyWindow Report.weeklyWindow Report.tasksSeen Report.nowSeen
     Report.findUser fst snd].

Section Facts.
Variable R : Runtime.
Variable g : Gemini.GeminiService.

(** What a daily report is computed from. *)
Lemma daily_data (userId : string) (date : option Js.Date) (w w' : World)
    (rep : Report.GeneratedReport) :
  Report.generateDailyReport R g userId date w = (Ok rep, w') ->
  Report.data rep
  = Report.calculateStats R (Report.tasksSeen R userId w)
      (fst (Report.dailyWindow R (Report.dateOr date w)))
      (snd (Report.dailyWindow R (Report.dateOr date w)))
      (Report.nowSeen R w).
Proof.
  destruct date; unfold Report.dateOr; run.
  all: destruct (find _ (w_users w)) as [user|]; [|discriminate].
  all: match goal with
       | |- context [Gemini.generateDailySummary ?a ?b ?c ?d ?e ?f] =>
           destruct (Gemini.generateDailySummary a b c d e f) as [[sr|err] w4]
       end; [|discriminate].
  all: intros H; inversion H; subst; reflexivity.
Qed.

(** What a weekly report is computed from. *)
Lemma weekly_data (userId : string) (weekEndDate : option Js.Date)
    (w w' : World) (rep : Report.GeneratedReport) :
  Report.generateWeeklyReport R g userId weekEndDate w = (Ok rep, w') ->
  Report.data rep
  = Report.calculateStats R (Report.tasksSeen R userId w)
      (fst (Report.weeklyWindow R (Report.dateOr weekEndDate w)))
      (snd (Report.weeklyWindow R (Report.dateOr weekEndDate w)))
      (Report.nowSeen R w).
Proof.
  destruct weekEndDate; unfold Report.dateOr; run.
  all: destruct (find _ (w_users w)) as [user|]; [|discriminate].
  all: match goal with
       | |- context [Gemini.generateWeeklySummary ?a ?b ?c ?d ?e ?f ?g ?h] =>
           destruct (Gemini.generateWeeklySummary a b c d e f g h)
             as [[sr|err] w4]
       end; [|discriminate].
  all: intros H; inversion H; subst; reflexivity.
Qed.

(** C3.  The overdue count of a report is the number of fetched tasks
    that have a due date strictly before [now], the instant read when
    the statistics are computed, and a status other than DONE.  It is
    the same for every window: whatever date a daily or a weekly report
    is requested for, a date long past included, the count is that
    number. *)
Theorem overdue_count_ignores_window (userId : string) (w : World) :
  let now := Report.nowSeen R w in
  let tasks := Report.tasksSeen R userId w in
  let n := Gemini.countIf (Report.isOverdue now) tasks in
  (forall t,
     Report.isOverdue now t = true <->
     exists due, task_dueDate (Report.row t) = Some due
                 /\ (due < now)%Z /\ task_status (Report.row t) <> "DONE")
  /\ (forall windowStart windowEnd,
        data_overdue (Report.calculateStats R tasks windowStart windowEnd now)
        = n)
  /\ (forall date rep w',
        Report.generateDailyReport R g userId date w = (Ok rep, w') ->
        data_overdue (Report.data rep) = n)
  /\ (forall weekEndDate rep w',
        Report.generateWeeklyReport R g userId weekEndDate w = (Ok rep, w') ->
        data_overdue (Report.data rep) = n).
Proof.
  intros now tasks n. split; [|split; [|split]].
  - intros t. unfold Report.isOverdue.
    destruct (task_dueDate (Report.row t)) as [due|].
    + rewrite andb_true_iff, Z.ltb_lt, negb_true_iff, String.eqb_neq. split.
      * intros [H1 H2]. exists due. auto.
      * intros [due' [E [H1 H2]]]. inversion E; subst. auto.
    + split; [discriminate | intros [due [E _]]; discriminate].
  - reflexivity.
  - intros date rep w' H. rewrite (daily_data _ _ _ _ _ H). reflexivity.
  - intros date rep w' H. rewrite (weekly_data _ _ _ _ _ H). reflexivity.
Qed.

Lemma countIf_app {A : Type} (p : A -> bool) (xs ys : list A) :
  Gemini.countIf p (xs ++ ys)%list = Gemini.countIf p xs + Gemini.countIf p ys.
Proof. unfold Gemini.countIf. now rewrite filter_app, length_app. Qed.

Lemma countIf_middle {A : Type} (p : A -> bool) (xs ys : list A) (x : A) :
  Gemini.countIf p (xs ++ x :: ys)%list
  = Gemini.countIf p xs + (if p x then 1 else 0) + Gemini.countIf p ys.
Proof.
  rewrite countIf_app. unfold Gemini.countIf. cbn [filter].
  destruct (p x); cbn [List.length]; lia.
Qed.

Lemma countIf_none {A : Type} (p : A -> bool) (xs : list A) :
  (forall x, p x = false) -> Gemini.countIf p xs = 0.
Proof.
  intros H. unfold Gemini.countIf.
  induction xs as [|x xs IH]; cbn; [reflexivity|]. now rewrite H.
Qed.

(** A task counts as completed exactly when it is DONE and was last
    updated in the window. *)
Lemma counted_as_completed (ws we : Js.Date) (t : Report.TaskWithProject) :
  (task_status (Report.row t) =? "DONE")
  && Js.dateGeb (Js.At (task_updatedAt (Report.row t))) ws
  && Js.dateLeb (Js.At (task_updatedAt (Report.row t))) we = true
  <-> task_status (Report.row t) = "DONE"
      /\ Notions.within ws we (task_updatedAt (Report.row t)).
Proof.
  rewrite <- andb_assoc, andb_true_iff, String.eqb_eq, DateFacts.within_iff.
  reflexivity.
Qed.


(** C6, as amended.  When no user has the id, [sendDailyReportEmail]
    and [sendWeeklyReportEmail] throw the "User not found" error of the
    report generation, and what is left is the process state as the
    rest of the process made it: no report, no mail.  An error of the
    generation is the error of the send, and the send returns only
    when the report was generated.  Then the user is looked up once
    more: when the user is found, the mail goes to the mailer, with the
    user's address and name, the report's summary and its first ten or
    twenty tasks; when the user is found no more, the send returns and
    no mail is handed over. *)
Theorem send_email_user_lookup (userId : string) (w : World) :
  (Report.findUser userId w = None ->
     Report.sendDailyReportEmail R g userId w
       = (Throw "User not found", interleave R (interleave R w))
     /\ Report.sendWeeklyReportEmail R g userId w
       = (Throw "User not found", interleave R (interleave R w)))
  /\ (forall rep w1,
        Report.generateDailyReport R g userId None w = (Ok rep, w1) ->
        Report.sendDailyReportEmail R g userId w
        = match Report.findUser userId (interleave R w1) with
          | None => (Ok tt, interleave R (interleave R w1))
          | Some user =>
              (Ok tt,
               interleave R
                 (Notions.handMail
                    (mkMail DAILY (user_email user) (user_name user)
                       (Report.summary rep) None
                       (map Report.emailRow
                          (firstn 10 (data_tasks (Report.data rep)))))
                    (interleave R (interleave R w1))))
          end)
  /\ (forall rep w1,
        Report.generateWeeklyReport R g userId None w = (Ok rep, w1) ->
        Report.sendWeeklyReportEmail R g userId w
        = match Report.findUser userId (interleave R w1) with
          | None => (Ok tt, interleave R (interleave R w1))
          | Some user =>
              (Ok tt,
               interleave R
                 (Notions.handMail
                    (mkMail WEEKLY (user_email user) (user_name user)
                       (Report.summary rep)
                       (Some (mkStats (data_created (Report.data rep))
                                (data_completed (Report.data rep))
                                (data_inProgress (Report.data rep))
                                (data_overdue (Report.data rep))))
                       (map Report.emailRow
                          (firstn 20 (data_tasks (Report.data rep)))))
                    (interleave R (interleave R w1))))
          end)
  /\ (forall e w1,
        Report.generateDailyReport R g userId None w = (Throw e, w1) ->
        Report.sendDailyReportEmail R g userId w = (Throw e, interleave R w1))
  /\ (forall e w1,
        Report.generateWeeklyReport R g userId None w = (Throw e, w1) ->
        Report.sendWeeklyReportEmail R g userId w = (Throw e, interleave R w1))
  /\ (forall w',
        Report.sendDailyReportEmail R g userId w = (Ok tt, w') ->
        exists rep w1,
          Report.generateDailyReport R g userId None w = (Ok rep, w1))
  /\ (forall w',
        Report.sendWeeklyReportEmail R g userId w = (Ok tt, w') ->
        exists rep w1,
          Report.generateWeeklyReport R g userId None w = (Ok rep, w1)).
Proof.
  split; [|split; [|split; [|split; [|split; [|split]]]]].
  - unfold Report.findUser. intros H. run. rewrite H. split; reflexivity.
  - intros rep w1 Hgen.
    unfold Report.sendDailyReportEmail. unfold bind at 1. unfold await at 1.
    rewrite Hgen. unfold bind at 1. unfold await at 1.
    unfold Report.user_findUnique, gets. fold (Report.findUser userId (interleave R w1)).
    destruct (Report.findUser userId (interleave R w1)) as [user|];
      reflexivity.
  - intros rep w1 Hgen.
    unfold Report.sendWeeklyReportEmail. unfold bind at 1. unfold await at 1.
    rewrite Hgen. unfold bind at 1. unfold await at 1.
    unfold Report.user_findUnique, gets. fold (Report.findUser userId (interleave R w1)).
    destruct (Report.findUser userId (interleave R w1)) as [user|];
      [|reflexivity].
    unfold bind, await, EmailService.sendWeeklySummary, EmailService.send, ret,
      Notions.handMail, Js.slice0.
    rewrite firstn_map, firstn_firstn. reflexivity.
  - intros e w1 Hgen.
    unfold Report.sendDailyReportEmail. unfold bind at 1. unfold await at 1.
    rewrite Hgen. reflexivity.
  - intros e w1 Hgen.
    unfold Report.sendWeeklyReportEmail. unfold bind at 1. unfold await at 1.
    rewrite Hgen. reflexivity.
  - intros w'.
    unfold Report.sendDailyReportEmail. unfold bind at 1. unfold await at 1.
    destruct (Report.generateDailyReport R g userId None w) as [[rep|e] w1];
      [eauto | discriminate].
  - intros w'.
    unfold Report.sendWeeklyReportEmail. unfold bind at 1. unfold await at 1.
    destruct (Report.generateWeeklyReport R g userId None w) as [[rep|e] w1];
      [eauto | discriminate].
Qed.

End Facts.

Import Fixtures.

(** Ann's reports: a daily report for 1 January 1970 and a weekly
    report for today both count her two overdue tasks. *)
Lemma overdue_count_for_a_past_window :
  match fst (Report.generateDailyReport quiet configured "A" (Some epoch) team) with
  | Ok rep => data_overdue (Report.data rep) = 2
  | Throw _ => False
  end
  /\ match fst (Report.generateWeeklyReport quiet configured "A" None team) with
     | Ok rep => data_overdue (Report.data rep) = 2
     | Throw _ => False
     end.
Proof.
  destruct (overdue_count_ignores_window quiet configured "A" team)
    as [_ [_ [Hd Hw]]].
  split.
  - destruct (Report.generateDailyReport quiet configured "A" (Some epoch) team)
      as [[rep|e] w'] eqn:E; cbn [fst].
    + rewrite (Hd _ _ _ E). reflexivity.
    + vm_compute in E. discriminate.
  - destruct (Report.generateWeeklyReport quiet configured "A" None team)
      as [[rep|e] w'] eqn:E; cbn [fst].
    + rewrite (Hw _ _ _ E). reflexivity.
    + vm_compute in E. discriminate.
Defined.



(** C6, as stated, fails: for an id that no user has,
    [sendDailyReportEmail] throws. *)
Lemma send_email_missing_user_raises :
  ~ (forall (R : Runtime) (g : Gemini.GeminiService) (userId : string)
            (w : World),
       Report.findUser userId w = None ->
       (exists w', Report.sendDailyReportEmail R g userId w = (Ok tt, w'))
       /\ (exists w', Report.sendWeeklyReportEmail R g userId w = (Ok tt, w'))).
Proof.
  intros H.
  destruct (H quiet unconfigured "nobody" team eq_refl) as [[w' Hd] _].
  vm_compute in Hd. discriminate.
Qed.

(** No user "nobody": the send throws and the state is untouched.  Ann
    deleted while her report is made: the send returns, no mail.  Ann
    present throughout: one mail, to her address. *)
Lemma send_email_runs :
  Report.sendDailyReportEmail quiet configured "nobody" team
    = (Throw "User not found", team)
  /\ Report.sendWeeklyReportEmail quiet configured "nobody" team
    = (Throw "User not found", team)
  /\ fst (Report.sendDailyReportEmail accountDeleted configured "A" team) = Ok tt
  /\ w_outbox (snd (Report.sendDailyReportEmail accountDeleted configured "A" team))
     = []
  /\ fst (Report.sendWeeklyReportEmail accountDeleted configured "A" team) = Ok tt
  /\ w_outbox (snd (Report.sendWeeklyReportEmail accountDeleted configured "A" team))
     = []
  /\ map mail_to
       (w_outbox (snd (Report.sendDailyReportEmail quiet configured "A" team)))
     = ["ann@example.com"]
  /\ map mail_to
       (w_outbox (snd (Report.sendWeeklyReportEmail quiet configured "A" team)))
     = ["ann@example.com"].
Proof.
  destruct (send_email_user_lookup quiet configured "nobody" team)
    as [Hmissing _].
  destruct (Hmissing eq_refl) as [Hd Hw].
  pose proof (send_email_user_lookup accountDeleted configured "A" team)
    as [_ [Hdaily [Hweekly _]]].
  pose proof (send_email_user_lookup quiet configured "A" team)
    as [_ [Qdaily [Qweekly _]]].
  split; [exact Hd|]. split; [exact Hw|].
  destruct (Report.generateDailyReport accountDeleted configured "A" None team)
    as [[rep|e] w1] eqn:E1; [|vm_compute in E1; discriminate].
  destruct (Report.generateWeeklyReport accountDeleted configured "A" None team)
    as [[rep'|e] w2] eqn:E2; [|vm_compute in E2; discriminate].
  destruct (Report.generateDailyReport quiet configured "A" None team)
    as [[qrep|e] q1] eqn:E3; [|vm_compute in E3; discriminate].
  destruct (Report.generateWeeklyReport quiet configured "A" None team)
    as [[qrep'|e] q2] eqn:E4; [|vm_compute in E4; discriminate].
  rewrite (Hdaily rep w1 eq_refl), (Hweekly rep' w2 eq_refl),
    (Qdaily qrep q1 eq_refl), (Qweekly qrep' q2 eq_refl).
  vm_compute in E1. inversion E1; subst.
  vm_compute in E2. inversion E2; subst.
  vm_compute in E3. inversion E3; subst.
  vm_compute in E4. inversion E4; subst.
  vm_compute. repeat split.
Defined.

(** With the account in place the mail goes out, with the summary of
    the report and its first rows. *)
Example send_email_delivers :
  map mail_to (w_outbox (snd (Report.sendDailyReportEmail quiet configured "A" team)))
  = ["ann@example.com"]
  /\ map (fun m => List.length (mail_rows m))
       (w_outbox (snd (Report.sendWeeklyReportEmail quiet configured "A" team)))
     = [4].
Proof. vm_compute. split; reflexivity. Qed.

End ReportFacts.

(** ** scheduler.service.ts *)

Module SchedulerFacts.

Import Scheduler.

Section Facts.
Variable R : Runtime.
Variable sendDaily sendWeekly : string -> M unit.

(** One turn of the loop: the send is called once, its outcome decides
    which counter moves, and the turn itself never throws. *)
Lemma iteration_step (ty : ReportType) (acc : Counts) (user : string * string)
    (s : State) :
  exists acc' s' b,
    iteration R sendDaily sendWeekly ty acc user s = (Ok acc', s')
    /\ sendCalls s' = (sendCalls s ++ [mkSendCall ty (fst user) b])%list
    /\ success acc' = success acc + (if b then 0 else 1)
    /\ failed acc' = failed acc + (if b then 1 else 0)
    /\ registry s' = registry s /\ dailyJob s' = dailyJob s
    /\ weeklyJob s' = weeklyJob s.
Proof.
  destruct user as [uid email].
  destruct ty; cbn [iteration];
    unfold dailyIteration, weeklyIteration, tryCatch, bind, awaitSend, await,
      liftWorld, logger, modify, ret; cbn [sendFor fst];
    [ destruct (sendDaily uid (world s)) as [[[]|e] w1]
    | destruct (sendWeekly uid (world s)) as [[[]|e] w1] ];
    cbn [world registry dailyJob weeklyJob sendCalls threw];
    do 3 eexists; (split; [reflexivity|]);
    cbn [sendCalls registry dailyJob weeklyJob success failed];
    repeat split; lia.
Qed.

(** The loop, by induction on the users still to be served. *)
Lemma forOf_iteration (ty : ReportType) (users : list (string * string)) :
  forall (acc : Counts) (s : State),
  exists acc' s' calls,
    forOf users (iteration R sendDaily sendWeekly ty) acc s = (Ok acc', s')
    /\ sendCalls s' = (sendCalls s ++ calls)%list
    /\ map call_userId calls = map fst users
    /\ Forall (fun c => call_type c = ty) calls
    /\ success acc'
       = success acc
         + List.length (filter (fun c => negb (call_threw c)) calls)
    /\ failed acc' = failed acc + List.length (filter call_threw calls)
    /\ registry s' = registry s /\ dailyJob s' = dailyJob s
    /\ weeklyJob s' = weeklyJob s.
Proof.
  induction users as [|u users IH]; intros acc s.
  - exists acc, s, []. cbn. rewrite app_nil_r. repeat split; auto.
  - destruct (iteration_step ty acc u s)
      as [acc1 [s1 [b [E1 [C1 [S1 [F1 [G1 [D1 W1]]]]]]]]].
    destruct (IH acc1 s1)
      as [acc2 [s2 [calls [E2 [C2 [U2 [T2 [S2 [F2 [G2 [D2 W2]]]]]]]]]]].
    exists acc2, s2, (mkSendCall ty (fst u) b :: calls).
    cbn [forOf]. unfold bind at 1. rewrite E1, E2.
    split; [reflexivity|].
    split; [rewrite C2, C1, <- app_assoc; reflexivity|].
    split; [cbn; now rewrite U2|].
    split; [constructor; auto|].
    cbn [filter call_threw negb].
    destruct b; cbn [negb List.length]; repeat split; try congruence; lia.
Qed.

Lemma threw_or_not (calls : list SendCall) :
  List.length (filter (fun c => negb (call_threw c)) calls)
  + List.length (filter call_threw calls) = List.length calls.
Proof.
  induction calls as [|x xs IH]; cbn; [reflexivity|].
  destruct (call_threw x); cbn; lia.
Qed.

(** A batch of either type returns; it calls the send of its type once
    for each verified user, in order, and counts the calls by outcome. *)
Lemma batch_runs (ty : ReportType) (s : State) :
  exists counts s' calls,
    batchOf R sendDaily sendWeekly ty s = (Ok counts, s')
    /\ sendCalls s' = (sendCalls s ++ calls)%list
    /\ map call_userId calls = map user_id (verifiedUsers s)
    /\ Forall (fun c => call_type c = ty) calls
    /\ failed counts = List.length (filter call_threw calls)
    /\ success counts
       = List.length (filter (fun c => negb (call_threw c)) calls)
    /\ success counts + failed counts = List.length (verifiedUsers s).
Proof.
  set (users := map (fun u => (user_id u, user_email u)) (verifiedUsers s)).
  set (s0 := mkState (interleave R (world s)) (registry s) (dailyJob s)
                     (weeklyJob s) (sendCalls s)).
  destruct (forOf_iteration ty users (mkCounts 0 0) s0)
    as [c [s1 [calls [E [C [U [T [Sx [Fx _]]]]]]]]].
  assert (Hlen : List.length calls = List.length (verifiedUsers s)).
  { rewrite <- (length_map call_userId), U. unfold users.
    now rewrite !length_map. }
  pose proof (threw_or_not calls) as Hpart.
  assert (Hrun : exists s',
             batchOf R sendDaily sendWeekly ty s = (Ok c, s')
             /\ sendCalls s' = sendCalls s1).
  { unfold users, verifiedUsers in E.
    destruct ty; cbn [batchOf iteration] in *;
      unfold generateDailyReportsForAllUsers, generateWeeklyReportsForAllUsers;
      unfold bind at 1;
      unfold liftWorld at 1, await, user_findMany_verified, gets;
      fold s0; unfold bind at 1; rewrite E;
      unfold bind, liftWorld, logger, modify, ret;
      eexists; split; reflexivity. }
  destruct Hrun as [s' [Hrun Hcalls]].
  exists c, s', calls. cbn [success failed sendCalls] in *.
  split; [exact Hrun|].
  split; [rewrite Hcalls; exact C|].
  split; [rewrite U; unfold users; rewrite map_map; reflexivity|].
  split; [exact T|].
  repeat split; lia.
Qed.


(** What a firing does once [start()] has run twice: the two daily
    tasks are both running and due, and the firing is the daily
    callback run twice. *)
Lemma fire_after_two_starts (w : World) :
  let twice := snd (start (snd (start (initial w)))) in
  snd (fire R sendDaily sendWeekly SixPM twice)
  = snd (runCallback R sendDaily sendWeekly DailyCallback
           (snd (runCallback R sendDaily sendWeekly DailyCallback twice))).
Proof.
  cbv zeta.
  set (twice := snd (start (snd (start (initial w))))).
  unfold fire, bind at 1, gets.
  change (filter _ (registry twice))
    with [mkScheduledTask "0 18 * * *" DailyCallback true;
          mkScheduledTask "0 18 * * *" DailyCallback true].
  cbn [forOf callback]. unfold bind at 1, tryCatch at 1.
  destruct (runCallback R sendDaily sendWeekly DailyCallback twice)
    as [[[]|e] s1]; cbn [snd]; unfold ret at 1.
  all: unfold bind at 1, tryCatch at 1.
  all: destruct (runCallback R sendDaily sendWeekly DailyCallback s1)
         as [[[]|e'] s2]; reflexivity.
Qed.

End Facts.

Import Fixtures.


(** C5, on the code.  After two calls of [start()] the registry holds
    two running daily tasks, so that a firing at 18:00 is the daily
    callback, that is the daily batch, run twice; [stop()] stops only
    the pair created last.  With three verified users, the 18:00 firing
    after two [start()] calls sends to each of them twice; after
    [stop()] the scheduler that was started twice still sends to each
    once. *)
Theorem start_twice_sends_twice
    (R : Runtime) (sendDaily sendWeekly : string -> M unit) (w : World) :
  let due := fun t => running t && isDue SixPM (expression t) in
  let twice := snd (start (snd (start (initial w)))) in
  let stopped := snd (stop twice) in
  map callback (filter due (registry twice)) = [DailyCallback; DailyCallback]
  /\ snd (fire R sendDaily sendWeekly SixPM twice)
     = snd (runCallback R sendDaily sendWeekly DailyCallback
              (snd (runCallback R sendDaily sendWeekly DailyCallback twice)))
  /\ map callback (filter due (registry stopped)) = [DailyCallback]
  /\ map call_userId
       (sendCalls (snd (fire quiet sendOk sendOk SixPM
                          (snd (start (snd (start (initial team))))))))
     = ["A"; "B"; "C"; "A"; "B"; "C"]
  /\ map call_userId
       (sendCalls (snd (fire quiet sendOk sendOk SixPM
                          (snd (stop (snd (start (snd (start (initial team))))))))))
     = ["A"; "B"; "C"].
Proof.
  cbv zeta. split; [reflexivity|]. split.
  - apply (fire_after_two_starts R sendDaily sendWeekly w).
  - repeat split.
Qed.

(** Started once, the scheduler sends to each verified user once per
    firing, and not at all once stopped. *)
Example start_once_sends_once :
  map call_userId
    (sendCalls (snd (fire quiet sendOk sendOk SixPM (snd (start (initial team))))))
  = ["A"; "B"; "C"]
  /\ map call_userId
       (sendCalls (snd (fire quiet sendOk sendOk SixPMFriday
                          (snd (start (initial team))))))
     = ["A"; "B"; "C"; "A"; "B"; "C"]
  /\ sendCalls (snd (fire quiet sendOk sendOk SixPM
                       (snd (stop (snd (start (initial team)))))))
     = [].
Proof. vm_compute. repeat split. Qed.

End SchedulerFacts.

Module StatsFacts.

Section Facts.
Variable R : Runtime.

Lemma countIf_le {A : Type} (p : A -> bool) (xs : list A) :
  Gemini.countIf p xs <= List.length xs.
Proof. unfold Gemini.countIf. apply filter_length_le. Qed.

Lemma countIf_disjoint {A : Type} (p q : A -> bool) (xs : list A) :
  (forall x, p x = true -> q x = true -> False) ->
  Gemini.countIf p xs + Gemini.countIf q xs <= List.length xs.
Proof.
  intros H. unfold Gemini.countIf.
  induction xs as [|x xs IH]; cbn; [lia|].
  specialize (H x).
  destruct (p x), (q x); cbn; first [lia | exfalso; auto].
Qed.

Lemma countIf_mono {A : Type} (p q : A -> bool) (xs : list A) :
  (forall x, p x = true -> q x = true) ->
  Gemini.countIf p xs <= Gemini.countIf q xs.
Proof.
  intros H. unfold Gemini.countIf.
  induction xs as [|x xs IH]; cbn; [lia|].
  specialize (H x).
  destruct (p x), (q x); cbn; first [lia | discriminate H; reflexivity].
Qed.

(** X1.  The statistics of a report never count more than the tasks they are
    computed from: [created] is at most the number of tasks, [completed]
    and [inProgress] together are at most that number (no task is counted
    in both), so are [completed] and [overdue] together (a task counted as
    completed is DONE and a DONE task is never overdue), and the snapshot
    list has one entry per task. *)
Theorem stats_bounded_by_task_count
    (tasks : list Report.TaskWithProject) (windowStart windowEnd : Js.Date)
    (now : Js.Time) :
  let d := Report.calculateStats R tasks windowStart windowEnd now in
  data_created d <= List.length tasks
  /\ data_completed d + data_inProgress d <= List.length tasks
  /\ data_completed d + data_overdue d <= List.length tasks
  /\ List.length (data_tasks d) = List.length tasks.
Proof.
  cbv zeta. unfold Report.calculateStats. cbn [data_created data_completed
    data_inProgress data_overdue data_tasks].
  split; [apply countIf_le|]. split; [|split].
  - apply countIf_disjoint. intros t Hd Hp.
    apply andb_true_iff in Hd. destruct Hd as [Hd _].
    apply andb_true_iff in Hd. destruct Hd as [Hd _].
    apply String.eqb_eq in Hd. rewrite Hd in Hp. discriminate Hp.
  - apply countIf_disjoint. intros t Hd Ho.
    apply andb_true_iff in Hd. destruct Hd as [Hd _].
    apply andb_true_iff in Hd. destruct Hd as [Hd _].
    unfold Report.isOverdue in Ho.
    destruct (task_dueDate (Report.row t)); [|discriminate].
    rewrite Hd in Ho. rewrite andb_false_r in Ho. discriminate.
  - apply length_map.
Qed.

(** A window with the same end and a start that is not later counts at
    least as much. *)
Lemma stats_monotone
    (tasks : list Report.TaskWithProject) (s s' e : Js.Date) (now : Js.Time) :
  (forall c, Js.dateGeb (Js.At c) s = true -> Js.dateGeb (Js.At c) s' = true) ->
  data_created (Report.calculateStats R tasks s e now)
    <= data_created (Report.calculateStats R tasks s' e now)
  /\ data_completed (Report.calculateStats R tasks s e now)
    <= data_completed (Report.calculateStats R tasks s' e now).
Proof.
  intros Hs. unfold Report.calculateStats. cbn [data_created data_completed].
  split; apply countIf_mono; intros t H.
  - apply andb_true_iff in H. destruct H as [H1 H2].
    apply andb_true_iff. split; [now apply Hs | exact H2].
  - apply andb_true_iff in H. destruct H as [H1 H2].
    apply andb_true_iff in H1. destruct H1 as [H0 H1].
    apply andb_true_iff. split; [|exact H2].
    apply andb_true_iff. split; [exact H0 | now apply Hs].
Qed.

Lemma same_day (x y : Z) :
  (x / Js.msPerDay * Js.msPerDay <= y
   <= x / Js.msPerDay * Js.msPerDay + (Js.msPerDay - 1))%Z ->
  (y / Js.msPerDay = x / Js.msPerDay)%Z.
Proof.
  unfold Js.msPerDay. intros H. symmetry.
  apply (Z.div_unique y 86400000 (x / 86400000)
           (y - 86400000 * (x / 86400000))); lia.
Qed.

(** X2.  Where the time zone keeps one offset from UTC around the target
    date (no daylight-saving change within two days of it) and the date
    is not within two days of the ends of the range of [Date], the window
    of a daily report is the local calendar day of the target date: it
    starts at a local midnight, ends 86,399,999 ms later, holds the target
    date, and every instant inside it has the same window. *)
Theorem daily_window_is_the_local_day (target : Js.Time) (o : Z)
    (Hzone : Notions.steadyOffset R o (target - 2 * Js.msPerDay)
               (target + 2 * Js.msPerDay))
    (Hoffset : (Z.abs o <= Js.msPerDay)%Z)
    (Hrange : (Z.abs target <= Js.maxTime - 2 * Js.msPerDay)%Z) :
  exists startOfDay endOfDay,
    Report.dailyWindow R (Js.At target) = (Js.At startOfDay, Js.At endOfDay)
    /\ (startOfDay <= target <= endOfDay
        /\ endOfDay = startOfDay + Js.msPerDay - 1
        /\ (startOfDay + o) mod Js.msPerDay = 0)%Z
    /\ (forall other,
          (startOfDay <= other <= endOfDay)%Z ->
          Report.dailyWindow R (Js.At other)
          = Report.dailyWindow R (Js.At target)).
Proof.
  rewrite (DateFacts.dailyWindow_steady R target o Hzone Hoffset Hrange).
  do 2 eexists. split; [reflexivity|].
  assert (Hd : (0 < Js.msPerDay)%Z) by reflexivity.
  pose proof (Z.mod_pos_bound (target + o) _ Hd) as B.
  split.
  - repeat split; try lia.
    replace (target - (target + o) mod Js.msPerDay + o)%Z
      with ((target + o) - (target + o) mod Js.msPerDay)%Z by lia.
    rewrite Zminus_mod, Zmod_mod, Z.sub_diag. reflexivity.
  - intros other H.
    rewrite <- (DateFacts.dailyWindow_steady R target o Hzone Hoffset Hrange).
    rewrite !DateFacts.dailyWindow_local.
    assert (Eo : localTZA R other true = o)
      by (apply Hzone; unfold Js.msPerDay in *; lia).
    assert (Et : localTZA R target true = o)
      by (apply Hzone; unfold Js.msPerDay in *; lia).
    assert (El : Notions.localDay R other = Notions.localDay R target).
    { unfold Notions.localDay, JsDate.LocalTime, JsDate.Day.
      rewrite Eo, Et. apply same_day.
      pose proof (DateFacts.day_start (target + o)). lia. }
    rewrite El. reflexivity.
Qed.

(** X3.  Where the time zone keeps one offset from nine days before the
    end date to two days after it, and the end date is not within nine
    days of the ends of the range of [Date], the window of a weekly
    report spans eight local calendar days less one millisecond: it
    starts at the local midnight of the day seven days before the end
    date and ends with the last millisecond of the end date's day,
    which is also the end of the daily window of that date. *)
Theorem weekly_window_spans_eight_days (endDate : Js.Time) (o : Z)
    (Hzone : Notions.steadyOffset R o (endDate - 9 * Js.msPerDay)
               (endDate + 2 * Js.msPerDay))
    (Hoffset : (Z.abs o <= Js.msPerDay)%Z)
    (Hrange : (Z.abs endDate <= Js.maxTime - 9 * Js.msPerDay)%Z) :
  exists startDate weekEnd,
    Report.weeklyWindow R (Js.At endDate) = (Js.At startDate, Js.At weekEnd)
    /\ Report.dailyWindow R (Js.At endDate)
       = (Js.At (startDate + 7 * Js.msPerDay), Js.At weekEnd)
    /\ (weekEnd - startDate = 8 * Js.msPerDay - 1
        /\ (startDate + o) mod Js.msPerDay = 0
        /\ startDate <= endDate - 7 * Js.msPerDay
        /\ endDate <= weekEnd)%Z.
Proof.
  rewrite (DateFacts.weeklyWindow_steady R endDate o Hzone Hoffset Hrange).
  rewrite (DateFacts.dailyWindow_steady R endDate o).
  2: { intros x b Hx. apply Hzone. unfold Js.msPerDay in *. lia. }
  2: exact Hoffset.
  2: { unfold Js.msPerDay in *. lia. }
  do 2 eexists. split; [reflexivity|].
  assert (Hd : (0 < Js.msPerDay)%Z) by reflexivity.
  pose proof (Z.mod_pos_bound (endDate + o) _ Hd) as B.
  assert (Hm : ((endDate - 7 * Js.msPerDay + o) mod Js.msPerDay
                = (endDate + o) mod Js.msPerDay)%Z).
  { replace (endDate - 7 * Js.msPerDay + o)%Z
      with ((endDate + o) + (-7) * Js.msPerDay)%Z by lia.
    apply Z_mod_plus_full. }
  rewrite Hm. split; [f_equal; f_equal; lia|].
  repeat split; try lia.
  replace (endDate - 7 * Js.msPerDay - (endDate + o) mod Js.msPerDay + o)%Z
    with ((endDate + o) - (endDate + o) mod Js.msPerDay
          + (-7) * Js.msPerDay)%Z by lia.
  rewrite Z_mod_plus_full, Zminus_mod, Zmod_mod, Z.sub_diag. reflexivity.
Qed.

(** X4.  Where no offset of the time zone exceeds a day and the weekly
    window has a start, the weekly statistics for a date, computed from
    the same tasks at the same instant, are never below the daily ones
    for that date: [created] and [completed] can only grow with the
    wider window, while [inProgress], [overdue] and the task snapshots
    do not depend on the window at all. *)
Theorem weekly_counts_cover_daily_counts
    (tasks : list Report.TaskWithProject) (date : Js.Date) (now : Js.Time)
    (Hzone : Notions.offsetsWithinADay R)
    (Hstart : fst (Report.weeklyWindow R date) <> Js.Invalid) :
  let daily :=
    Report.calculateStats R tasks (fst (Report.dailyWindow R date))
      (snd (Report.dailyWindow R date)) now in
  let weekly :=
    Report.calculateStats R tasks (fst (Report.weeklyWindow R date))
      (snd (Report.weeklyWindow R date)) now in
  data_created daily <= data_created weekly
  /\ data_completed daily <= data_completed weekly
  /\ data_inProgress daily = data_inProgress weekly
  /\ data_overdue daily = data_overdue weekly
  /\ data_tasks daily = data_tasks weekly.
Proof.
  cbv zeta. rewrite DateFacts.weeklyWindow_end.
  destruct date as [|t]; [exfalso; apply Hstart; reflexivity|].
  destruct (fst (Report.weeklyWindow R (Js.At t))) as [|s] eqn:Es;
    [exfalso; apply Hstart; reflexivity|].
  destruct (DateFacts.weekly_start_is_early R t s Hzone Es) as [Hd _].
  destruct (stats_monotone tasks (fst (Report.dailyWindow R (Js.At t)))
              (Js.At s) (snd (Report.dailyWindow R (Js.At t))) now)
    as [Hc Hk].
  { intros c. destruct (fst (Report.dailyWindow R (Js.At t))) as [|ds] eqn:Ed;
      [discriminate|].
    specialize (Hd ds eq_refl). cbn. rewrite !Z.leb_le.
    unfold Js.msPerDay in Hd. lia. }
  repeat split; assumption.
Qed.

End Facts.

(** 14 November 2023 in UTC: the last millisecond of the day has the
    window of 22:13:20 of that day. *)
Lemma daily_window_of_the_same_evening :
  Report.dailyWindow Fixtures.quiet (Js.At 1700006399999)
  = Report.dailyWindow Fixtures.quiet (Js.At Fixtures.clockNow).
Proof.
  destruct (daily_window_is_the_local_day Fixtures.quiet Fixtures.clockNow 0)
    as [s [e [Ew [_ Hsame]]]].
  - intros x isUTC _. reflexivity.
  - vm_compute. discriminate.
  - vm_compute. discriminate.
  - apply Hsame. vm_compute in Ew. inversion Ew; subst.
    vm_compute. split; discriminate.
Defined.

(** The week that ends on 14 November 2023 in UTC: from 7 November,
    00:00, to 14 November, 23:59:59.999. *)
Lemma week_of_14_november :
  Report.weeklyWindow Fixtures.quiet (Js.At Fixtures.clockNow)
  = (Js.At 1699315200000, Js.At 1700006399999).
Proof.
  destruct (weekly_window_spans_eight_days Fixtures.quiet Fixtures.clockNow 0)
    as [s [e [Ew _]]].
  - intros x isUTC _. reflexivity.
  - vm_compute. discriminate.
  - vm_compute. discriminate.
  - rewrite Ew. vm_compute in Ew. inversion Ew; subst. reflexivity.
Defined.

(** Ann's tasks on 14 November 2023: one finished that day, the same one
    in the week. *)
Lemma anns_week_covers_her_day :
  data_completed
    (Report.calculateStats Fixtures.quiet
       [Report.mkTaskWithProject Fixtures.landingPage "Website"]
       (fst (Report.dailyWindow Fixtures.quiet Fixtures.today))
       (snd (Report.dailyWindow Fixtures.quiet Fixtures.today))
       Fixtures.clockNow)
  <= data_completed
       (Report.calculateStats Fixtures.quiet
          [Report.mkTaskWithProject Fixtures.landingPage "Website"]
          (fst (Report.weeklyWindow Fixtures.quiet Fixtures.today))
          (snd (Report.weeklyWindow Fixtures.quiet Fixtures.today))
          Fixtures.clockNow).
Proof.
  pose proof (weekly_counts_cover_daily_counts Fixtures.quiet
                [Report.mkTaskWithProject Fixtures.landingPage "Website"]
                Fixtures.today Fixtures.clockNow) as H.
  cbv zeta in H. apply H.
  - intros x isUTC. vm_compute. discriminate.
  - vm_compute. discriminate.
Defined.

(** On the first day a [Date] can hold, the week has no start: the
    daily report counts the task of that day, the weekly report counts
    nothing. *)
Lemma week_without_a_start_counts_nothing :
  let day := Report.dailyWindow Fixtures.quiet (Js.At Samples.firstDay) in
  let week := Report.weeklyWindow Fixtures.quiet (Js.At Samples.firstDay) in
  fst week = Js.Invalid
  /\ data_completed
       (Report.calculateStats Fixtures.quiet
          [Report.mkTaskWithProject Samples.ancient "Website"]
          (fst day) (snd day) Fixtures.clockNow) = 1
  /\ data_completed
       (Report.calculateStats Fixtures.quiet
          [Report.mkTaskWithProject Samples.ancient "Website"]
          (fst week) (snd week) Fixtures.clockNow) = 0.
Proof. vm_compute. repeat split. Qed.

End StatsFacts.

Module QueryFacts.

Lemma insertByUpdatedAtDesc_perm (t : Report.TaskWithProject) ts :
  Permutation (Report.insertByUpdatedAtDesc t ts) (t :: ts).
Proof.
  induction ts as [|t' ts IH]; cbn; [reflexivity|].
  destruct (_ <? _)%Z; [reflexivity|].
  rewrite IH. apply perm_swap.
Qed.

Lemma orderByUpdatedAtDesc_perm ts :
  Permutation (Report.orderByUpdatedAtDesc ts) ts.
Proof.
  induction ts as [|t ts IH]; cbn; [reflexivity|].
  rewrite insertByUpdatedAtDesc_perm. now constructor.
Qed.

Lemma insertByUpdatedAtDesc_sorted (t : Report.TaskWithProject) ts :
  Sorted Notions.notOlder ts -> Sorted Notions.notOlder (Report.insertByUpdatedAtDesc t ts).
Proof.
  induction ts as [|t' ts IH]; intros Hs; cbn.
  - repeat constructor.
  - destruct (_ <? _)%Z eqn:E.
    + constructor; [exact Hs|]. constructor. unfold Notions.notOlder.
      apply Z.ltb_lt in E. lia.
    + apply Z.ltb_ge in E. inversion Hs as [|? ? Hs' Hhd]; subst.
      constructor; [apply IH; exact Hs'|].
      destruct ts as [|t'' ts]; cbn.
      * constructor. exact E.
      * destruct (_ <? _)%Z; constructor; [exact E|].
        inversion Hhd; subst. assumption.
Qed.

Lemma orderByUpdatedAtDesc_sorted ts :
  StronglySorted Notions.notOlder (Report.orderByUpdatedAtDesc ts).
Proof.
  apply Sorted_StronglySorted.
  - intros a b c Hab Hbc. unfold Notions.notOlder in *. lia.
  - induction ts as [|t ts IH]; cbn; [constructor|].
    now apply insertByUpdatedAtDesc_sorted.
Qed.

Lemma optEqb_iff (o : option string) (s : string) :
  Report.optEqb o s = true <-> o = Some s.
Proof.
  destruct o as [x|]; cbn; [|split; discriminate].
  rewrite String.eqb_eq. split; congruence.
Qed.

Section Facts.
Variable R : Runtime.
Variable g : Gemini.GeminiService.

Lemma tasksSeen_perm (userId : string) (w : World) :
  exists matching : Task -> bool,
    Permutation (map Report.row (Report.tasksSeen R userId w))
                (filter matching (w_tasks (interleave R (interleave R w))))
    /\ forall t,
         matching t = true <->
         (task_assigneeId t = Some userId \/ task_reporterId t = userId)
         /\ exists p, In p (w_projects (interleave R w))
                      /\ project_id p = task_projectId t
                      /\ (project_ownerId p = userId
                          \/ In userId (project_members p)).
Proof.
  unfold Report.tasksSeen, Report.project_findMany_visible,
    Report.task_findMany_for, gets. cbn [fst].
  eexists. split.
  - rewrite (Permutation_map Report.row (orderByUpdatedAtDesc_perm _)).
    rewrite map_map. cbn [Report.row]. rewrite map_id. reflexivity.
  - intros t. cbv beta.
    rewrite andb_true_iff, orb_true_iff, optEqb_iff, String.eqb_eq,
      existsb_exists.
    split.
    + intros [[pid [Hin Heq]] Hrole]. split; [exact Hrole|].
      apply String.eqb_eq in Heq. subst pid.
      apply in_map_iff in Hin. destruct Hin as [p [Hid Hp]].
      apply filter_In in Hp. destruct Hp as [Hp Hvis].
      exists p. split; [exact Hp|]. split; [exact Hid|].
      apply orb_true_iff in Hvis. destruct Hvis as [Ho|Hm].
      * left. now apply String.eqb_eq.
      * right. apply existsb_exists in Hm. destruct Hm as [m [Hm Hmu]].
        apply String.eqb_eq in Hmu. now subst m.
    + intros [Hrole [p [Hp [Hid Hvis]]]]. split; [|exact Hrole].
      exists (project_id p). split; [|now apply String.eqb_eq].
      apply in_map_iff. exists p. split; [reflexivity|].
      apply filter_In. split; [exact Hp|].
      apply orb_true_iff. destruct Hvis as [Ho|Hm].
      * left. now apply String.eqb_eq.
      * right. apply existsb_exists. exists userId. split; [exact Hm|].
        apply String.eqb_refl.
Qed.

(** X5.  The tasks a report is computed from are exactly the stored tasks
    that are assigned to the user or reported by the user and that belong
    to a project the user owns or is a member of (the projects as read by
    the first query, the tasks as read by the second). *)
Theorem tasks_seen_are_the_users_own (userId : string) (w : World) :
  let w1 := interleave R w in
  let w2 := interleave R w1 in
  forall t : Task,
    In t (map Report.row (Report.tasksSeen R userId w)) <->
    In t (w_tasks w2)
    /\ (task_assigneeId t = Some userId \/ task_reporterId t = userId)
    /\ exists p, In p (w_projects w1)
                 /\ project_id p = task_projectId t
                 /\ (project_ownerId p = userId \/ In userId (project_members p)).
Proof.
  intros w1 w2 t.
  destruct (tasksSeen_perm userId w) as [matching [Hperm Hmatch]].
  fold w1 in Hmatch, Hperm. fold w2 in Hperm.
  split.
  - intros H. apply (Permutation_in _ Hperm) in H.
    apply filter_In in H. destruct H as [Hin Hm].
    split; [exact Hin|]. now apply Hmatch.
  - intros [Hin Hrest].
    apply (Permutation_in _ (Permutation_sym Hperm)).
    apply filter_In. split; [exact Hin|]. now apply Hmatch.
Qed.

Lemma existsb_map_filter {A B : Type} (f : B -> bool) (key : A -> B)
    (v : A -> bool) (l : list A) :
  existsb f (map key (filter v l)) = existsb (fun a => f (key a) && v a) l.
Proof.
  induction l as [|a l IH]; cbn; [reflexivity|].
  destruct (v a); cbn; rewrite IH.
  - now rewrite andb_true_r.
  - now rewrite andb_false_r.
Qed.

(** The task query returns the user's own tasks of the user's projects,
    each once. *)
Lemma tasksSeen_filter (userId : string) (w : World) :
  Permutation (map Report.row (Report.tasksSeen R userId w))
    (filter (Notions.ownTaskIn userId (w_projects (interleave R w)))
            (w_tasks (interleave R (interleave R w)))).
Proof.
  unfold Report.tasksSeen, Report.project_findMany_visible,
    Report.task_findMany_for, gets. cbn [fst].
  rewrite (Permutation_map Report.row (orderByUpdatedAtDesc_perm _)).
  rewrite map_map. cbn [Report.row]. rewrite map_id.
  erewrite filter_ext; [reflexivity|].
  intros t. unfold Notions.ownTaskIn. cbv beta.
  rewrite existsb_map_filter. reflexivity.
Qed.

(** X6.  The tasks of a report are ordered most recently updated first and
    are a rearrangement of the stored tasks that are the user's own in one
    of the user's projects: none of them is dropped, none is repeated;
    and the [tasks] field of a daily or weekly report that was generated
    is the list of their snapshots in that order. *)
Theorem tasks_seen_newest_first (userId : string) (w : World) :
  StronglySorted
    (fun a b => (task_updatedAt (Report.row b) <= task_updatedAt (Report.row a))%Z)
    (Report.tasksSeen R userId w)
  /\ Permutation (map Report.row (Report.tasksSeen R userId w))
       (filter (Notions.ownTaskIn userId (w_projects (interleave R w)))
               (w_tasks (interleave R (interleave R w))))
  /\ (forall t,
        Notions.ownTaskIn userId (w_projects (interleave R w)) t = true <->
        (task_assigneeId t = Some userId \/ task_reporterId t = userId)
        /\ exists p, In p (w_projects (interleave R w))
                     /\ project_id p = task_projectId t
                     /\ (project_ownerId p = userId
                         \/ In userId (project_members p)))
  /\ (forall date rep w',
        Report.generateDailyReport R g userId date w = (Ok rep, w') ->
        data_tasks (Report.data rep)
        = map (Report.snapshot R) (Report.tasksSeen R userId w))
  /\ (forall weekEndDate rep w',
        Report.generateWeeklyReport R g userId weekEndDate w = (Ok rep, w') ->
        data_tasks (Report.data rep)
        = map (Report.snapshot R) (Report.tasksSeen R userId w)).
Proof.
  split; [|split; [|split; [|split]]].
  - unfold Report.tasksSeen, Report.project_findMany_visible,
      Report.task_findMany_for, gets. cbn [fst].
    apply orderByUpdatedAtDesc_sorted.
  - apply tasksSeen_filter.
  - intros t. unfold Notions.ownTaskIn.
    rewrite andb_true_iff, orb_true_iff, optEqb_iff, String.eqb_eq,
      existsb_exists.
    split.
    + intros [[p [Hp Hv]] Hrole]. split; [exact Hrole|].
      apply andb_true_iff in Hv. destruct Hv as [Hid Hvis].
      apply String.eqb_eq in Hid.
      exists p. split; [exact Hp|]. split; [exact Hid|].
      apply orb_true_iff in Hvis. destruct Hvis as [Ho|Hm].
      * left. now apply String.eqb_eq.
      * right. apply existsb_exists in Hm. destruct Hm as [m [Hm Hmu]].
        apply String.eqb_eq in Hmu. now subst m.
    + intros [Hrole [p [Hp [Hid Hvis]]]]. split; [|exact Hrole].
      exists p. split; [exact Hp|].
      apply andb_true_iff. split; [now apply String.eqb_eq|].
      apply orb_true_iff. destruct Hvis as [Ho|Hm].
      * left. now apply String.eqb_eq.
      * right. apply existsb_exists. exists userId. split; [exact Hm|].
        apply String.eqb_refl.
  - intros date rep w' H. rewrite (ReportFacts.daily_data _ _ _ _ _ _ _ H).
    reflexivity.
  - intros date rep w' H. rewrite (ReportFacts.weekly_data _ _ _ _ _ _ _ H).
    reflexivity.
Qed.

End Facts.
(** Ann's tasks include the landing page and not Bob's invoices. *)
Lemma ann_sees_her_tasks_and_not_bobs :
  In Fixtures.landingPage
     (map Report.row (Report.tasksSeen Fixtures.quiet "A" Fixtures.team))
  /\ ~ In Fixtures.invoices
         (map Report.row (Report.tasksSeen Fixtures.quiet "A" Fixtures.team)).
Proof.
  pose proof (tasks_seen_are_the_users_own Fixtures.quiet "A" Fixtures.team)
    as H.
  cbv zeta in H. split.
  - apply H. split; [left; reflexivity|]. split; [left; reflexivity|].
    exists Fixtures.website. split; [left; reflexivity|].
    split; [reflexivity | left; reflexivity].
  - intros Hin. apply H in Hin. destruct Hin as [_ [[Ha|Hr] _]].
    + vm_compute in Ha. discriminate Ha.
    + vm_compute in Hr. discriminate Hr.
Defined.

(** Twelve tasks updated one after the other are reported last one
    first. *)
Lemma busy_report_lists_the_latest_task_first :
  match
    fst (Report.generateDailyReport Fixtures.quiet Fixtures.configured "A"
           None Samples.busy)
  with
  | Ok rep =>
      map snap_id (data_tasks (Report.data rep))
      = ["T12"; "T11"; "T10"; "T9"; "T8"; "T7"; "T6"; "T5"; "T4"; "T3"; "T2";
         "T1"]
  | Throw _ => False
  end.
Proof.
  destruct (Report.generateDailyReport Fixtures.quiet Fixtures.configured "A"
              None Samples.busy) as [[rep|e] w'] eqn:E.
  - cbn [fst].
    rewrite (proj1 (proj2 (proj2 (proj2
               (tasks_seen_newest_first Fixtures.quiet Fixtures.configured "A"
                  Samples.busy)))) None rep w' E).
    vm_compute. reflexivity.
  - vm_compute in E. discriminate E.
Defined.

End QueryFacts.

Module SummaryFacts.
Import StringFacts.

Lemma includes_self (n : string) : Js.includes n n = true.
Proof.
  apply includes_iff. exists "", "". cbn. now rewrite append_empty_r.
Qed.

Lemma includes_join (n sep x : string) (xs : list string) :
  In x xs -> Js.includes n x = true -> Js.includes n (Js.join sep xs) = true.
Proof.
  unfold Js.join. intros Hin Hx.
  induction xs as [|y ys IH]; [contradiction|].
  cbn [String.concat]. destruct ys as [|z zs].
  - destruct Hin as [->|[]]. exact Hx.
  - destruct Hin as [->|Hin].
    + now apply includes_append_l.
    + apply includes_append_r, includes_append_r. now apply IH.
Qed.

(** X7.  The prompt of the daily summary contains the user's name, the date
    text, and for every task its line with title, status, priority and
    project, hence every task's title. *)
Theorem daily_prompt_lists_every_task
    (userName dateStr : string) (tasks : list Gemini.TaskSummaryInput) :
  let prompt := Gemini.buildDailySummaryPrompt userName tasks dateStr in
  Js.includes userName prompt = true
  /\ Js.includes dateStr prompt = true
  /\ (forall t, In t tasks -> Js.includes (Notions.dailyLine t) prompt = true)
  /\ (forall t, In t tasks -> Js.includes (Gemini.title t) prompt = true).
Proof.
  cbv zeta. unfold Gemini.buildDailySummaryPrompt.
  assert (Hline : forall t, In t tasks ->
            Js.includes (Notions.dailyLine t)
              (Js.join Js.newline
                 (map (fun t => "- " ++ Js.dquote ++ Gemini.title t ++ Js.dquote
                         ++ " (" ++ Gemini.status t ++ ", " ++ Gemini.priority t
                         ++ " priority, Project: " ++ Gemini.project t ++ ")")
                      tasks)) = true).
  { intros t Ht. apply includes_join with (x := Notions.dailyLine t).
    - apply in_map_iff. exists t. split; [reflexivity | exact Ht].
    - apply includes_self. }
  split; [|split; [|split]].
  - eapply includes_join; [left; reflexivity|].
    apply includes_append_r, includes_append_l, includes_self.
  - eapply includes_join; [left; reflexivity|].
    do 3 apply includes_append_r. apply includes_append_l, includes_self.
  - intros t Ht. eapply includes_join; [do 3 right; left; reflexivity|].
    now apply Hline.
  - intros t Ht. eapply includes_join; [do 3 right; left; reflexivity|].
    specialize (Hline t Ht). apply includes_iff in Hline.
    destruct Hline as [pre [post E]]. apply includes_iff.
    exists (pre ++ "- " ++ Js.dquote),
      (Js.dquote ++ " (" ++ Gemini.status t ++ ", " ++ Gemini.priority t
       ++ " priority, Project: " ++ Gemini.project t ++ ")" ++ post).
    rewrite E. unfold Notions.dailyLine. now rewrite !append_assoc.
Qed.

(** X8.  The prompt of the weekly summary lists the first thirty tasks only:
    it is the prompt of the first thirty, and tasks after the thirtieth
    change nothing in it; it carries the four statistics lines. *)
Theorem weekly_prompt_reads_thirty_tasks
    (userName startStr endStr : string) (stats : Stats)
    (tasks : list Gemini.TaskSummaryInput) :
  let prompt :=
    Gemini.buildWeeklySummaryPrompt userName tasks startStr endStr stats in
  (forall t, In t (firstn 30 tasks) -> Js.includes (Notions.weeklyLine t) prompt = true)
  /\ prompt
     = Gemini.buildWeeklySummaryPrompt userName (firstn 30 tasks) startStr endStr
         stats
  /\ (forall extra,
        30 <= List.length tasks ->
        Gemini.buildWeeklySummaryPrompt userName (tasks ++ extra)%list startStr
          endStr stats = prompt)
  /\ Js.includes ("- Tasks Created: " ++ Js.showNat (st_created stats)) prompt = true
  /\ Js.includes ("- Tasks Completed: " ++ Js.showNat (st_completed stats)) prompt = true
  /\ Js.includes ("- Tasks In Progress: " ++ Js.showNat (st_inProgress stats)) prompt = true
  /\ Js.includes ("- Overdue Tasks: " ++ Js.showNat (st_overdue stats)) prompt = true.
Proof.
  cbv zeta. unfold Gemini.buildWeeklySummaryPrompt, Js.slice0.
  split; [|split; [|split; [|repeat split]]].
  - intros t Ht. eapply includes_join; [do 9 right; left; reflexivity|].
    apply includes_join with (x := Notions.weeklyLine t); [|apply includes_self].
    apply in_map_iff. exists t. split; [reflexivity | exact Ht].
  - now rewrite firstn_firstn.
  - intros extra Hlen. rewrite firstn_app.
    replace (30 - List.length tasks) with 0 by lia.
    cbn [firstn]. now rewrite app_nil_r.
  - eapply includes_join; [do 3 right; left; reflexivity | apply includes_self].
  - eapply includes_join; [do 4 right; left; reflexivity | apply includes_self].
  - eapply includes_join; [do 5 right; left; reflexivity | apply includes_self].
  - eapply includes_join; [do 6 right; left; reflexivity | apply includes_self].
Qed.

Section Facts.
Variable R : Runtime.
Variable this : Gemini.GeminiService.

Lemma asked_false (tasks : list Gemini.TaskSummaryInput) :
  Notions.asked this tasks = false ->
  Js.isNull (Gemini.model this) || (List.length tasks =? 0)%nat = true.
Proof.
  unfold Notions.asked. destruct (Js.isNull _), (_ =? _)%nat; cbn; congruence.
Qed.

Lemma asked_true (tasks : list Gemini.TaskSummaryInput) :
  Notions.asked this tasks = true ->
  Js.isNull (Gemini.model this) || (List.length tasks =? 0)%nat = false.
Proof.
  unfold Notions.asked. destruct (Js.isNull _), (_ =? _)%nat; cbn; congruence.
Qed.

(** [generateDailySummary], case by case. *)
Lemma daily_summary_cases (userName : string)
    (tasks : list Gemini.TaskSummaryInput) (date : Js.Date) (w : World) :
  let prompt :=
    Gemini.buildDailySummaryPrompt userName tasks (formatLong R date) in
  let fallback :=
    Gemini.generateFallbackDailySummary userName tasks (formatLong R date) in
  let sent :=
    mkWorld (w_users w) (w_projects w) (w_tasks w) (w_reports w) (w_clock w)
            (w_log w) (w_prompts w ++ [prompt])%list (w_outbox w) in
  Gemini.generateDailySummary R this userName tasks date w =
  if Notions.asked this tasks then
    match generateContent R prompt w with
    | Ok text =>
        (Ok (Gemini.mkSummaryResult (Js.trim text) true),
         interleave R (interleave R sent))
    | Throw e =>
        (Ok fallback,
         appendLog LError ("Gemini API error for daily summary: " ++ e)
           (interleave R sent))
    end
  else (Ok fallback, w).
Proof.
  cbv zeta. unfold Gemini.generateDailySummary.
  destruct (Notions.asked this tasks) eqn:E.
  - rewrite (asked_true _ E).
    unfold tryCatch, bind, await, Gemini.callModel, ret, logger, modify.
    destruct (generateContent R _ w); reflexivity.
  - rewrite (asked_false _ E). reflexivity.
Qed.

Lemma weekly_summary_cases (userName : string)
    (tasks : list Gemini.TaskSummaryInput) (startDate endDate : Js.Date)
    (stats : Stats) (w : World) :
  let prompt :=
    Gemini.buildWeeklySummaryPrompt userName tasks (formatShort R startDate)
      (formatShortYear R endDate) stats in
  let fallback :=
    Gemini.generateFallbackWeeklySummary userName tasks (formatShort R startDate)
      (formatShortYear R endDate) stats in
  let sent :=
    mkWorld (w_users w) (w_projects w) (w_tasks w) (w_reports w) (w_clock w)
            (w_log w) (w_prompts w ++ [prompt])%list (w_outbox w) in
  Gemini.generateWeeklySummary R this userName tasks startDate endDate stats w =
  if Notions.asked this tasks then
    match generateContent R prompt w with
    | Ok text =>
        (Ok (Gemini.mkSummaryResult (Js.trim text) true),
         interleave R (interleave R sent))
    | Throw e =>
        (Ok fallback,
         appendLog LError ("Gemini API error for weekly summary: " ++ e)
           (interleave R sent))
    end
  else (Ok fallback, w).
Proof.
  cbv zeta. unfold Gemini.generateWeeklySummary.
  destruct (Notions.asked this tasks) eqn:E.
  - rewrite (asked_true _ E).
    unfold tryCatch, bind, await, Gemini.callModel, ret, logger, modify.
    destruct (generateContent R _ w); reflexivity.
  - rewrite (asked_false _ E). reflexivity.
Qed.

(** Summary generation returns. *)
Lemma daily_summary_returns userName tasks date w :
  exists res w', Gemini.generateDailySummary R this userName tasks date w = (Ok res, w').
Proof.
  rewrite daily_summary_cases. cbv zeta.
  destruct (Notions.asked this tasks); [destruct (generateContent R _ w)|]; eauto.
Qed.

Lemma weekly_summary_returns userName tasks startDate endDate stats w :
  exists res w',
    Gemini.generateWeeklySummary R this userName tasks startDate endDate stats w
    = (Ok res, w').
Proof.
  rewrite weekly_summary_cases. cbv zeta.
  destruct (Notions.asked this tasks); [destruct (generateContent R _ w)|]; eauto.
Qed.

(** X9.  A summary is always returned, and its [isAIGenerated] flag is true
    exactly when a model is configured, the task list is not empty and the
    completion call returned; then the summary is the trimmed answer, and
    otherwise the result is the fallback summary.  Daily and weekly. *)
Theorem ai_flag_tells_where_the_text_came_from
    (userName : string) (tasks : list Gemini.TaskSummaryInput)
    (date startDate endDate : Js.Date) (stats : Stats) (w : World) :
  (let prompt :=
     Gemini.buildDailySummaryPrompt userName tasks (formatLong R date) in
   exists res,
     fst (Gemini.generateDailySummary R this userName tasks date w) = Ok res
     /\ (Gemini.isAIGenerated res = true <->
         Gemini.model this <> None /\ tasks <> []
         /\ exists text, generateContent R prompt w = Ok text)
     /\ (Gemini.isAIGenerated res = true ->
         exists text, generateContent R prompt w = Ok text
                      /\ Gemini.summary res = Js.trim text)
     /\ (Gemini.isAIGenerated res = false ->
         res = Gemini.generateFallbackDailySummary userName tasks
                 (formatLong R date)))
  /\
  (let prompt :=
     Gemini.buildWeeklySummaryPrompt userName tasks (formatShort R startDate)
       (formatShortYear R endDate) stats in
   exists res,
     fst (Gemini.generateWeeklySummary R this userName tasks startDate endDate
            stats w) = Ok res
     /\ (Gemini.isAIGenerated res = true <->
         Gemini.model this <> None /\ tasks <> []
         /\ exists text, generateContent R prompt w = Ok text)
     /\ (Gemini.isAIGenerated res = true ->
         exists text, generateContent R prompt w = Ok text
                      /\ Gemini.summary res = Js.trim text)
     /\ (Gemini.isAIGenerated res = false ->
         res = Gemini.generateFallbackWeeklySummary userName tasks
                 (formatShort R startDate) (formatShortYear R endDate) stats)).
Proof.
  assert (Hasked : Notions.asked this tasks = true <-> Gemini.model this <> None /\ tasks <> []).
  { unfold Notions.asked. destruct (Gemini.model this), tasks; cbn; split;
      try discriminate; try (intros [? ?]; congruence);
      intros _; split; discriminate. }
  split; cbv zeta;
    [rewrite daily_summary_cases | rewrite weekly_summary_cases]; cbv zeta;
    (destruct (Notions.asked this tasks) eqn:E;
     [ destruct (generateContent R _ w) as [text|e] | ]);
    cbn [fst]; eexists; (split; [reflexivity|]); cbn [Gemini.isAIGenerated
      Gemini.summary Gemini.generateFallbackDailySummary
      Gemini.generateFallbackWeeklySummary].
  all: try (split; [split; [intros _; destruct (proj1 Hasked eq_refl);
                            repeat split; eauto
                           | reflexivity]
                   | split; [intros _; eauto | discriminate]]).
  all: split; [split; [discriminate|] | split; [discriminate | reflexivity]].
  all: intros [Hm [Ht Hx]]; try (destruct Hx; discriminate).
  all: assert (false = true) by (apply Hasked; auto); discriminate.
Qed.

(** X10.  With nothing else happening during an await, generating a summary
    leaves users, projects, tasks, reports, outbox and clock as they are,
    and sends one prompt if the completion service is asked and none
    otherwise.  Daily and weekly. *)
Theorem summary_asks_once_and_writes_nothing
    (userName : string) (tasks : list Gemini.TaskSummaryInput)
    (date startDate endDate : Js.Date) (stats : Stats) (w : World)
    (Hquiet : forall x, interleave R x = x) :
  (let prompt :=
     Gemini.buildDailySummaryPrompt userName tasks (formatLong R date) in
   let w' := snd (Gemini.generateDailySummary R this userName tasks date w) in
   w_users w' = w_users w /\ w_projects w' = w_projects w
   /\ w_tasks w' = w_tasks w /\ w_reports w' = w_reports w
   /\ w_outbox w' = w_outbox w /\ w_clock w' = w_clock w
   /\ w_prompts w'
      = (if Notions.asked this tasks
         then List.app (w_prompts w) [prompt] else w_prompts w))
  /\
  (let prompt :=
     Gemini.buildWeeklySummaryPrompt userName tasks (formatShort R startDate)
       (formatShortYear R endDate) stats in
   let w' :=
     snd (Gemini.generateWeeklySummary R this userName tasks startDate endDate
            stats w) in
   w_users w' = w_users w /\ w_projects w' = w_projects w
   /\ w_tasks w' = w_tasks w /\ w_reports w' = w_reports w
   /\ w_outbox w' = w_outbox w /\ w_clock w' = w_clock w
   /\ w_prompts w'
      = (if Notions.asked this tasks
         then List.app (w_prompts w) [prompt] else w_prompts w)).
Proof.
  split; cbv zeta;
    [rewrite daily_summary_cases | rewrite weekly_summary_cases]; cbv zeta;
    (destruct (Notions.asked this tasks); [|repeat split]);
    destruct (generateContent R _ w); cbn [snd]; rewrite ?Hquiet;
    repeat split.
Qed.

End Facts.
(** X11.  A service constructed without an API key logs the warning and
    never asks the completion service: every daily and weekly summary it
    produces is the fallback and leaves the process state as it is.  A
    service constructed with a key sends the prompt to the completion
    service for every task list that is not empty, and its summary is
    the trimmed answer, or the fallback when the call throws. *)
Theorem service_without_api_key_never_asks
    (R : Runtime) (userName : string) (tasks : list Gemini.TaskSummaryInput)
    (date startDate endDate : Js.Date) (stats : Stats) (w : World) :
  (exists this,
     Gemini.constructor "" w
     = (Ok this,
        appendLog LWarn
          "Gemini API key not configured - using fallback summaries" w)
     /\ (forall w1,
           Gemini.generateDailySummary R this userName tasks date w1
           = (Ok (Gemini.generateFallbackDailySummary userName tasks
                    (formatLong R date)), w1))
     /\ (forall w1,
           Gemini.generateWeeklySummary R this userName tasks startDate endDate
             stats w1
           = (Ok (Gemini.generateFallbackWeeklySummary userName tasks
                    (formatShort R startDate) (formatShortYear R endDate)
                    stats), w1)))
  /\ (forall apiKey,
        apiKey <> "" ->
        exists this,
          Gemini.constructor apiKey w
          = (Ok this, appendLog LInfo "Gemini service initialized" w)
          /\ (forall w1,
                tasks <> [] ->
                let prompt :=
                  Gemini.buildDailySummaryPrompt userName tasks
                    (formatLong R date) in
                let sent :=
                  mkWorld (w_users w1) (w_projects w1) (w_tasks w1)
                    (w_reports w1) (w_clock w1) (w_log w1)
                    (w_prompts w1 ++ [prompt])%list (w_outbox w1) in
                Gemini.generateDailySummary R this userName tasks date w1
                = match generateContent R prompt w1 with
                  | Ok text =>
                      (Ok (Gemini.mkSummaryResult (Js.trim text) true),
                       interleave R (interleave R sent))
                  | Throw e =>
                      (Ok (Gemini.generateFallbackDailySummary userName tasks
                             (formatLong R date)),
                       appendLog LError
                         ("Gemini API error for daily summary: " ++ e)
                         (interleave R sent))
                  end)
          /\ (forall w1,
                tasks <> [] ->
                let prompt :=
                  Gemini.buildWeeklySummaryPrompt userName tasks
                    (formatShort R startDate) (formatShortYear R endDate)
                    stats in
                let sent :=
                  mkWorld (w_users w1) (w_projects w1) (w_tasks w1)
                    (w_reports w1) (w_clock w1) (w_log w1)
                    (w_prompts w1 ++ [prompt])%list (w_outbox w1) in
                Gemini.generateWeeklySummary R this userName tasks startDate
                  endDate stats w1
                = match generateContent R prompt w1 with
                  | Ok text =>
                      (Ok (Gemini.mkSummaryResult (Js.trim text) true),
                       interleave R (interleave R sent))
                  | Throw e =>
                      (Ok (Gemini.generateFallbackWeeklySummary userName tasks
                             (formatShort R startDate)
                             (formatShortYear R endDate) stats),
                       appendLog LError
                         ("Gemini API error for weekly summary: " ++ e)
                         (interleave R sent))
                  end)).
Proof.
  split.
  - eexists. split; [reflexivity|]. split; intros w1.
    + rewrite daily_summary_cases. reflexivity.
    + rewrite weekly_summary_cases. reflexivity.
  - intros apiKey Hkey. unfold Gemini.constructor.
    destruct (String.eqb_spec apiKey "") as [E|E]; [contradiction|].
    eexists. split; [reflexivity|].
    split; intros w1 Hne; cbv zeta;
      [rewrite daily_summary_cases | rewrite weekly_summary_cases]; cbv zeta;
      (replace (Notions.asked _ tasks) with true;
       [reflexivity
       | unfold Notions.asked; destruct tasks; [contradiction | reflexivity]]).
Qed.

(** Constructed with a key, the service sends one prompt about three
    tasks. *)
Lemma service_with_a_key_asks :
  exists this,
    fst (Gemini.constructor "k-123" Fixtures.emptyWorld) = Ok this
    /\ List.length
         (w_prompts
            (snd (Gemini.generateDailySummary Fixtures.quiet this "Ann"
                    Fixtures.threeTasks Fixtures.today Fixtures.emptyWorld)))
       = 1.
Proof.
  destruct (proj2 (service_without_api_key_never_asks Fixtures.quiet "Ann"
                     Fixtures.threeTasks Fixtures.today Fixtures.today
                     Fixtures.today (mkStats 0 0 0 0) Fixtures.emptyWorld)
              "k-123") as [this [E [Hd _]]].
  - discriminate.
  - exists this. rewrite E. split; [reflexivity|].
    specialize (Hd Fixtures.emptyWorld ltac:(discriminate)).
    cbv zeta in Hd. rewrite Hd. reflexivity.
Defined.

(** The prompt for three tasks names them. *)
Lemma daily_prompt_of_three_tasks :
  Js.includes "Task"
    (Gemini.buildDailySummaryPrompt "Ann" Fixtures.threeTasks
       "Tuesday, November 14, 2023") = true.
Proof.
  pose proof (daily_prompt_lists_every_task "Ann" "Tuesday, November 14, 2023"
                Fixtures.threeTasks) as H.
  cbv zeta in H.
  exact (proj2 (proj2 (proj2 H)) (Fixtures.input "DONE" "LOW")
           (or_introl eq_refl)).
Defined.

(** Three more tasks after thirty leave the weekly prompt as it is. *)
Lemma weekly_prompt_of_thirty_three_tasks :
  Gemini.buildWeeklySummaryPrompt "Ann"
    (Samples.thirtyTasks ++ Fixtures.threeTasks)%list "Nov 7" "Nov 14, 2023"
    (mkStats 1 2 3 4)
  = Gemini.buildWeeklySummaryPrompt "Ann" Samples.thirtyTasks "Nov 7"
      "Nov 14, 2023" (mkStats 1 2 3 4).
Proof.
  pose proof (weekly_prompt_reads_thirty_tasks "Ann" "Nov 7" "Nov 14, 2023"
                (mkStats 1 2 3 4) Samples.thirtyTasks) as H.
  cbv zeta in H.
  apply (proj1 (proj2 (proj2 H)) Fixtures.threeTasks).
  vm_compute. apply le_n.
Defined.

(** An answer of the completion service is returned trimmed and
    flagged. *)
Lemma answered_summary_is_flagged :
  match
    fst (Gemini.generateDailySummary Samples.answering Fixtures.configured
           "Ann" Fixtures.threeTasks Fixtures.today Fixtures.emptyWorld)
  with
  | Ok res =>
      Gemini.isAIGenerated res = true /\ Gemini.summary res = "A steady day."
  | Throw _ => False
  end.
Proof.
  pose proof (ai_flag_tells_where_the_text_came_from Samples.answering
                Fixtures.configured "Ann" Fixtures.threeTasks Fixtures.today
                Fixtures.today Fixtures.today (mkStats 0 0 0 0)
                Fixtures.emptyWorld) as H.
  cbv zeta in H. destruct H as [[res [E [Hiff [Htrue _]]]] _].
  rewrite E.
  assert (Hai : Gemini.isAIGenerated res = true).
  { apply Hiff. split; [discriminate|]. split; [discriminate|].
    eexists. reflexivity. }
  split; [exact Hai|].
  destruct (Htrue Hai) as [text [Et Hs]].
  rewrite Hs. vm_compute in Et. inversion Et. vm_compute. reflexivity.
Defined.

(** One prompt for three tasks, and no report row. *)
Lemma summary_of_three_tasks_asks_once :
  List.length
    (w_prompts
       (snd (Gemini.generateDailySummary Fixtures.quiet Fixtures.configured
               "Ann" Fixtures.threeTasks Fixtures.today
               Fixtures.emptyWorld))) = 1
  /\ w_reports
       (snd (Gemini.generateDailySummary Fixtures.quiet Fixtures.configured
               "Ann" Fixtures.threeTasks Fixtures.today
               Fixtures.emptyWorld)) = [].
Proof.
  pose proof (summary_asks_once_and_writes_nothing Fixtures.quiet
                Fixtures.configured "Ann" Fixtures.threeTasks Fixtures.today
                Fixtures.today Fixtures.today (mkStats 0 0 0 0)
                Fixtures.emptyWorld (fun x => eq_refl)) as H.
  cbv zeta in H. destruct H as [[_ [_ [_ [Hr [_ [_ Hp]]]]]] _].
  rewrite Hp, Hr. split; reflexivity.
Defined.

End SummaryFacts.

Module RunFacts.

Section Facts.
Variable R : Runtime.
Variable g : Gemini.GeminiService.

Lemma daily_report_cases (userId : string) (date : option Js.Date) (w : World) :
  Report.generateDailyReport R g userId date w =
  match Report.findUser userId w with
  | None => (Throw "User not found", interleave R w)
  | Some user =>
      let '(data, run) := Notions.dailySummaryRun R g user userId date w in
      match run with
      | (Ok sr, w4) =>
          let w5 := interleave R w4 in
          let row :=
            mkReportRow (freshId R w5) DAILY (Gemini.summary sr) data userId
              (w_clock w5) in
          (Ok (Report.mkGeneratedReport (report_id row) DAILY
                 (Gemini.summary sr) (Gemini.isAIGenerated sr) data
                 (w_clock w5)),
           appendLog LInfo ("Daily report generated for " ++ user_email user)
             (interleave R (Notions.storeReport row w5)))
      | (Throw e, w4) => (Throw e, interleave R w4)
      end
  end.
Proof.
  unfold Notions.dailySummaryRun.
  destruct date; unfold Report.dateOr; ReportFacts.run; unfold Report.findUser.
  all: destruct (find _ (w_users w)) as [user|]; [|reflexivity].
  all: match goal with
       | |- context [Gemini.generateDailySummary ?a ?b ?c ?d ?e ?f] =>
           destruct (Gemini.generateDailySummary a b c d e f) as [[sr|err] w4]
       end; reflexivity.
Qed.


Lemma weekly_report_cases (userId : string) (weekEndDate : option Js.Date)
    (w : World) :
  Report.generateWeeklyReport R g userId weekEndDate w =
  match Report.findUser userId w with
  | None => (Throw "User not found", interleave R w)
  | Some user =>
      let '(data, run) := Notions.weeklySummaryRun R g user userId weekEndDate w in
      match run with
      | (Ok sr, w4) =>
          let w5 := interleave R w4 in
          let row :=
            mkReportRow (freshId R w5) WEEKLY (Gemini.summary sr) data userId
              (w_clock w5) in
          (Ok (Report.mkGeneratedReport (report_id row) WEEKLY
                 (Gemini.summary sr) (Gemini.isAIGenerated sr) data
                 (w_clock w5)),
           appendLog LInfo ("Weekly report generated for " ++ user_email user)
             (interleave R (Notions.storeReport row w5)))
      | (Throw e, w4) => (Throw e, interleave R w4)
      end
  end.
Proof.
  unfold Notions.weeklySummaryRun.
  destruct weekEndDate; unfold Report.dateOr; ReportFacts.run;
    unfold Report.findUser.
  all: destruct (find _ (w_users w)) as [user|]; [|reflexivity].
  all: match goal with
       | |- context [Gemini.generateWeeklySummary ?a ?b ?c ?d ?e ?f ?g ?h] =>
           destruct (Gemini.generateWeeklySummary a b c d e f g h)
             as [[sr|err] w4]
       end; reflexivity.
Qed.

(** X12.  Generating a daily or weekly report fails only when the user does
    not exist: then it raises User not found, and for an existing user a
    report is returned whatever the completion service does. *)
Theorem report_generation_fails_only_for_a_missing_user
    (userId : string) (date : option Js.Date) (w : World) :
  (Report.findUser userId w = None ->
     Report.generateDailyReport R g userId date w
       = (Throw "User not found", interleave R w)
     /\ Report.generateWeeklyReport R g userId date w
       = (Throw "User not found", interleave R w))
  /\ (Report.findUser userId w <> None ->
        (exists rep w', Report.generateDailyReport R g userId date w = (Ok rep, w'))
        /\ (exists rep w',
              Report.generateWeeklyReport R g userId date w = (Ok rep, w'))).
Proof.
  rewrite daily_report_cases, weekly_report_cases.
  destruct (Report.findUser userId w) as [user|]; split;
    try congruence; try (intros _; split; reflexivity).
  intros _. unfold Notions.dailySummaryRun, Notions.weeklySummaryRun. cbv zeta. split.
  - match goal with
    | |- context [Gemini.generateDailySummary ?a ?b ?c ?d ?e ?f] =>
        destruct (SummaryFacts.daily_summary_returns a b c d e f)
          as [sr [w4 ->]]
    end. eauto.
  - match goal with
    | |- context [Gemini.generateWeeklySummary ?a ?b ?c ?d ?e ?f ?g ?h] =>
        destruct (SummaryFacts.weekly_summary_returns a b c d e f g h)
          as [sr [w4 ->]]
    end. eauto.
Qed.

Section Quiet.
Hypothesis Hquiet : forall x, interleave R x = x.

Lemma daily_summary_sameTables userName tasks date w :
  Notions.sameTables w (snd (Gemini.generateDailySummary R g userName tasks date w)).
Proof.
  rewrite SummaryFacts.daily_summary_cases. cbv zeta.
  destruct (Notions.asked g tasks); [|repeat split].
  destruct (generateContent R _ w); cbn [snd]; rewrite ?Hquiet; repeat split.
Qed.

Lemma weekly_summary_sameTables userName tasks startDate endDate stats w :
  Notions.sameTables w
    (snd (Gemini.generateWeeklySummary R g userName tasks startDate endDate
            stats w)).
Proof.
  rewrite SummaryFacts.weekly_summary_cases. cbv zeta.
  destruct (Notions.asked g tasks); [|repeat split].
  destruct (generateContent R _ w); cbn [snd]; rewrite ?Hquiet; repeat split.
Qed.

(** A report generated with nothing else going on. *)
Lemma generate_quiet (ty : ReportType) (userId : string)
    (date : option Js.Date) (w : World) (user : User) :
  Report.findUser userId w = Some user ->
  exists rep w',
    match ty with
    | DAILY => Report.generateDailyReport R g userId date w
    | WEEKLY => Report.generateWeeklyReport R g userId date w
    end = (Ok rep, w')
    /\ w_reports w'
       = (w_reports w
          ++ [mkReportRow (Report.id rep) ty (Report.summary rep)
                (Report.data rep) userId (Report.createdAt rep)])%list
    /\ Report.type rep = ty
    /\ Report.createdAt rep = w_clock w
    /\ data_tasks (Report.data rep)
       = map (Report.snapshot R) (Report.tasksSeen R userId w)
    /\ w_users w' = w_users w /\ w_projects w' = w_projects w
    /\ w_tasks w' = w_tasks w /\ w_outbox w' = w_outbox w
    /\ w_clock w' = w_clock w.
Proof.
  intros Hu. destruct ty.
  - rewrite daily_report_cases, Hu. unfold Notions.dailySummaryRun. cbv zeta.
    rewrite !Hquiet.
    match goal with
    | |- context [Gemini.generateDailySummary ?a ?b ?c ?d ?e ?f] =>
        pose proof (daily_summary_sameTables c d e f) as Hs;
        destruct (SummaryFacts.daily_summary_returns a b c d e f)
          as [sr [w4 E]]; rewrite E in Hs |- *
    end.
    destruct Hs as [Hus [Hp [Ht [Hr [Ho Hc]]]]]. cbn [snd] in *.
    do 2 eexists. split; [reflexivity|].
    unfold appendLog, Notions.storeReport. rewrite !Hquiet.
    cbn [Report.id Report.type Report.summary Report.data Report.createdAt
         w_reports w_users w_projects w_tasks w_outbox w_clock report_id
         data_tasks Report.calculateStats].
    rewrite Hr, Hc, Hus, Hp, Ht, Ho. repeat split.
  - rewrite weekly_report_cases, Hu. unfold Notions.weeklySummaryRun. cbv zeta.
    rewrite !Hquiet.
    match goal with
    | |- context [Gemini.generateWeeklySummary ?a ?b ?c ?d ?e ?f ?g ?h] =>
        pose proof (weekly_summary_sameTables c d e f g h) as Hs;
        destruct (SummaryFacts.weekly_summary_returns a b c d e f g h)
          as [sr [w4 E]]; rewrite E in Hs |- *
    end.
    destruct Hs as [Hus [Hp [Ht [Hr [Ho Hc]]]]]. cbn [snd] in *.
    do 2 eexists. split; [reflexivity|].
    unfold appendLog, Notions.storeReport. rewrite !Hquiet.
    cbn [Report.id Report.type Report.summary Report.data Report.createdAt
         w_reports w_users w_projects w_tasks w_outbox w_clock report_id
         data_tasks Report.calculateStats].
    rewrite Hr, Hc, Hus, Hp, Ht, Ho. repeat split.
Qed.


Lemma findUser_same (userId : string) (w w' : World) :
  w_users w' = w_users w -> Report.findUser userId w' = Report.findUser userId w.
Proof. unfold Report.findUser. now intros ->. Qed.

Lemma send_quiet (ty : ReportType) (userId : string) (w : World) (user : User) :
  Report.findUser userId w = Some user ->
  exists w' mail row,
    Notions.sendOf R g ty userId w = (Ok tt, w')
    /\ w_outbox w' = (w_outbox w ++ [mail])%list
    /\ w_reports w' = (w_reports w ++ [row])%list
    /\ mail_kind mail = ty /\ report_type row = ty
    /\ report_userId row = userId
    /\ mail_to mail = user_email user /\ mail_name mail = user_name user
    /\ mail_summary mail = report_summary row
    /\ mail_rows mail
       = map Report.emailRow
           (firstn (Notions.rowCap ty)
              (map (Report.snapshot R) (Report.tasksSeen R userId w)))
    /\ w_users w' = w_users w /\ w_projects w' = w_projects w
    /\ w_tasks w' = w_tasks w /\ w_clock w' = w_clock w.
Proof.
  intros Hu.
  destruct (generate_quiet ty userId None w user Hu)
    as [rep [w1 [E [Hr [Hty [Hc [Hd [Hus [Hp [Ht [Ho Hcl]]]]]]]]]]].
  pose proof (findUser_same userId w w1 Hus) as Hf. rewrite Hu in Hf.
  destruct ty; cbn [Notions.sendOf Notions.rowCap];
    unfold Report.sendDailyReportEmail, Report.sendWeeklyReportEmail;
    unfold bind at 1; unfold await at 1; rewrite E, Hquiet;
    unfold bind at 1; unfold await at 1, Report.user_findUnique, gets;
    fold (Report.findUser userId w1); rewrite Hf, Hquiet;
    unfold bind, await, EmailService.sendDailySummary,
      EmailService.sendWeeklySummary, EmailService.send, ret;
    rewrite Hquiet; do 3 eexists; (split; [reflexivity|]);
    cbn [w_outbox w_reports w_users w_projects w_tasks w_clock mail_kind
         mail_to mail_name mail_summary mail_rows];
    rewrite Hr, Ho, Hd; unfold Js.slice0;
    repeat split; auto.
  cbn [mail_rows]. rewrite firstn_map, firstn_firstn. reflexivity.
Qed.


(** X13.  With nothing else happening during an await, a generated report for
    an existing user is stored as exactly one new row, appended to the
    report table, of the report's type, carrying its id, summary and data
    and dated at the clock; users, projects, tasks and outbox are left as
    they are.  Daily and weekly. *)
Theorem generated_report_is_stored_once
    (userId : string) (date : option Js.Date) (w : World) (user : User)
    (Huser : Report.findUser userId w = Some user) :
  (exists rep w',
     Report.generateDailyReport R g userId date w = (Ok rep, w')
     /\ w_reports w'
        = (w_reports w
           ++ [mkReportRow (Report.id rep) DAILY (Report.summary rep)
                 (Report.data rep) userId (Report.createdAt rep)])%list
     /\ Report.type rep = DAILY /\ Report.createdAt rep = w_clock w
     /\ w_users w' = w_users w /\ w_projects w' = w_projects w
     /\ w_tasks w' = w_tasks w /\ w_outbox w' = w_outbox w)
  /\
  (exists rep w',
     Report.generateWeeklyReport R g userId date w = (Ok rep, w')
     /\ w_reports w'
        = (w_reports w
           ++ [mkReportRow (Report.id rep) WEEKLY (Report.summary rep)
                 (Report.data rep) userId (Report.createdAt rep)])%list
     /\ Report.type rep = WEEKLY /\ Report.createdAt rep = w_clock w
     /\ w_users w' = w_users w /\ w_projects w' = w_projects w
     /\ w_tasks w' = w_tasks w /\ w_outbox w' = w_outbox w).
Proof.
  split.
  - destruct (generate_quiet DAILY userId date w user Huser)
      as [rep [w' [E [Hr [Hty [Hc [_ [Hus [Hp [Ht [Ho _]]]]]]]]]]].
    exists rep, w'. repeat split; assumption.
  - destruct (generate_quiet WEEKLY userId date w user Huser)
      as [rep [w' [E [Hr [Hty [Hc [_ [Hus [Hp [Ht [Ho _]]]]]]]]]]].
    exists rep, w'. repeat split; assumption.
Qed.

(** X14.  With nothing else happening during an await, sending a report
    e-mail for an existing user stores one report and hands one mail to the
    mailer, addressed to the user's e-mail and name, with the stored
    summary, and with at most 10 task rows in a daily mail and at most 20
    in a weekly one. *)
Theorem report_email_goes_to_the_user_with_capped_rows
    (userId : string) (w : World) (user : User)
    (Huser : Report.findUser userId w = Some user) :
  let shown := List.length (Report.tasksSeen R userId w) in
  (exists w' mail row,
     Report.sendDailyReportEmail R g userId w = (Ok tt, w')
     /\ w_outbox w' = (w_outbox w ++ [mail])%list
     /\ w_reports w' = (w_reports w ++ [row])%list
     /\ mail_kind mail = DAILY /\ mail_to mail = user_email user
     /\ mail_name mail = user_name user
     /\ mail_summary mail = report_summary row
     /\ List.length (mail_rows mail) = Nat.min 10 shown)
  /\
  (exists w' mail row,
     Report.sendWeeklyReportEmail R g userId w = (Ok tt, w')
     /\ w_outbox w' = (w_outbox w ++ [mail])%list
     /\ w_reports w' = (w_reports w ++ [row])%list
     /\ mail_kind mail = WEEKLY /\ mail_to mail = user_email user
     /\ mail_name mail = user_name user
     /\ mail_summary mail = report_summary row
     /\ List.length (mail_rows mail) = Nat.min 20 shown).
Proof.
  cbv zeta. split.
  - destruct (send_quiet DAILY userId w user Huser)
      as [w' [mail [row [E [Ho [Hr [Hk [_ [_ [Hto [Hn [Hs [Hrows _]]]]]]]]]]]]].
    exists w', mail, row. repeat split; try assumption.
    rewrite Hrows, length_map, length_firstn, length_map. reflexivity.
  - destruct (send_quiet WEEKLY userId w user Huser)
      as [w' [mail [row [E [Ho [Hr [Hk [_ [_ [Hto [Hn [Hs [Hrows _]]]]]]]]]]]]].
    exists w', mail, row. repeat split; try assumption.
    rewrite Hrows, length_map, length_firstn, length_map. reflexivity.
Qed.

End Quiet.

End Facts.
(** No report for an unknown id; a weekly report for Ann. *)
Lemma report_for_an_unknown_user :
  Report.generateDailyReport Fixtures.quiet Fixtures.configured "Z" None
    Fixtures.team = (Throw "User not found", Fixtures.team)
  /\ exists rep w',
       Report.generateWeeklyReport Fixtures.quiet Fixtures.configured "A" None
         Fixtures.team = (Ok rep, w').
Proof.
  split.
  - exact (proj1 (proj1 (report_generation_fails_only_for_a_missing_user
                           Fixtures.quiet Fixtures.configured "Z" None
                           Fixtures.team) eq_refl)).
  - apply (proj2 (report_generation_fails_only_for_a_missing_user
                    Fixtures.quiet Fixtures.configured "A" None
                    Fixtures.team)).
    vm_compute. discriminate.
Defined.

(** Ann's first reports are the only rows of the table. *)
Lemma anns_reports_are_stored :
  List.length
    (w_reports
       (snd (Report.generateDailyReport Fixtures.quiet Fixtures.configured "A"
               None Fixtures.team))) = 1
  /\ List.length
       (w_reports
          (snd (Report.generateWeeklyReport Fixtures.quiet Fixtures.configured
                  "A" None Fixtures.team))) = 1.
Proof.
  destruct (generated_report_is_stored_once Fixtures.quiet Fixtures.configured
              (fun x => eq_refl) "A" None Fixtures.team Fixtures.ann eq_refl)
    as [[rd [wd [Ed [Hd _]]]] [rw [ww [Ew [Hw _]]]]].
  rewrite Ed, Ew. cbn [snd]. rewrite Hd, Hw. split; reflexivity.
Defined.

(** With twelve tasks the daily mail shows ten and the weekly mail
    twelve. *)
Lemma busy_user_gets_ten_and_twelve_rows :
  map (fun m => (mail_to m, List.length (mail_rows m)))
      (w_outbox
         (snd (Report.sendDailyReportEmail Fixtures.quiet Fixtures.configured
                 "A" Samples.busy)))
  = [("ann@example.com", 10)]
  /\ map (fun m => (mail_to m, List.length (mail_rows m)))
         (w_outbox
            (snd (Report.sendWeeklyReportEmail Fixtures.quiet
                    Fixtures.configured "A" Samples.busy)))
     = [("ann@example.com", 12)].
Proof.
  pose proof (report_email_goes_to_the_user_with_capped_rows Fixtures.quiet
                Fixtures.configured (fun x => eq_refl) "A" Samples.busy
                Fixtures.ann eq_refl) as H.
  cbv zeta in H.
  destruct H as [[w1 [m1 [r1 [E1 [O1 [_ [_ [T1 [_ [_ L1]]]]]]]]]]
                 [w2 [m2 [r2 [E2 [O2 [_ [_ [T2 [_ [_ L2]]]]]]]]]]].
  rewrite E1, E2. cbn [snd]. rewrite O1, O2.
  cbn [Samples.busy w_outbox List.app map]. rewrite T1, L1, T2, L2.
  split; vm_compute; reflexivity.
Defined.

End RunFacts.

Module DeliverFacts.

Section Facts.
Variable R : Runtime.
Variable g : Gemini.GeminiService.
Variable d : Mail -> World -> bool.

Lemma wd_dailySummary u tasks date w :
  Gemini.generateDailySummary (Notions.withDeliver R d) g u tasks date w
  = Gemini.generateDailySummary R g u tasks date w.
Proof. reflexivity. Qed.

Lemma wd_weeklySummary u tasks s e st w :
  Gemini.generateWeeklySummary (Notions.withDeliver R d) g u tasks s e st w
  = Gemini.generateWeeklySummary R g u tasks s e st w.
Proof. reflexivity. Qed.

Lemma wd_calculateStats tasks s e now :
  Report.calculateStats (Notions.withDeliver R d) tasks s e now
  = Report.calculateStats R tasks s e now.
Proof. reflexivity. Qed.

Lemma wd_tasksSeen u w :
  Report.tasksSeen (Notions.withDeliver R d) u w = Report.tasksSeen R u w.
Proof. reflexivity. Qed.

Lemma wd_dailyWindow t :
  Report.dailyWindow (Notions.withDeliver R d) t = Report.dailyWindow R t.
Proof. reflexivity. Qed.

Lemma wd_weeklyWindow t :
  Report.weeklyWindow (Notions.withDeliver R d) t = Report.weeklyWindow R t.
Proof. reflexivity. Qed.

Lemma wd_generateDaily userId date w :
  Report.generateDailyReport (Notions.withDeliver R d) g userId date w
  = Report.generateDailyReport R g userId date w.
Proof.
  rewrite !RunFacts.daily_report_cases.
  destruct (Report.findUser userId w) as [user|]; [|reflexivity].
  unfold Notions.dailySummaryRun. cbv zeta. change (interleave (Notions.withDeliver R d)) with (interleave R).
  rewrite wd_dailySummary, wd_calculateStats, wd_tasksSeen, wd_dailyWindow.
  reflexivity.
Qed.

Lemma wd_generateWeekly userId date w :
  Report.generateWeeklyReport (Notions.withDeliver R d) g userId date w
  = Report.generateWeeklyReport R g userId date w.
Proof.
  rewrite !RunFacts.weekly_report_cases.
  destruct (Report.findUser userId w) as [user|]; [|reflexivity].
  unfold Notions.weeklySummaryRun. cbv zeta. change (interleave (Notions.withDeliver R d)) with (interleave R).
  rewrite wd_weeklySummary, wd_calculateStats, wd_tasksSeen, wd_weeklyWindow.
  reflexivity.
Qed.

(** X15.  What the mailer answers makes no difference to sending a report
    e-mail: outcome and resulting state are the same for any two mailers,
    so a mail the mailer reports as not sent does not make the send
    fail. *)
Theorem report_email_outcome_ignores_the_mailer_answer
    (userId : string) (w : World) :
  Report.sendDailyReportEmail (Notions.withDeliver R d) g userId w
    = Report.sendDailyReportEmail R g userId w
  /\ Report.sendWeeklyReportEmail (Notions.withDeliver R d) g userId w
    = Report.sendWeeklyReportEmail R g userId w.
Proof.
  unfold Report.sendDailyReportEmail, Report.sendWeeklyReportEmail.
  unfold bind, await.
  rewrite wd_generateDaily, wd_generateWeekly.
  change (interleave (Notions.withDeliver R d)) with (interleave R).
  split.
  - destruct (Report.generateDailyReport R g userId None w) as [[rep|e] w1];
      [|reflexivity].
    destruct (Report.user_findUnique userId (interleave R w1)) as [[[u|]|e] w2];
      reflexivity.
  - destruct (Report.generateWeeklyReport R g userId None w) as [[rep|e] w1];
      [|reflexivity].
    destruct (Report.user_findUnique userId (interleave R w1)) as [[[u|]|e] w2];
      reflexivity.
Qed.
End Facts.
End DeliverFacts.

Module EmptyFacts.
Section Facts.
Variable R : Runtime.
Variable g : Gemini.GeminiService.

Lemma asked_nil : Notions.asked g [] = false.
Proof. unfold Notions.asked. cbn. apply andb_false_r. Qed.

Lemma calculateStats_nil (s e : Js.Date) (now : Js.Time) :
  Report.calculateStats R [] s e now = mkReportData 0 0 0 0 [].
Proof. reflexivity. Qed.

(** X16.  For an existing user without any visible task, the report is never
    AI generated, whatever the completion service would answer: its summary
    is the no-tasks sentence of the fallback and its statistics are all
    zero.  Daily and weekly. *)
Theorem report_without_tasks_is_the_fallback
    (userId : string) (date : option Js.Date) (w : World) (user : User)
    (Huser : Report.findUser userId w = Some user)
    (Hnone : Report.tasksSeen R userId w = []) :
  let target := Report.dateOr date w in
  (exists rep w',
     Report.generateDailyReport R g userId date w = (Ok rep, w')
     /\ Report.isAIGenerated rep = false
     /\ Report.summary rep
        = "Here's your daily summary for " ++ formatLong R target
          ++ ". You have no tasks assigned for today. Consider reviewing your backlog or checking in with your team."
     /\ Report.data rep = mkReportData 0 0 0 0 [])
  /\
  (exists rep w',
     Report.generateWeeklyReport R g userId date w = (Ok rep, w')
     /\ Report.isAIGenerated rep = false
     /\ Report.summary rep
        = "Weekly summary for "
          ++ formatShort R (fst (Report.weeklyWindow R target)) ++ " - "
          ++ formatShortYear R (snd (Report.weeklyWindow R target))
          ++ ". No active tasks this week. Check your project backlogs for upcoming work."
     /\ Report.data rep = mkReportData 0 0 0 0 []).
Proof.
  cbv zeta. split.
  - rewrite RunFacts.daily_report_cases, Huser.
    unfold Notions.dailySummaryRun. cbv zeta.
    rewrite Hnone, calculateStats_nil. cbn [data_tasks map].
    rewrite SummaryFacts.daily_summary_cases. cbv zeta. rewrite asked_nil.
    do 2 eexists. split; [reflexivity|].
    cbn [Report.isAIGenerated Report.summary Report.data
         Gemini.isAIGenerated Gemini.summary
         Gemini.generateFallbackDailySummary].
    repeat split.
    cbn [List.length Nat.eqb]. rewrite !StringFacts.append_assoc. reflexivity.
  - rewrite RunFacts.weekly_report_cases, Huser.
    unfold Notions.weeklySummaryRun. cbv zeta.
    rewrite Hnone, calculateStats_nil. cbn [data_tasks map].
    rewrite SummaryFacts.weekly_summary_cases. cbv zeta. rewrite asked_nil.
    do 2 eexists. split; [reflexivity|].
    cbn [Report.isAIGenerated Report.summary Report.data
         Gemini.isAIGenerated Gemini.summary].
    repeat split.
    unfold Gemini.generateFallbackWeeklySummary.
    cbn [List.length data_created data_completed data_inProgress
         data_overdue st_created st_completed st_inProgress st_overdue
         Nat.ltb Nat.leb Nat.eqb andb Gemini.summary].
    rewrite !StringFacts.append_assoc. reflexivity.
Qed.

End Facts.
(** Cy is in no project: the report is the no-tasks text, though the
    completion service would answer. *)
Lemma cys_daily_report_is_the_no_tasks_text :
  match
    fst (Report.generateDailyReport Samples.answering Fixtures.configured "C"
           None Fixtures.team)
  with
  | Ok rep =>
      Report.isAIGenerated rep = false
      /\ Js.includes "You have no tasks assigned for today."
           (Report.summary rep) = true
  | Throw _ => False
  end.
Proof.
  pose proof (report_without_tasks_is_the_fallback Samples.answering
                Fixtures.configured "C" None Fixtures.team Fixtures.cy eq_refl
                eq_refl) as H.
  cbv zeta in H. destruct H as [[rep [w' [E [Hai [Hs _]]]]] _].
  rewrite E. cbn [fst]. split; [exact Hai|]. rewrite Hs.
  vm_compute. reflexivity.
Defined.

End EmptyFacts.

Module HistoryFacts.

Lemma insertByCreatedAtDesc_perm (r : ReportRow) rs :
  Permutation (Report.insertByCreatedAtDesc r rs) (r :: rs).
Proof.
  induction rs as [|r' rs IH]; cbn; [reflexivity|].
  destruct (_ <? _)%Z; [reflexivity|].
  rewrite IH. apply perm_swap.
Qed.

Lemma orderByCreatedAtDesc_perm rs :
  Permutation (Report.orderByCreatedAtDesc rs) rs.
Proof.
  induction rs as [|r rs IH]; cbn; [reflexivity|].
  rewrite insertByCreatedAtDesc_perm. now constructor.
Qed.

Lemma insertByCreatedAtDesc_sorted (r : ReportRow) rs :
  Sorted Notions.newerRow rs -> Sorted Notions.newerRow (Report.insertByCreatedAtDesc r rs).
Proof.
  induction rs as [|r' rs IH]; intros Hs; cbn.
  - repeat constructor.
  - destruct (_ <? _)%Z eqn:E.
    + constructor; [exact Hs|]. constructor. unfold Notions.newerRow.
      apply Z.ltb_lt in E. lia.
    + apply Z.ltb_ge in E. inversion Hs as [|? ? Hs' Hhd]; subst.
      constructor; [apply IH; exact Hs'|].
      destruct rs as [|r'' rs]; cbn.
      * constructor. exact E.
      * destruct (_ <? _)%Z; constructor; [exact E|].
        inversion Hhd; subst. assumption.
Qed.

Lemma orderByCreatedAtDesc_sorted rs :
  StronglySorted Notions.newerRow (Report.orderByCreatedAtDesc rs).
Proof.
  apply Sorted_StronglySorted.
  - intros a b c Hab Hbc. unfold Notions.newerRow in *. lia.
  - induction rs as [|r rs IH]; cbn; [constructor|].
    now apply insertByCreatedAtDesc_sorted.
Qed.

Lemma firstn_In {A : Type} (n : nat) (l : list A) (x : A) :
  In x (firstn n l) -> In x l.
Proof.
  intros H. rewrite <- (firstn_skipn n l). apply in_or_app. now left.
Qed.

Lemma StronglySorted_firstn {A : Type} (P : A -> A -> Prop) (n : nat) (l : list A) :
  StronglySorted P l -> StronglySorted P (firstn n l).
Proof.
  revert l; induction n as [|n IH]; intros l Hs; [constructor|].
  destruct l as [|x l]; [constructor|].
  inversion Hs; subst. cbn. constructor; [now apply IH|].
  apply Forall_forall. intros y Hy. apply firstn_In in Hy.
  rewrite Forall_forall in H2. now apply H2.
Qed.

Lemma StronglySorted_map_rel {A B : Type} (P : A -> A -> Prop)
    (Q : B -> B -> Prop) (f : A -> B) (l : list A) :
  (forall a b, P a b -> Q (f a) (f b)) ->
  StronglySorted P l -> StronglySorted Q (map f l).
Proof.
  intros HPQ Hs. induction Hs as [|x l Hs IH Hx]; cbn; constructor; auto.
  apply Forall_forall. intros y Hy. apply in_map_iff in Hy.
  destruct Hy as [a [<- Ha]]. rewrite Forall_forall in Hx. auto.
Qed.

Lemma reportTypeEqb_eq (a b : ReportType) :
  Report.reportTypeEqb a b = true <-> a = b.
Proof. destruct a, b; cbn; split; congruence. Qed.

Section Facts.
Variable R : Runtime.

Lemma historyWhere_iff (userId : string) (type : option ReportType)
    (r : ReportRow) :
  Report.historyWhere userId type r = true <->
  report_userId r = userId /\ (forall ty, type = Some ty -> report_type r = ty).
Proof.
  unfold Report.historyWhere.
  rewrite andb_true_iff, String.eqb_eq. destruct type as [ty|].
  - rewrite reportTypeEqb_eq. split.
    + intros [H1 H2]. split; [exact H1|]. intros ty' E. congruence.
    + intros [H1 H2]. split; [exact H1|]. now apply H2.
  - split; [intros [H1 _]; split; [exact H1 | discriminate]
           | intros [H1 _]; auto].
Qed.

(** Asked for at least as many entries as there are matching rows,
    the history has them all. *)
Lemma history_holds_every_matching_row
    (userId : string) (type : option ReportType) (limit : option nat)
    (w : World) :
  exists entries,
    Report.getReportHistory R userId type limit w = (Ok entries, interleave R w)
    /\ (forall r,
          List.length (filter (Report.historyWhere userId type) (w_reports w))
          <= match limit with Some n => n | None => 10 end ->
          In r (w_reports w) -> report_userId r = userId ->
          (forall ty, type = Some ty -> report_type r = ty) ->
          In (Notions.entryOf r) entries).
Proof.
  unfold Report.getReportHistory, bind, await,
    Report.report_findMany_history, gets, ret.
  set (matching := filter (Report.historyWhere userId type) (w_reports w)).
  eexists. split; [reflexivity|].
  intros r Hlen Hin Hu Hty.
  apply in_map_iff. exists r. split; [reflexivity|].
  rewrite firstn_all2
    by now rewrite (Permutation_length (orderByCreatedAtDesc_perm matching)).
  apply (Permutation_in _ (Permutation_sym (orderByCreatedAtDesc_perm matching))).
  apply filter_In. split; [exact Hin|]. apply historyWhere_iff. auto.
Qed.

(** X17.  The report history returns, newest first, at most [limit] entries
    (10 when no limit is given), as many as there are matching rows up to
    that bound; each entry is a stored report of the user and of the
    requested type if one is given, and when the bound is not reached every
    such report is in it. *)
Theorem history_is_bounded_and_newest_first
    (userId : string) (type : option ReportType) (limit : option nat)
    (w : World) :
  let n := match limit with Some n => n | None => 10 end in
  exists entries,
    Report.getReportHistory R userId type limit w = (Ok entries, interleave R w)
    /\ List.length entries
       = Nat.min n
           (List.length (filter (Report.historyWhere userId type) (w_reports w)))
    /\ StronglySorted
         (fun a b => (Report.h_createdAt b <= Report.h_createdAt a)%Z) entries
    /\ (forall e, In e entries ->
          exists r, In r (w_reports w) /\ e = Notions.entryOf r
                    /\ report_userId r = userId
                    /\ (forall ty, type = Some ty -> report_type r = ty))
    /\ (forall r,
          List.length (filter (Report.historyWhere userId type) (w_reports w)) <= n ->
          In r (w_reports w) -> report_userId r = userId ->
          (forall ty, type = Some ty -> report_type r = ty) ->
          In (Notions.entryOf r) entries).
Proof.
  cbv zeta. unfold Report.getReportHistory, bind, await,
    Report.report_findMany_history, gets, ret.
  set (n := match limit with Some n => n | None => 10 end).
  set (matching := filter (Report.historyWhere userId type) (w_reports w)).
  eexists. split; [reflexivity|].
  assert (Hwhere : forall r, Report.historyWhere userId type r = true <->
             report_userId r = userId
             /\ (forall ty, type = Some ty -> report_type r = ty)).
  { intros r. unfold Report.historyWhere.
    rewrite andb_true_iff, String.eqb_eq. destruct type as [ty|].
    - rewrite reportTypeEqb_eq. split.
      + intros [H1 H2]. split; [exact H1|]. intros ty' E. congruence.
      + intros [H1 H2]. split; [exact H1|]. now apply H2.
    - split; [intros [H1 _]; split; [exact H1 | discriminate]
             | intros [H1 _]; auto]. }
  split; [|split; [|split]].
  - rewrite length_map, length_firstn.
    now rewrite (Permutation_length (orderByCreatedAtDesc_perm matching)).
  - apply StronglySorted_map_rel with (P := Notions.newerRow); [auto|].
    apply StronglySorted_firstn, orderByCreatedAtDesc_sorted.
  - intros e He. apply in_map_iff in He. destruct He as [r [<- Hr]].
    apply firstn_In in Hr.
    apply (Permutation_in _ (orderByCreatedAtDesc_perm matching)) in Hr.
    apply filter_In in Hr. destruct Hr as [Hin Hm].
    exists r. split; [exact Hin|]. split; [reflexivity|]. now apply Hwhere.
  - intros r Hlen Hin Hu Hty.
    apply in_map_iff. exists r. split; [reflexivity|].
    rewrite firstn_all2
      by now rewrite (Permutation_length (orderByCreatedAtDesc_perm matching)).
    apply (Permutation_in _ (Permutation_sym (orderByCreatedAtDesc_perm matching))).
    apply filter_In. split; [exact Hin|]. apply Hwhere. auto.
Qed.


Variable g : Gemini.GeminiService.

(** X18.  With nothing else happening during an await, a report that was
    just generated for an existing user shows up in that user's history,
    when the history is filtered by the report's type and when it is not
    filtered, for every limit that is not below the number of stored
    reports (and without a limit when there are at most ten). *)
Theorem generated_report_shows_in_history
    (userId : string) (date : option Js.Date) (w : World) (user : User)
    (Hquiet : forall x, interleave R x = x)
    (Huser : Report.findUser userId w = Some user) :
  (exists rep w',
     Report.generateDailyReport R g userId date w = (Ok rep, w')
     /\ forall type limit,
          type = None \/ type = Some DAILY ->
          List.length (w_reports w')
          <= match limit with Some n => n | None => 10 end ->
          exists entries,
            Report.getReportHistory R userId type limit w' = (Ok entries, w')
            /\ In (Report.mkHistoryEntry (Report.id rep) DAILY
                     (Report.summary rep) (Report.data rep)
                     (Report.createdAt rep)) entries)
  /\
  (exists rep w',
     Report.generateWeeklyReport R g userId date w = (Ok rep, w')
     /\ forall type limit,
          type = None \/ type = Some WEEKLY ->
          List.length (w_reports w')
          <= match limit with Some n => n | None => 10 end ->
          exists entries,
            Report.getReportHistory R userId type limit w' = (Ok entries, w')
            /\ In (Report.mkHistoryEntry (Report.id rep) WEEKLY
                     (Report.summary rep) (Report.data rep)
                     (Report.createdAt rep)) entries).
Proof.
  split.
  - destruct (RunFacts.generate_quiet R g Hquiet DAILY userId date w user Huser)
      as [rep [w' [E [Hr _]]]].
    exists rep, w'. split; [exact E|]. intros type limit Hty Hlen.
    destruct (history_holds_every_matching_row userId type limit w')
      as [entries [Eh Hall]].
    exists entries. split; [now rewrite Eh, Hquiet|].
    apply (Hall (mkReportRow (Report.id rep) DAILY (Report.summary rep)
                   (Report.data rep) userId (Report.createdAt rep))).
    + eapply Nat.le_trans; [apply filter_length_le | exact Hlen].
    + rewrite Hr. apply in_or_app. right. now left.
    + reflexivity.
    + cbn. destruct Hty as [->| ->]; congruence.
  - destruct (RunFacts.generate_quiet R g Hquiet WEEKLY userId date w user Huser)
      as [rep [w' [E [Hr _]]]].
    exists rep, w'. split; [exact E|]. intros type limit Hty Hlen.
    destruct (history_holds_every_matching_row userId type limit w')
      as [entries [Eh Hall]].
    exists entries. split; [now rewrite Eh, Hquiet|].
    apply (Hall (mkReportRow (Report.id rep) WEEKLY (Report.summary rep)
                   (Report.data rep) userId (Report.createdAt rep))).
    + eapply Nat.le_trans; [apply filter_length_le | exact Hlen].
    + rewrite Hr. apply in_or_app. right. now left.
    + reflexivity.
    + cbn. destruct Hty as [->| ->]; congruence.
Qed.

End Facts.
(** Asked for one entry of Ann's two daily reports. *)
Lemma history_of_one_entry :
  exists entries,
    Report.getReportHistory Fixtures.quiet "A" (Some DAILY) (Some 1)
      Samples.office = (Ok entries, Samples.office)
    /\ List.length entries = 1.
Proof.
  pose proof (history_is_bounded_and_newest_first Fixtures.quiet "A"
                (Some DAILY) (Some 1) Samples.office) as H.
  cbv zeta in H. destruct H as [entries [E [L _]]].
  exists entries. split; [exact E | rewrite L; reflexivity].
Defined.

(** Ann's new daily report is in her history, asked for all reports
    without a limit and for ten daily ones. *)
Lemma anns_new_report_is_in_her_history :
  match
    Report.generateDailyReport Fixtures.quiet Fixtures.configured "A" None
      Samples.office
  with
  | (Ok rep, w') =>
      (exists entries,
         fst (Report.getReportHistory Fixtures.quiet "A" None None w')
         = Ok entries
         /\ In (Report.id rep) (map Report.h_id entries))
      /\ (exists entries,
            fst (Report.getReportHistory Fixtures.quiet "A" (Some DAILY)
                   (Some 10) w') = Ok entries
            /\ In (Report.id rep) (map Report.h_id entries))
  | (Throw _, _) => False
  end.
Proof.
  destruct (generated_report_shows_in_history Fixtures.quiet
              Fixtures.configured "A" None Samples.office Fixtures.ann
              (fun x => eq_refl) eq_refl)
    as [[rep [w' [E Hin]]] _].
  rewrite E.
  assert (Hlen : List.length (w_reports w') <= 10).
  { vm_compute in E. inversion E; subst. vm_compute. repeat constructor. }
  split.
  - destruct (Hin None None (or_introl eq_refl) Hlen) as [entries [Eh Hi]].
    exists entries. rewrite Eh. split; [reflexivity|].
    apply in_map_iff. eexists. split; [|exact Hi]. reflexivity.
  - destruct (Hin (Some DAILY) (Some 10) (or_intror eq_refl) Hlen)
      as [entries [Eh Hi]].
    exists entries. rewrite Eh. split; [reflexivity|].
    apply in_map_iff. eexists. split; [|exact Hi]. reflexivity.
Defined.

End HistoryFacts.

Module TeamFacts.

Lemma existsb_eqb_In (x : string) (l : list string) :
  existsb (fun y => y =? x) l = true <-> In x l.
Proof.
  rewrite existsb_exists. split.
  - intros [y [Hy E]]. apply String.eqb_eq in E. now subst.
  - intros H. exists x. split; [exact H | apply String.eqb_refl].
Qed.

Lemma setAdd_In (x m : string) (set : list string) :
  In x (Report.setAdd m set) <-> x = m \/ In x set.
Proof.
  unfold Report.setAdd. destruct (existsb _ set) eqn:E.
  - apply existsb_eqb_In in E. split; [auto|]. intros [->|H]; assumption.
  - rewrite in_app_iff. cbn. intuition.
Qed.

Lemma setAdd_NoDup (m : string) (set : list string) :
  NoDup set -> NoDup (Report.setAdd m set).
Proof.
  intros H. unfold Report.setAdd. destruct (existsb _ set) eqn:E; [exact H|].
  assert (Hn : ~ In m set).
  { intros Hin. apply existsb_eqb_In in Hin. congruence. }
  apply NoDup_app; [exact H | repeat constructor; auto|].
  intros x Hx [->|[]]. contradiction.
Qed.

Lemma addAll_spec (ms set : list string) :
  let set' := fold_left (fun set m => Report.setAdd m set) ms set in
  (NoDup set -> NoDup set')
  /\ forall x, In x set' <-> In x ms \/ In x set.
Proof.
  revert set. induction ms as [|m ms IH]; intros set; cbn.
  - split; [auto|]. intuition.
  - destruct (IH (Report.setAdd m set)) as [Hn Hi]. split.
    + intros H. apply Hn. now apply setAdd_NoDup.
    + intros x. rewrite Hi, setAdd_In. intuition.
Qed.

Lemma teamMemberIdsOf_spec_from (projects : list Project) (set : list string) :
  let set' :=
    fold_left
      (fun set p =>
         fold_left (fun set m => Report.setAdd m set) (project_members p) set)
      projects set in
  (NoDup set -> NoDup set')
  /\ forall x, In x set' <->
               (exists p, In p projects /\ In x (project_members p)) \/ In x set.
Proof.
  revert set. induction projects as [|p ps IH]; intros set; cbn.
  - split; [auto|]. intros x. split; [auto|]. intros [[p [[] _]]|H]; exact H.
  - destruct (addAll_spec (project_members p) set) as [Hn1 Hi1].
    destruct (IH (fold_left (fun set m => Report.setAdd m set)
                    (project_members p) set)) as [Hn Hi].
    split; [auto|]. intros x. rewrite Hi, Hi1. split.
    + intros [[q [Hq Hx]]|[Hx|Hx]]; eauto.
    + intros [[q [[<-|Hq] Hx]]|Hx]; eauto.
Qed.

Lemma teamMemberIdsOf_spec (projects : list Project) :
  NoDup (Report.teamMemberIdsOf projects)
  /\ forall x, In x (Report.teamMemberIdsOf projects) <->
               exists p, In p projects /\ In x (project_members p).
Proof.
  destruct (teamMemberIdsOf_spec_from projects []) as [Hn Hi].
  split; [apply Hn; constructor|].
  intros x. unfold Report.teamMemberIdsOf. rewrite Hi.
  split; [intros [H|[]]; exact H | auto].
Qed.

Section Facts.
Variable R : Runtime.

Lemma team_report_cases (managerId : string) (type : ReportType)
    (date : option Js.Date) (w : World) :
  Report.getTeamReport R managerId type date w =
  if Report.accessDenied (Report.findUser managerId w)
  then (Throw "Access denied", interleave R w)
  else
    let w2 := interleave R (interleave R w) in
    match Notions.teamStartOfDay R date w with
    | Js.Invalid => (Throw (invalidDateError R), interleave R w2)
    | Js.At startOfDay =>
        let rows :=
          Report.orderByCreatedAtDesc
            (filter (Report.teamWhere (Notions.teamSeen R managerId w) type
                       (Js.At startOfDay)) (w_reports w2)) in
        (Ok (Report.mkTeamReport
               (List.length (Notions.teamSeen R managerId w))
               (List.length rows)
               (map (fun r =>
                       Report.mkTeamEntry (report_id r)
                         (Report.userRefOf w2 (report_userId r)) (report_type r)
                         (report_summary r) (report_data r)
                         (report_createdAt r))
                    rows)),
         interleave R w2)
    end.
Proof.
  unfold Report.getTeamReport, Notions.teamSeen, Notions.teamStartOfDay, Report.findUser.
  unfold bind at 1. unfold await at 1, Report.user_findUnique, gets.
  destruct (Report.accessDenied _); [reflexivity|].
  destruct date; unfold Report.dateOr;
    cbv beta iota zeta delta
      [bind await gets ret Report.orNow newDate Report.project_findMany_owned];
    match goal with
    | |- context [JsDate.setHours ?a ?b ?c ?d ?e ?f] =>
        destruct (JsDate.setHours a b c d e f)
    end;
    cbv beta iota zeta delta
      [bind await gets ret throw Report.report_findMany_team];
    rewrite ?length_map, ?map_map; reflexivity.
Qed.

(** X19.  A team report is produced exactly when the requesting user exists
    and has role MANAGER or ADMIN and the start of the target day is a
    date; for anyone else, also for an unknown id, the call raises Access
    denied; for a manager or administrator whose target day has no start
    (an Invalid Date, or a date at the very end of the range) the error
    is that of the database client.  The start of the day is a date
    whenever the target date is two days inside the range of [Date] and
    no offset of the time zone exceeds a day. *)
Theorem team_report_needs_manager_or_admin
    (managerId : string) (type : ReportType) (date : option Js.Date)
    (w : World) :
  ((exists tr w', Report.getTeamReport R managerId type date w = (Ok tr, w'))
   <-> (exists m, Report.findUser managerId w = Some m
                  /\ (user_role m = "MANAGER" \/ user_role m = "ADMIN"))
       /\ Notions.teamStartOfDay R date w <> Js.Invalid)
  /\ ((forall m, Report.findUser managerId w = Some m ->
         user_role m <> "MANAGER" /\ user_role m <> "ADMIN")
      -> Report.getTeamReport R managerId type date w
         = (Throw "Access denied", interleave R w))
  /\ ((exists m, Report.findUser managerId w = Some m
                 /\ (user_role m = "MANAGER" \/ user_role m = "ADMIN")) ->
      Notions.teamStartOfDay R date w = Js.Invalid ->
      Report.getTeamReport R managerId type date w
      = (Throw (invalidDateError R),
         interleave R (interleave R (interleave R w))))
  /\ (Notions.offsetsWithinADay R ->
      forall t,
        Report.dateOr date (interleave R (interleave R w)) = Js.At t ->
        (Z.abs t <= Js.maxTime - 2 * Js.msPerDay)%Z ->
        Notions.teamStartOfDay R date w <> Js.Invalid).
Proof.
  rewrite team_report_cases.
  assert (Hd : Report.accessDenied (Report.findUser managerId w) = false <->
               exists m, Report.findUser managerId w = Some m
                         /\ (user_role m = "MANAGER" \/ user_role m = "ADMIN")).
  { destruct (Report.findUser managerId w) as [m|]; cbn.
    - rewrite andb_false_iff, !negb_false_iff, !String.eqb_eq. split.
      + intros H. exists m. auto.
      + intros [m' [E H]]. inversion E; subst. exact H.
    - split; [discriminate | intros [m [E _]]; discriminate]. }
  assert (Hvalid : Notions.offsetsWithinADay R ->
            forall t,
              Report.dateOr date (interleave R (interleave R w)) = Js.At t ->
              (Z.abs t <= Js.maxTime - 2 * Js.msPerDay)%Z ->
              Notions.teamStartOfDay R date w <> Js.Invalid).
  { intros Hz t Et Hr. unfold Notions.teamStartOfDay. rewrite Et.
    destruct (DateFacts.start_of_day_is_a_date R t Hz Hr) as [s ->].
    discriminate. }
  destruct (Report.accessDenied (Report.findUser managerId w)).
  - split; [|split; [reflexivity|split; [|exact Hvalid]]].
    + split.
      * intros [tr [w' E]]. discriminate.
      * intros [H _]. apply Hd in H. discriminate.
    + intros H _. apply Hd in H. discriminate.
  - cbv zeta. split; [|split; [|split; [|exact Hvalid]]].
    + destruct (Notions.teamStartOfDay R date w) as [|s]; split.
      * intros [tr [w' E]]. discriminate.
      * intros [_ H]. contradiction.
      * intros _. split; [now apply Hd | discriminate].
      * intros _. eauto.
    + intros H. exfalso. destruct (proj1 Hd eq_refl) as [m [E Hr]].
      destruct (H m E) as [H1 H2]. destruct Hr; contradiction.
    + intros _ ->. reflexivity.
Qed.

(** X20.  In a team report that was produced, the target day has a start,
    [teamSize] is the number of distinct members of the projects the
    requester owns, [reportsCount] is the length of [reports], the reports
    come newest first, each is a stored report of a team member, of the
    requested type and created at or after the start of the target day,
    and every such stored report is included. *)
Theorem team_report_holds_the_team_reports_of_the_day
    (managerId : string) (type : ReportType) (date : option Js.Date)
    (w : World) (tr : Report.TeamReport) (w' : World)
    (Hrun : Report.getTeamReport R managerId type date w = (Ok tr, w')) :
  let team := Notions.teamSeen R managerId w in
  let w2 := interleave R (interleave R w) in
  exists startOfDay,
    Notions.teamStartOfDay R date w = Js.At startOfDay
    /\ Report.teamSize tr = List.length team
    /\ NoDup team
    /\ (forall m, In m team <->
          exists p, In p (w_projects (interleave R w))
                    /\ project_ownerId p = managerId
                    /\ In m (project_members p))
    /\ Report.reportsCount tr = List.length (Report.reports tr)
    /\ StronglySorted
         (fun a b => (Report.te_createdAt b <= Report.te_createdAt a)%Z)
         (Report.reports tr)
    /\ (forall e, In e (Report.reports tr) ->
          Report.te_type e = type
          /\ (startOfDay <= Report.te_createdAt e)%Z
          /\ exists r, In r (w_reports w2) /\ report_id r = Report.te_id e
                       /\ report_summary r = Report.te_summary e
                       /\ In (report_userId r) team)
    /\ (forall r, In r (w_reports w2) -> In (report_userId r) team ->
          report_type r = type ->
          (startOfDay <= report_createdAt r)%Z ->
          exists e, In e (Report.reports tr) /\ Report.te_id e = report_id r).
Proof.
  cbv zeta. rewrite team_report_cases in Hrun.
  destruct (Report.accessDenied _); [discriminate|]. cbv zeta in Hrun.
  destruct (Notions.teamStartOfDay R date w) as [|start]; [discriminate|].
  inversion Hrun; subst; clear Hrun.
  exists start. split; [reflexivity|].
  cbn [Report.teamSize Report.reportsCount Report.reports].
  set (team := Notions.teamSeen R managerId w).
  set (w2 := interleave R (interleave R w)).
  destruct (teamMemberIdsOf_spec
              (filter (fun p => project_ownerId p =? managerId)
                      (w_projects (interleave R w)))) as [Hnd Hin].
  assert (Hwhere : forall r,
            Report.teamWhere team type (Js.At start) r = true <->
            In (report_userId r) team /\ report_type r = type
            /\ (start <= report_createdAt r)%Z).
  { intros r. unfold Report.teamWhere.
    rewrite !andb_true_iff, existsb_eqb_In, HistoryFacts.reportTypeEqb_eq,
      DateFacts.dateGeb_At, Z.leb_le. tauto. }
  split; [reflexivity|]. split; [exact Hnd|]. split; [|split; [|split; [|split]]].
  - intros m. unfold team, Notions.teamSeen. rewrite Hin. split.
    + intros [p [Hp Hm]]. apply filter_In in Hp. destruct Hp as [Hp Ho].
      apply String.eqb_eq in Ho. eauto.
    + intros [p [Hp [Ho Hm]]]. exists p. split; [|exact Hm].
      apply filter_In. split; [exact Hp | now apply String.eqb_eq].
  - now rewrite length_map.
  - apply HistoryFacts.StronglySorted_map_rel with (P := Notions.newerRow);
      [auto | apply HistoryFacts.orderByCreatedAtDesc_sorted].
  - intros e He. apply in_map_iff in He. destruct He as [r [<- Hr]].
    apply (Permutation_in _ (HistoryFacts.orderByCreatedAtDesc_perm _)) in Hr.
    apply filter_In in Hr. destruct Hr as [Hr Hm].
    apply Hwhere in Hm. destruct Hm as [Ht [Hty Hs]].
    cbn. split; [exact Hty|]. split; [exact Hs|]. exists r. auto.
  - intros r Hr Ht Hty Hs. eexists. split.
    + apply in_map_iff. exists r. split; [reflexivity|].
      apply (Permutation_in _
               (Permutation_sym (HistoryFacts.orderByCreatedAtDesc_perm _))).
      apply filter_In. split; [exact Hr|]. apply Hwhere. auto.
    + reflexivity.
Qed.

End Facts.

(** Ann, a member, is refused; Cy, a manager, is served; Cy asking for
    a day that is no date gets the error of the database client. *)
Lemma member_is_refused_and_manager_is_served :
  Report.getTeamReport Fixtures.quiet "A" DAILY None Samples.office
  = (Throw "Access denied", Samples.office)
  /\ (exists tr w',
        Report.getTeamReport Fixtures.quiet "C" DAILY None Samples.office
        = (Ok tr, w'))
  /\ Report.getTeamReport Fixtures.quiet "C" DAILY (Some Js.Invalid)
       Samples.office
     = (Throw "Provided Date object is invalid", Samples.office).
Proof.
  split; [|split].
  - apply (proj1 (proj2 (team_report_needs_manager_or_admin Fixtures.quiet "A"
                           DAILY None Samples.office))).
    intros m E. vm_compute in E. inversion E. split; discriminate.
  - apply (proj1 (team_report_needs_manager_or_admin Fixtures.quiet "C" DAILY
                    None Samples.office)).
    split.
    + exists Fixtures.cy. split; [reflexivity | left; reflexivity].
    + vm_compute. discriminate.
  - apply (proj1 (proj2 (proj2 (team_report_needs_manager_or_admin
                                  Fixtures.quiet "C" DAILY (Some Js.Invalid)
                                  Samples.office)))).
    + exists Fixtures.cy. split; [reflexivity | left; reflexivity].
    + reflexivity.
Defined.

(** Cy's studio lists Ann twice: the team has two members; the day
    starts at midnight of 14 November 2023. *)
Lemma cys_team_has_two_members :
  match
    fst (Report.getTeamReport Fixtures.quiet "C" DAILY None Samples.office)
  with
  | Ok tr =>
      Report.teamSize tr = 2
      /\ Report.reportsCount tr = List.length (Report.reports tr)
      /\ Notions.teamStartOfDay Fixtures.quiet None Samples.office
         = Js.At 1699920000000
  | Throw _ => False
  end.
Proof.
  destruct (Report.getTeamReport Fixtures.quiet "C" DAILY None Samples.office)
    as [[tr|e] w'] eqn:E.
  - pose proof (team_report_holds_the_team_reports_of_the_day Fixtures.quiet
                  "C" DAILY None Samples.office tr w' E) as H.
    cbv zeta in H. destruct H as [start [Es [Hs [_ [_ [Hc _]]]]]].
    cbn [fst]. split; [rewrite Hs; reflexivity|]. split; [exact Hc|].
    rewrite Es. vm_compute in Es. inversion Es; subst. reflexivity.
  - vm_compute in E. discriminate E.
Defined.

End TeamFacts.

Module FiringFacts.
Import Scheduler.

Lemma log_then {A : Type} (lvl : LogLevel) (msg : string) (m : SM A) (s : State) :
  bind (liftWorld (logger lvl msg)) (fun _ => m) s = m (Notions.logged lvl msg s).
Proof. reflexivity. Qed.

Section Facts.
Variable R : Runtime.
Variable sendDaily sendWeekly : string -> M unit.

(** X21.  After [stop], and before any [start], a firing of the cron
    expressions runs nothing: the state is unchanged and no send is made;
    [stop] leaves no job running and clears both job handles. *)
Theorem stopped_scheduler_sends_nothing (w : World) (f : Firing) :
  let stopped := snd (stop (snd (start (initial w)))) in
  fire R sendDaily sendWeekly f stopped = (Ok tt, stopped)
  /\ fire R sendDaily sendWeekly f (initial w) = (Ok tt, initial w)
  /\ Forall (fun t => running t = false) (registry stopped)
  /\ dailyJob stopped = None /\ weeklyJob stopped = None
  /\ sendCalls stopped = [].
Proof.
  cbv zeta. destruct f; repeat split; repeat constructor.
Qed.

(** A batch leaves the registry and the handles as they are. *)
Lemma batch_keeps_registry (ty : ReportType) (s : State) :
  exists counts s' calls,
    batchOf R sendDaily sendWeekly ty s = (Ok counts, s')
    /\ sendCalls s' = (sendCalls s ++ calls)%list
    /\ map call_userId calls = map user_id (verifiedUsers s)
    /\ Forall (fun c => call_type c = ty) calls
    /\ registry s' = registry s /\ dailyJob s' = dailyJob s
    /\ weeklyJob s' = weeklyJob s.
Proof.
  set (users := map (fun u => (user_id u, user_email u)) (verifiedUsers s)).
  set (s0 := mkState (interleave R (world s)) (registry s) (dailyJob s)
                     (weeklyJob s) (sendCalls s)).
  destruct (SchedulerFacts.forOf_iteration R sendDaily sendWeekly ty users
              (mkCounts 0 0) s0)
    as [c [s1 [calls [E [C [U [T [_ [_ [Hr [Hd Hw]]]]]]]]]]].
  assert (Hrun : exists s',
             batchOf R sendDaily sendWeekly ty s = (Ok c, s')
             /\ sendCalls s' = sendCalls s1 /\ registry s' = registry s1
             /\ dailyJob s' = dailyJob s1 /\ weeklyJob s' = weeklyJob s1).
  { unfold users, verifiedUsers in E.
    destruct ty; cbn [batchOf iteration] in *;
      unfold generateDailyReportsForAllUsers, generateWeeklyReportsForAllUsers;
      unfold bind at 1;
      unfold liftWorld at 1, await, user_findMany_verified, gets;
      fold s0; unfold bind at 1; rewrite E;
      unfold bind, liftWorld, logger, modify, ret;
      eexists; repeat split. }
  destruct Hrun as [s' [Hrun [Hc' [Hr' [Hd' Hw']]]]].
  exists c, s', calls.
  split; [exact Hrun|].
  split; [rewrite Hc', C; reflexivity|].
  split; [rewrite U; unfold users; rewrite map_map; reflexivity|].
  split; [exact T|].
  rewrite Hr', Hd', Hw', Hr, Hd, Hw. repeat split.
Qed.

End Facts.


End FiringFacts.

Module TurnFacts.
Import Scheduler.

Lemma firstn_snoc {A : Type} (j : nat) (l : list A) (x : A) (rest : list A) :
  skipn j l = x :: rest ->
  firstn (S j) l = (firstn j l ++ [x])%list /\ skipn (S j) l = rest.
Proof.
  revert l. induction j as [|j IH]; intros l H.
  - cbn in H. subst l. split; reflexivity.
  - destruct l as [|y l]; [discriminate|].
    cbn [skipn] in H. destruct (IH l H) as [F K].
    split; [|exact K].
    change (firstn (S (S j)) (y :: l)) with (y :: firstn (S j) l).
    rewrite F. reflexivity.
Qed.

Lemma sentTo_snoc (ty ty' : ReportType) (uid : string) (b : bool) (s s' : State) :
  sendCalls s' = (sendCalls s ++ [mkSendCall ty uid b])%list ->
  Notions.sentTo ty' s'
  = (Notions.sentTo ty' s
     ++ (if Report.reportTypeEqb ty ty' then [uid] else []))%list.
Proof.
  intros H. unfold Notions.sentTo. rewrite H, filter_app, map_app.
  cbn [filter call_type]. destruct (Report.reportTypeEqb ty ty'); reflexivity.
Qed.

Lemma standsAt_ended (ty : ReportType) (users : list (string * string))
    (k : nat) (p : option Suspended) :
  Notions.standsAt ty users k p -> (p = None <-> List.length users < k).
Proof.
  destruct k as [|j]; cbn [Notions.standsAt].
  - intros ->. split; [discriminate | lia].
  - destruct (skipn j users) as [|u rest] eqn:E.
    + intros ->. apply skipn_all_iff in E. split; [lia | reflexivity].
    + intros [acc ->]. split; [discriminate|].
      intros H. assert (K : skipn j users = []) by (apply skipn_all_iff; lia).
      rewrite K in E. discriminate.
Qed.

Lemma resumeNth_S (R : Runtime) (sD sW : string -> M unit) (j : nat)
    (p : option Suspended) (rest : list (option Suspended)) :
  resumeNth R sD sW (S j) (p :: rest)
  = (rest' <- resumeNth R sD sW j rest ;; ret (p :: rest')).
Proof. destruct p; reflexivity. Qed.

Lemma resumeNth_nil (R : Runtime) (sD sW : string -> M unit) (i : nat) :
  resumeNth R sD sW i [] = ret [].
Proof. destruct i; reflexivity. Qed.

Lemma sent_in_all (s : State) :
  List.length (sendCalls s)
  = List.length (Notions.sentTo DAILY s) + List.length (Notions.sentTo WEEKLY s).
Proof.
  unfold Notions.sentTo. rewrite !length_map.
  induction (sendCalls s) as [|c calls IH]; [reflexivity|].
  cbn [filter List.length]. destruct (call_type c); cbn; lia.
Qed.

Lemma only_daily_sent (s : State) :
  Notions.sentTo WEEKLY s = [] ->
  map call_userId (sendCalls s) = Notions.sentTo DAILY s.
Proof.
  unfold Notions.sentTo.
  induction (sendCalls s) as [|c calls IH]; [reflexivity|].
  cbn [filter map]. destruct (call_type c); cbn.
  - intros H. rewrite (IH H). reflexivity.
  - discriminate.
Qed.

Section Facts.
Variable R : Runtime.
Variable sendDaily sendWeekly : string -> M unit.

Lemma iteration_step_users (ty : ReportType) (acc : Counts)
    (user : string * string) (s : State)
    (Hsend : Notions.keepsUsers (sendFor sendDaily sendWeekly ty))
    (Hmeanwhile : forall w, w_users (interleave R w) = w_users w) :
  exists acc' s' b,
    iteration R sendDaily sendWeekly ty acc user s = (Ok acc', s')
    /\ sendCalls s' = (sendCalls s ++ [mkSendCall ty (fst user) b])%list
    /\ w_users (world s') = w_users (world s).
Proof.
  destruct user as [uid email].
  assert (Hw : w_users (interleave R (snd (sendFor sendDaily sendWeekly ty uid (world s))))
               = w_users (world s)).
  { rewrite Hmeanwhile. apply Hsend. }
  destruct ty; cbn [iteration]; unfold dailyIteration, weeklyIteration;
    unfold tryCatch, bind, awaitSend, await, bind, liftWorld, logger, modify, ret;
    cbn [sendFor] in *;
    [destruct (sendDaily uid (world s)) as [[[]|e] w1] eqn:E
    |destruct (sendWeekly uid (world s)) as [[[]|e] w1] eqn:E];
    cbn [snd] in Hw; cbn;
    do 3 eexists; (split; [reflexivity|]); (split; [reflexivity|]); cbn; exact Hw.
Qed.

Lemma resumeNth_O (p p' : option Suspended) (rest : list (option Suspended))
    (s s' : State) :
  match p with
  | Some q => resume R sendDaily sendWeekly q
  | None => ret None
  end s = (Ok p', s') ->
  resumeNth R sendDaily sendWeekly 0 (p :: rest) s = (Ok (p' :: rest), s').
Proof.
  destruct p; cbn [resumeNth]; intros E.
  - unfold bind. rewrite E. reflexivity.
  - inversion E. reflexivity.
Qed.

Lemma resumeNth_past (ps : list (option Suspended)) (i : nat) (s : State) :
  List.length ps <= i -> resumeNth R sendDaily sendWeekly i ps s = (Ok ps, s).
Proof.
  revert i. induction ps as [|p rest IH]; intros i H.
  - rewrite resumeNth_nil. reflexivity.
  - destruct i as [|j]; [cbn in H; lia|].
    rewrite resumeNth_S. unfold bind. rewrite IH by (cbn in H; lia). reflexivity.
Qed.

(** A batch that takes every turn until its end is the batch of the
    source: the loop from any of its iterations on. *)
Lemma loop_in_turns (ty : ReportType) (users : list (string * string)) :
  forall (acc : Counts) (s : State),
    (p <- loopFrom ty acc users ;;
     takeTurns R sendDaily sendWeekly (repeat 0 (List.length users)) [p]) s
    = (counts <- forOf users (iteration R sendDaily sendWeekly ty) acc ;;
       liftWorld (logger LInfo (completedLine ty counts)) ;;;
       ret [None]) s.
Proof.
  induction users as [|u rest IH]; intros acc s; [reflexivity|].
  cbn [loopFrom List.length repeat takeTurns forOf].
  destruct (SchedulerFacts.iteration_step R sendDaily sendWeekly ty acc u s)
    as [acc' [s1 [b [E _]]]].
  specialize (IH acc' s1).
  unfold bind at 1, ret at 1. unfold bind at 1.
  cbn [resumeNth resume]. unfold bind at 1. unfold bind at 1. rewrite E.
  unfold bind in IH |- *. rewrite E.
  destruct (loopFrom ty acc' rest s1) as [[p|e] s2]; exact IH.
Qed.

(** One batch alone, resumed once for its query and once for each
    verified user, ends in the state in which the batch of the source
    ends. *)
Lemma turns_of_one_batch (ty : ReportType) (s : State) :
  exists counts s',
    batchOf R sendDaily sendWeekly ty s = (Ok counts, s')
    /\ takeTurns R sendDaily sendWeekly
         (repeat 0 (S (List.length (verifiedUsers s)))) [Some (AtQuery ty)] s
       = (Ok [None], s').
Proof.
  destruct (SchedulerFacts.batch_runs R sendDaily sendWeekly ty s)
    as [c [s' [calls [E _]]]].
  exists c, s'. split; [exact E|].
  cbn [repeat takeTurns resumeNth resume].
  set (users := map (fun u => (user_id u, user_email u)) (verifiedUsers s)).
  set (s0 := mkState (interleave R (world s)) (registry s) (dailyJob s)
                     (weeklyJob s) (sendCalls s)).
  assert (L : List.length (verifiedUsers s) = List.length users)
    by (unfold users; rewrite length_map; reflexivity).
  rewrite L.
  pose proof (loop_in_turns ty users (mkCounts 0 0) s0) as H.
  assert (Hb : batchOf R sendDaily sendWeekly ty s
               = (counts <- forOf users (iteration R sendDaily sendWeekly ty)
                              (mkCounts 0 0) ;;
                  liftWorld (logger LInfo (completedLine ty counts)) ;;;
                  ret counts) s0)
    by (destruct ty; reflexivity).
  rewrite E in Hb.
  transitivity ((p <- loopFrom ty (mkCounts 0 0) users ;;
                 takeTurns R sendDaily sendWeekly
                   (repeat 0 (List.length users)) [p]) s0).
  { unfold bind, liftWorld, await, user_findMany_verified, gets, ret.
    fold (verifiedUsers s). fold users. fold s0.
    destruct (loopFrom ty (mkCounts 0 0) users s0) as [[p|e] s1]; reflexivity. }
  rewrite H. unfold bind at 1. unfold bind at 1 in Hb.
  destruct (forOf users (iteration R sendDaily sendWeekly ty) (mkCounts 0 0) s0)
    as [[c1|e] s1]; [|discriminate].
  unfold bind, liftWorld, logger, modify, ret in Hb |- *.
  inversion Hb. reflexivity.
Qed.

Hypothesis Hdaily : Notions.keepsUsers sendDaily.
Hypothesis Hweekly : Notions.keepsUsers sendWeekly.
Hypothesis Hmeanwhile : forall w, w_users (interleave R w) = w_users w.

Variable table : list User.

Let users : list (string * string) :=
  map (fun u => (user_id u, user_email u)) (filter user_isVerified table).

Let ids : list string := map fst users.

Lemma loopFrom_stands (ty : ReportType) (acc : Counts) (j : nat) (s : State) :
  exists p' s',
    loopFrom ty acc (skipn j users) s = (Ok p', s')
    /\ Notions.standsAt ty users (S j) p'
    /\ sendCalls s' = sendCalls s
    /\ w_users (world s') = w_users (world s).
Proof.
  cbn [Notions.standsAt]. destruct (skipn j users) as [|u rest]; cbn [loopFrom].
  - do 2 eexists. split; [reflexivity|]. repeat split.
  - do 2 eexists. split; [reflexivity|]. repeat split. exists acc. reflexivity.
Qed.

Lemma turn_step (ty : ReportType) (k : nat) (p : option Suspended) (s : State) :
  w_users (world s) = table ->
  Notions.standsAt ty users k p ->
  Notions.sentTo ty s = firstn (k - 1) ids ->
  exists p' s',
    match p with Some q => resume R sendDaily sendWeekly q | None => ret None end s
    = (Ok p', s')
    /\ Notions.standsAt ty users (S k) p'
    /\ Notions.sentTo ty s' = firstn k ids
    /\ (forall ty', ty' <> ty -> Notions.sentTo ty' s' = Notions.sentTo ty' s)
    /\ w_users (world s') = table.
Proof.
  intros Hw Hp Hsent.
  destruct k as [|j]; cbn [Notions.standsAt] in Hp.
  - subst p. cbn [resume].
    unfold bind at 1, liftWorld at 1, await, user_findMany_verified, gets, bind, ret.
    rewrite Hw. fold users.
    set (s0 := mkState (interleave R (world s)) (registry s) (dailyJob s)
                       (weeklyJob s) (sendCalls s)).
    destruct (loopFrom_stands ty (mkCounts 0 0) 0 s0) as [p' [s' [E [St [C W]]]]].
    cbn [skipn] in E. exists p', s'. split; [exact E|]. split; [exact St|].
    split; [unfold Notions.sentTo in *; rewrite C; exact Hsent|].
    split; [intros ty' _; unfold Notions.sentTo; rewrite C; reflexivity|].
    rewrite W. unfold s0. cbn [world]. rewrite Hmeanwhile. exact Hw.
  - replace (S j - 1) with j in Hsent by lia.
    destruct (skipn j users) as [|u rest] eqn:E.
    + subst p. exists None, s. split; [reflexivity|].
      apply skipn_all_iff in E.
      assert (L : List.length ids <= j) by (unfold ids; rewrite length_map; exact E).
      split. { cbn [Notions.standsAt].
               assert (K : skipn (S j) users = []) by (apply skipn_all_iff; lia).
               rewrite K. reflexivity. }
      split. { rewrite Hsent, !firstn_all2 by lia. reflexivity. }
      split; [reflexivity | exact Hw].
    + destruct Hp as [acc ->]. cbn [resume].
      assert (Hsend : Notions.keepsUsers (sendFor sendDaily sendWeekly ty))
        by (destruct ty; assumption).
      destruct (iteration_step_users ty acc u s Hsend Hmeanwhile)
        as [acc' [s1 [b [E1 [C1 W1]]]]].
      unfold bind at 1. rewrite E1.
      destruct (firstn_snoc j users u rest E) as [F K].
      destruct (loopFrom_stands ty acc' (S j) s1) as [p' [s' [E2 [St [C2 W2]]]]].
      rewrite K in E2.
      exists p', s'. split; [exact E2|]. split; [exact St|].
      assert (Hs : forall ty', Notions.sentTo ty' s' = Notions.sentTo ty' s1)
        by (intros ty'; unfold Notions.sentTo; rewrite C2; reflexivity).
      split.
      { rewrite Hs, (sentTo_snoc ty ty (fst u) b s s1 C1), Hsent.
        replace (Report.reportTypeEqb ty ty) with true by (destruct ty; reflexivity).
        assert (Hm : skipn j ids = fst u :: map fst rest)
          by (unfold ids; rewrite skipn_map, E; reflexivity).
        destruct (firstn_snoc j ids (fst u) (map fst rest) Hm) as [F' _].
        symmetry. exact F'. }
      split.
      { intros ty' Hne. rewrite Hs, (sentTo_snoc ty ty' (fst u) b s s1 C1).
        replace (Report.reportTypeEqb ty ty') with false
          by (destruct ty, ty'; try reflexivity; congruence).
        apply app_nil_r. }
      rewrite W2, W1. exact Hw.
Qed.

Lemma one_batch_in_turns (turns : list nat) :
  forall (k : nat) (p : option Suspended) (s : State),
    w_users (world s) = table ->
    Notions.standsAt DAILY users k p ->
    Notions.sentTo DAILY s = firstn (k - 1) ids ->
    Notions.sentTo WEEKLY s = [] ->
    exists p' s',
      takeTurns R sendDaily sendWeekly turns [p] s = (Ok [p'], s')
      /\ Notions.standsAt DAILY users (k + count_occ Nat.eq_dec turns 0) p'
      /\ Notions.sentTo DAILY s'
         = firstn (k + count_occ Nat.eq_dec turns 0 - 1) ids
      /\ Notions.sentTo WEEKLY s' = [].
Proof.
  induction turns as [|i later IH]; intros k p s Hw Hp Hd Hwk.
  - exists p, s. cbn [count_occ]. rewrite Nat.add_0_r.
    split; [reflexivity|]. auto.
  - cbn [takeTurns]. destruct i as [|i].
    + destruct (turn_step DAILY k p s Hw Hp Hd) as [p1 [s1 [E [St [Sd [So W]]]]]].
      unfold bind. rewrite (resumeNth_O p p1 [] s s1 E).
      rewrite count_occ_cons_eq by reflexivity. rewrite Nat.add_succ_r.
      apply (IH (S k) p1 s1 W St).
      * replace (S k - 1) with k by lia. exact Sd.
      * rewrite (So WEEKLY) by discriminate. exact Hwk.
    + unfold bind. rewrite resumeNth_past by (cbn; lia).
      rewrite count_occ_cons_neq by discriminate.
      apply (IH k p s Hw Hp Hd Hwk).
Qed.

Lemma two_batches_in_turns (turns : list nat) :
  forall (k0 k1 : nat) (p0 p1 : option Suspended) (s : State),
    w_users (world s) = table ->
    Notions.standsAt DAILY users k0 p0 ->
    Notions.standsAt WEEKLY users k1 p1 ->
    Notions.sentTo DAILY s = firstn (k0 - 1) ids ->
    Notions.sentTo WEEKLY s = firstn (k1 - 1) ids ->
    exists p0' p1' s',
      takeTurns R sendDaily sendWeekly turns [p0; p1] s = (Ok [p0'; p1'], s')
      /\ Notions.standsAt DAILY users (k0 + count_occ Nat.eq_dec turns 0) p0'
      /\ Notions.standsAt WEEKLY users (k1 + count_occ Nat.eq_dec turns 1) p1'
      /\ Notions.sentTo DAILY s'
         = firstn (k0 + count_occ Nat.eq_dec turns 0 - 1) ids
      /\ Notions.sentTo WEEKLY s'
         = firstn (k1 + count_occ Nat.eq_dec turns 1 - 1) ids.
Proof.
  induction turns as [|i later IH]; intros k0 k1 p0 p1 s Hw H0 H1 Hd Hwk.
  - exists p0, p1, s. cbn [count_occ]. rewrite !Nat.add_0_r.
    split; [reflexivity|]. auto.
  - cbn [takeTurns]. destruct i as [|[|i]].
    + destruct (turn_step DAILY k0 p0 s Hw H0 Hd) as [p [s1 [E [St [Sd [So W]]]]]].
      unfold bind. rewrite (resumeNth_O p0 p [p1] s s1 E).
      rewrite count_occ_cons_eq by reflexivity.
      rewrite (count_occ_cons_neq Nat.eq_dec later (x := 0) (y := 1))
        by discriminate.
      rewrite Nat.add_succ_r.
      apply (IH (S k0) k1 p p1 s1 W St H1).
      * replace (S k0 - 1) with k0 by lia. exact Sd.
      * rewrite (So WEEKLY) by discriminate. exact Hwk.
    + destruct (turn_step WEEKLY k1 p1 s Hw H1 Hwk) as [p [s1 [E [St [Sd [So W]]]]]].
      rewrite resumeNth_S. unfold bind at 1. unfold bind at 1.
      rewrite (resumeNth_O p1 p [] s s1 E). unfold ret at 1.
      rewrite (count_occ_cons_eq Nat.eq_dec later (eq_refl 1)).
      rewrite (count_occ_cons_neq Nat.eq_dec later (x := 1) (y := 0))
        by discriminate.
      rewrite Nat.add_succ_r.
      apply (IH k0 (S k1) p0 p s1 W H0 St).
      * rewrite (So DAILY) by discriminate. exact Hd.
      * replace (S k1 - 1) with k1 by lia. exact Sd.
    + unfold bind. rewrite resumeNth_past by (cbn; lia).
      rewrite !count_occ_cons_neq by discriminate.
      apply (IH k0 k1 p0 p1 s Hw H0 H1 Hd Hwk).
Qed.

Lemma firstn_next (names : list string) (k : nat) :
  firstn k names = (firstn (k - 1) names ++ Notions.sendAtTurn names k)%list.
Proof.
  destruct k as [|j]; [reflexivity|].
  replace (S j - 1) with j by lia. cbn [Notions.sendAtTurn].
  revert names. induction j as [|j IH]; intros l.
  - destruct l; reflexivity.
  - destruct l as [|x l]; [reflexivity|].
    change (firstn (S (S j)) (x :: l)) with (x :: firstn (S j) l).
    rewrite IH. reflexivity.
Qed.

Lemma turn_calls (ty : ReportType) (k : nat) (p : option Suspended) (s : State) :
  w_users (world s) = table ->
  Notions.standsAt ty users k p ->
  exists p' s',
    match p with Some q => resume R sendDaily sendWeekly q | None => ret None end s
    = (Ok p', s')
    /\ Notions.standsAt ty users (S k) p'
    /\ (forall ty',
          Notions.sentTo ty' s'
          = (Notions.sentTo ty' s
             ++ (if Report.reportTypeEqb ty ty' then Notions.sendAtTurn ids k
                 else []))%list)
    /\ w_users (world s') = table.
Proof.
  intros Hw Hp.
  destruct k as [|j]; cbn [Notions.standsAt] in Hp.
  - subst p. cbn [resume].
    unfold bind at 1, liftWorld at 1, await, user_findMany_verified, gets, bind, ret.
    rewrite Hw. fold users.
    set (s0 := mkState (interleave R (world s)) (registry s) (dailyJob s)
                       (weeklyJob s) (sendCalls s)).
    destruct (loopFrom_stands ty (mkCounts 0 0) 0 s0) as [p' [s' [E [St [C W]]]]].
    cbn [skipn] in E. exists p', s'. split; [exact E|]. split; [exact St|].
    split.
    + intros ty'. cbn [Notions.sendAtTurn]. unfold Notions.sentTo. rewrite C.
      destruct (Report.reportTypeEqb ty ty'); rewrite app_nil_r; reflexivity.
    + rewrite W. unfold s0. cbn [world]. rewrite Hmeanwhile. exact Hw.
  - cbn [Notions.sendAtTurn].
    destruct (skipn j users) as [|u rest] eqn:E.
    + subst p. exists None, s. split; [reflexivity|].
      assert (K : skipn (S j) users = []).
      { apply skipn_all_iff. apply skipn_all_iff in E. lia. }
      split; [cbn [Notions.standsAt]; rewrite K; reflexivity|].
      split; [|exact Hw].
      intros ty'. unfold ids. rewrite skipn_map, E. cbn [map firstn].
      destruct (Report.reportTypeEqb ty ty'); rewrite app_nil_r; reflexivity.
    + destruct Hp as [acc ->]. cbn [resume].
      assert (Hsend : Notions.keepsUsers (sendFor sendDaily sendWeekly ty))
        by (destruct ty; assumption).
      destruct (iteration_step_users ty acc u s Hsend Hmeanwhile)
        as [acc' [s1 [b [E1 [C1 W1]]]]].
      unfold bind at 1. rewrite E1.
      destruct (firstn_snoc j users u rest E) as [_ K].
      destruct (loopFrom_stands ty acc' (S j) s1) as [p' [s' [E2 [St [C2 W2]]]]].
      rewrite K in E2.
      exists p', s'. split; [exact E2|]. split; [exact St|].
      split; [|rewrite W2, W1; exact Hw].
      intros ty'.
      transitivity (Notions.sentTo ty' s1);
        [unfold Notions.sentTo; rewrite C2; reflexivity|].
      rewrite (sentTo_snoc ty ty' (fst u) b s s1 C1).
      unfold ids. rewrite skipn_map, E. reflexivity.
Qed.

Lemma two_daily_batches_in_turns (turns : list nat) :
  forall (k0 k1 : nat) (p0 p1 : option Suspended) (s : State),
    w_users (world s) = table ->
    Notions.standsAt DAILY users k0 p0 ->
    Notions.standsAt DAILY users k1 p1 ->
    Permutation (Notions.sentTo DAILY s)
      (firstn (k0 - 1) ids ++ firstn (k1 - 1) ids) ->
    Notions.sentTo WEEKLY s = [] ->
    exists p0' p1' s',
      takeTurns R sendDaily sendWeekly turns [p0; p1] s = (Ok [p0'; p1'], s')
      /\ Notions.standsAt DAILY users (k0 + count_occ Nat.eq_dec turns 0) p0'
      /\ Notions.standsAt DAILY users (k1 + count_occ Nat.eq_dec turns 1) p1'
      /\ Permutation (Notions.sentTo DAILY s')
           (firstn (k0 + count_occ Nat.eq_dec turns 0 - 1) ids
            ++ firstn (k1 + count_occ Nat.eq_dec turns 1 - 1) ids)
      /\ Notions.sentTo WEEKLY s' = [].
Proof.
  induction turns as [|i later IH]; intros k0 k1 p0 p1 s Hw H0 H1 Hd Hwk.
  - exists p0, p1, s. cbn [count_occ]. rewrite !Nat.add_0_r.
    split; [reflexivity|]. auto.
  - cbn [takeTurns]. destruct i as [|[|i]].
    + destruct (turn_calls DAILY k0 p0 s Hw H0) as [p [s1 [E [St [Sc W]]]]].
      unfold bind. rewrite (resumeNth_O p0 p [p1] s s1 E).
      rewrite count_occ_cons_eq by reflexivity.
      rewrite (count_occ_cons_neq Nat.eq_dec later (x := 0) (y := 1))
        by discriminate.
      rewrite Nat.add_succ_r.
      apply (IH (S k0) k1 p p1 s1 W St H1).
      * replace (S k0 - 1) with k0 by lia.
        rewrite (Sc DAILY). cbn [Report.reportTypeEqb].
        rewrite (firstn_next ids k0), Hd.
        rewrite <- !app_assoc. apply Permutation_app_head.
        apply Permutation_app_comm.
      * rewrite (Sc WEEKLY). cbn [Report.reportTypeEqb].
        rewrite app_nil_r. exact Hwk.
    + destruct (turn_calls DAILY k1 p1 s Hw H1) as [p [s1 [E [St [Sc W]]]]].
      rewrite resumeNth_S. unfold bind at 1. unfold bind at 1.
      rewrite (resumeNth_O p1 p [] s s1 E). unfold ret at 1.
      rewrite (count_occ_cons_eq Nat.eq_dec later (eq_refl 1)).
      rewrite (count_occ_cons_neq Nat.eq_dec later (x := 1) (y := 0))
        by discriminate.
      rewrite Nat.add_succ_r.
      apply (IH k0 (S k1) p0 p s1 W H0 St).
      * replace (S k1 - 1) with k1 by lia.
        rewrite (Sc DAILY). cbn [Report.reportTypeEqb].
        rewrite (firstn_next ids k1), Hd.
        rewrite <- !app_assoc. reflexivity.
      * rewrite (Sc WEEKLY). cbn [Report.reportTypeEqb].
        rewrite app_nil_r. exact Hwk.
    + unfold bind. rewrite resumeNth_past by (cbn; lia).
      rewrite !count_occ_cons_neq by discriminate.
      apply (IH k0 k1 p0 p1 s Hw H0 H1 Hd Hwk).
Qed.

End Facts.


(** With no task running nothing is started, whatever the turns: after
    [stop], and before any [start]. *)
Lemma stopped_scheduler_takes_no_turns
    (R : Runtime) (sendDaily sendWeekly : string -> M unit)
    (w : World) (f : Firing) (turns : list nat) :
  let stopped := snd (stop (snd (start (initial w)))) in
  fireWith R sendDaily sendWeekly f turns stopped = (Ok [], stopped)
  /\ fireWith R sendDaily sendWeekly f turns (initial w) = (Ok [], initial w).
Proof.
  cbv zeta.
  assert (H : forall s, takeTurns R sendDaily sendWeekly turns [] s = (Ok [], s)).
  { induction turns as [|i later IH]; intros s; [reflexivity|].
    cbn [takeTurns]. unfold bind. rewrite resumeNth_nil. cbn [ret]. apply IH. }
  split.
  - transitivity (takeTurns R sendDaily sendWeekly turns []
                    (snd (stop (snd (start (initial w)))))).
    + destruct f; reflexivity.
    + apply H.
  - transitivity (takeTurns R sendDaily sendWeekly turns [] (initial w)).
    + destruct f; reflexivity.
    + apply H.
Qed.

(** After two calls of [start] the 18:00 firing starts two daily
    batches, and in turns they send to each verified user twice. *)
Lemma two_starts_two_daily_batches_in_turns :
  let fired := fireWith Fixtures.quiet Fixtures.sendOk Fixtures.sendOk
                 SixPM [0; 1; 0; 1; 0; 1; 0; 1]
                 (snd (start (snd (start (initial Fixtures.team))))) in
  fst fired = Ok [None; None]
  /\ map (fun c => (call_type c, call_userId c)) (sendCalls (snd fired))
     = [(DAILY, "A"); (DAILY, "A"); (DAILY, "B"); (DAILY, "B");
        (DAILY, "C"); (DAILY, "C")].
Proof. split; vm_compute; reflexivity. Qed.

(** After two calls of [start] the 18:00 firing starts two daily
    batches.  In whatever order they take turns, the daily sends made
    are those of the two batches together, each batch going through
    the verified users in the order of the table; when both have
    ended, every verified user has had two daily sends. *)
Lemma started_twice_in_turns_sends_twice
    (R : Runtime) (sendDaily sendWeekly : string -> M unit)
    (w : World) (turns : list nat)
    (Hdaily : Notions.keepsUsers sendDaily)
    (Hweekly : Notions.keepsUsers sendWeekly)
    (Hmeanwhile : forall w', w_users (interleave R w') = w_users w') :
  let twice := snd (start (snd (start (initial w)))) in
  let ids := map user_id (filter user_isVerified (w_users w)) in
  let turnsOf := fun i : nat => count_occ Nat.eq_dec turns i in
  exists first second s',
    fireWith R sendDaily sendWeekly SixPM turns twice
    = (Ok [first; second], s')
    /\ Permutation (map call_userId (sendCalls s'))
         (firstn (turnsOf 0 - 1) ids ++ firstn (turnsOf 1 - 1) ids)
    /\ Forall (fun c => call_type c = DAILY) (sendCalls s')
    /\ (first = None <-> List.length ids < turnsOf 0)
    /\ (second = None <-> List.length ids < turnsOf 1)
    /\ (first = None -> second = None ->
        Permutation (map call_userId (sendCalls s')) (ids ++ ids)).
Proof.
  cbv zeta.
  set (users := map (fun u => (user_id u, user_email u))
                    (filter user_isVerified (w_users w))).
  assert (Hids : map user_id (filter user_isVerified (w_users w))
                 = map fst users)
    by (unfold users; rewrite map_map; reflexivity).
  assert (Hlen : List.length (map fst users) = List.length users)
    by apply length_map.
  rewrite Hids.
  set (s0 := Notions.logged LInfo
               "Starting daily report generation for all users"
               (Notions.logged LInfo
                  "Starting daily report generation for all users"
                  (snd (start (snd (start (initial w))))))).
  assert (Hfire : fireWith R sendDaily sendWeekly SixPM turns
                    (snd (start (snd (start (initial w)))))
                  = takeTurns R sendDaily sendWeekly turns
                      [Some (AtQuery DAILY); Some (AtQuery DAILY)] s0)
    by reflexivity.
  destruct (two_daily_batches_in_turns R sendDaily sendWeekly Hdaily Hweekly
              Hmeanwhile (w_users w) turns 0 0 (Some (AtQuery DAILY))
              (Some (AtQuery DAILY)) s0 eq_refl eq_refl eq_refl
              (Permutation_refl _) eq_refl)
    as [p0 [p1 [s' [E [St0 [St1 [Sd Sw]]]]]]].
  cbn [Nat.add] in St0, St1, Sd. fold users in St0, St1, Sd.
  exists p0, p1, s'. rewrite Hfire. split; [exact E|].
  rewrite (only_daily_sent s' Sw).
  split; [exact Sd|].
  split.
  { clear - Sw. unfold Notions.sentTo in Sw.
    induction (sendCalls s') as [|c calls IH]; [constructor|].
    cbn [filter] in Sw. destruct (call_type c) eqn:T; cbn in Sw.
    - constructor; [exact T | exact (IH Sw)].
    - discriminate. }
  pose proof (standsAt_ended DAILY users _ p0 St0) as Hend0.
  pose proof (standsAt_ended DAILY users _ p1 St1) as Hend1.
  rewrite Hlen. split; [exact Hend0|]. split; [exact Hend1|].
  intros Hp0 Hp1. apply Hend0 in Hp0. apply Hend1 in Hp1.
  rewrite !firstn_all2 in Sd by lia. exact Sd.
Qed.

End TurnFacts.

Module QuietBatchFacts.
Import Scheduler.

Section Facts.
Variable R : Runtime.
Variable g : Gemini.GeminiService.
Hypothesis Hquiet : forall x, interleave R x = x.

Lemma findUser_of_member (u : User) (w : World) :
  In u (w_users w) -> Report.findUser (user_id u) w <> None.
Proof.
  unfold Report.findUser. intros Hin Hnone.
  apply (find_none _ _ Hnone) in Hin. rewrite String.eqb_refl in Hin.
  discriminate.
Qed.

Lemma iteration_quiet (ty : ReportType) (acc : Counts) (uid email : string)
    (s : State) :
  Report.findUser uid (world s) <> None ->
  exists s' mail,
    iteration R (Report.sendDailyReportEmail R g) (Report.sendWeeklyReportEmail R g) ty acc (uid, email) s
    = (Ok (mkCounts (S (success acc)) (failed acc)), s')
    /\ w_users (world s') = w_users (world s)
    /\ w_outbox (world s') = (w_outbox (world s) ++ [mail])%list
    /\ mail_kind mail = ty
    /\ List.length (w_reports (world s')) = S (List.length (w_reports (world s))).
Proof.
  intros Hu. destruct (Report.findUser uid (world s)) as [user|] eqn:E;
    [clear Hu | congruence].
  destruct (RunFacts.send_quiet R g Hquiet ty uid (world s) user E)
    as [w' [mail [row [Es [Ho [Hr [Hk [_ [_ [_ [_ [_ [_ [Hus _]]]]]]]]]]]]]].
  exists (mkState (appendLog LInfo
                     (match ty with
                      | DAILY => "Daily report sent to "
                      | WEEKLY => "Weekly report sent to "
                      end ++ email) w')
                  (registry s) (dailyJob s) (weeklyJob s)
                  (sendCalls s ++ [mkSendCall ty uid false])%list), mail.
  split.
  - destruct ty; cbn [iteration Notions.sendOf] in *;
      unfold dailyIteration, weeklyIteration, tryCatch, bind, awaitSend, await;
      cbn [sendFor]; rewrite Es, Hquiet; reflexivity.
  - cbn [world w_users w_outbox w_reports appendLog].
    rewrite Hr, length_app. cbn. repeat split; auto. lia.
Qed.

Lemma forOf_quiet (ty : ReportType) (users : list (string * string)) :
  forall (acc : Counts) (s : State),
    (forall u, In u users -> Report.findUser (fst u) (world s) <> None) ->
    exists s' mails,
      forOf users (iteration R (Report.sendDailyReportEmail R g) (Report.sendWeeklyReportEmail R g) ty) acc s
      = (Ok (mkCounts (success acc + List.length users) (failed acc)), s')
      /\ w_users (world s') = w_users (world s)
      /\ w_outbox (world s') = (w_outbox (world s) ++ mails)%list
      /\ List.length mails = List.length users
      /\ Forall (fun m => mail_kind m = ty) mails
      /\ List.length (w_reports (world s'))
         = List.length (w_reports (world s)) + List.length users.
Proof.
  induction users as [|[uid email] users IH]; intros acc s Hall.
  - exists s, []. cbn. rewrite Nat.add_0_r, app_nil_r.
    destruct acc. repeat split; auto.
  - destruct (iteration_quiet ty acc uid email s (Hall (uid, email) (or_introl eq_refl)))
      as [s1 [mail [E1 [Hu1 [Ho1 [Hk1 Hr1]]]]]].
    destruct (IH (mkCounts (S (success acc)) (failed acc)) s1)
      as [s2 [mails [E2 [Hu2 [Ho2 [Hl2 [Hk2 Hr2]]]]]]].
    { intros u Hin. unfold Report.findUser. rewrite Hu1.
      apply (Hall u). now right. }
    exists s2, (mail :: mails).
    split.
    + cbn [forOf]. unfold bind at 1. rewrite E1, E2. cbn [success failed].
      replace (S (success acc) + List.length users)
        with (success acc + List.length ((uid, email) :: users))
        by (cbn [List.length]; lia).
      reflexivity.
    + rewrite Hu2, Hu1, Ho2, Ho1, <- app_assoc, Hr2, Hr1. cbn [List.length app].
      repeat split; auto; lia.
Qed.

(** X24.  With nothing else happening during an await, a batch run with the
    report service's own send functions counts every verified user as a
    success and none as failed, hands one mail of the batch's type per
    verified user to the mailer and stores one report per verified user.
    Daily and weekly. *)
Theorem quiet_batch_never_fails (s : State) :
  let n := List.length (verifiedUsers s) in
  (exists s' mails,
     generateDailyReportsForAllUsers R (Report.sendDailyReportEmail R g) (Report.sendWeeklyReportEmail R g) s = (Ok (mkCounts n 0), s')
     /\ w_outbox (world s') = (w_outbox (world s) ++ mails)%list
     /\ List.length mails = n
     /\ Forall (fun m => mail_kind m = DAILY) mails
     /\ List.length (w_reports (world s')) = List.length (w_reports (world s)) + n)
  /\
  (exists s' mails,
     generateWeeklyReportsForAllUsers R (Report.sendDailyReportEmail R g) (Report.sendWeeklyReportEmail R g) s = (Ok (mkCounts n 0), s')
     /\ w_outbox (world s') = (w_outbox (world s) ++ mails)%list
     /\ List.length mails = n
     /\ Forall (fun m => mail_kind m = WEEKLY) mails
     /\ List.length (w_reports (world s')) = List.length (w_reports (world s)) + n).
Proof.
  cbv zeta.
  set (users := map (fun u => (user_id u, user_email u)) (verifiedUsers s)).
  set (s0 := mkState (interleave R (world s)) (registry s) (dailyJob s)
                     (weeklyJob s) (sendCalls s)).
  assert (Hall : forall u, In u users -> Report.findUser (fst u) (world s0) <> None).
  { intros u Hin. unfold users in Hin. apply in_map_iff in Hin.
    destruct Hin as [x [<- Hx]]. cbn [fst]. apply findUser_of_member.
    unfold s0. cbn [world]. rewrite Hquiet.
    unfold verifiedUsers in Hx. apply filter_In in Hx. tauto. }
  assert (Hlen : List.length users = List.length (verifiedUsers s))
    by (unfold users; apply length_map).
  assert (Hw0 : world s0 = world s) by (unfold s0; cbn; apply Hquiet).
  split.
  - destruct (forOf_quiet DAILY users (mkCounts 0 0) s0 Hall)
      as [s1 [mails [E [Hu [Ho [Hl [Hk Hr]]]]]]].
    cbn [iteration success failed] in E. unfold users, verifiedUsers in E.
    unfold generateDailyReportsForAllUsers.
    unfold bind at 1. unfold liftWorld at 1, await, user_findMany_verified, gets.
    fold s0. unfold bind at 1. rewrite E.
    unfold bind, liftWorld, logger, modify, ret.
    do 2 eexists. split; [cbn [Nat.add]; rewrite <- Hlen; reflexivity|].
    cbn [world w_outbox w_reports appendLog].
    rewrite Ho, Hr, Hw0, Hl, Hlen. repeat split; auto.
  - destruct (forOf_quiet WEEKLY users (mkCounts 0 0) s0 Hall)
      as [s1 [mails [E [Hu [Ho [Hl [Hk Hr]]]]]]].
    cbn [iteration success failed] in E. unfold users, verifiedUsers in E.
    unfold generateWeeklyReportsForAllUsers.
    unfold bind at 1. unfold liftWorld at 1, await, user_findMany_verified, gets.
    fold s0. unfold bind at 1. rewrite E.
    unfold bind, liftWorld, logger, modify, ret.
    do 2 eexists. split; [cbn [Nat.add]; rewrite <- Hlen; reflexivity|].
    cbn [world w_outbox w_reports appendLog].
    rewrite Ho, Hr, Hw0, Hl, Hlen. repeat split; auto.
Qed.

End Facts.
(** Three verified users: three mails, no failure. *)
Lemma quiet_daily_batch_for_the_team :
  exists s',
    generateDailyReportsForAllUsers Fixtures.quiet
      (Report.sendDailyReportEmail Fixtures.quiet Fixtures.configured)
      (Report.sendWeeklyReportEmail Fixtures.quiet Fixtures.configured)
      (initial Fixtures.team) = (Ok (mkCounts 3 0), s')
    /\ List.length (w_outbox (world s')) = 3.
Proof.
  pose proof (quiet_batch_never_fails Fixtures.quiet Fixtures.configured
                (fun x => eq_refl) (initial Fixtures.team)) as H.
  cbv zeta in H. destruct H as [[s' [mails [E [Ho [Hl _]]]]] _].
  exists s'. split; [exact E|]. rewrite Ho, length_app, Hl. reflexivity.
Defined.

End QuietBatchFacts.

Module MailerFacts.
Import Mailer.

Section Facts.
Variable R : Runtime.
Variable config : EmailConfig.
Variable sdk : Sdk.
Variable this : EmailService.

(** X25.  [send] always answers and never throws.  In development without
    credentials it answers true after logging recipient, subject and
    content, and calls no mail library; otherwise it answers true exactly
    when the selected library call returned: SendGrid when the provider is
    sendgrid, else the SMTP transporter when there is one. *)
Theorem send_answers_and_never_throws (options : EmailOptions) (w : World) :
  let message := messageOf config options in
  exists answer w',
    send R config sdk this options w = (Ok answer, w')
    /\ (Notions.devMode config = true ->
          answer = true
          /\ w' = appendLog LInfo
                    ("[DEV EMAIL] Content: "
                     ++ orElse (text options) (html options))
                    (appendLog LInfo ("[DEV EMAIL] Subject: " ++ subject options)
                       (appendLog LInfo ("[DEV EMAIL] To: " ++ to options) w)))
    /\ (Notions.devMode config = false ->
          (answer = true <->
           (provider config = "sendgrid"
            /\ fst (sgMail_send sdk message w) = Ok tt)
           \/ (provider config <> "sendgrid" /\ transporter this <> None
               /\ fst (transporter_sendMail sdk message w) = Ok tt))).
Proof.
  cbv zeta. unfold send. fold (Notions.devMode config).
  destruct (Notions.devMode config).
  - do 2 eexists. split; [reflexivity|]. split; [auto | discriminate].
  - unfold tryCatch, bind, await, logger, modify, ret.
    destruct (String.eqb_spec (provider config) "sendgrid") as [Hp|Hp].
    + destruct (sgMail_send sdk (messageOf config options) w) as [[[]|e] w1];
        do 2 eexists; (split; [reflexivity|]); (split; [discriminate|]);
        intros _; cbn [fst]; split.
      * intros _. left. auto.
      * reflexivity.
      * discriminate.
      * intros [[_ H]|[H _]]; [discriminate | contradiction].
    + destruct (transporter this) as [tr|].
      * destruct (transporter_sendMail sdk (messageOf config options) w)
          as [[[]|e] w1];
          do 2 eexists; (split; [reflexivity|]); (split; [discriminate|]);
          intros _; cbn [fst]; split.
        -- intros _. right. repeat split; auto. discriminate.
        -- reflexivity.
        -- discriminate.
        -- intros [[H _]|[_ [_ H]]]; [contradiction | discriminate].
      * do 2 eexists. split; [reflexivity|]. split; [discriminate|].
        intros _. split; [discriminate|].
        intros [[H _]|[_ [H _]]]; contradiction.
Qed.

End Facts.

Lemma lacks_cons (c x : ascii) (s : string) :
  Notions.lacks c (String x s) <-> x <> c /\ Notions.lacks c s.
Proof.
  unfold Notions.lacks. cbn [Js.includes prefix].
  destruct (ascii_dec c x) as [->|Hne].
  - destruct s; cbn; split; try discriminate; intros [H _]; contradiction.
  - cbn. split; [intros H; split; [congruence | exact H] | intros [_ H]; exact H].
Qed.

Lemma strip_outside (a s : string) :
  Notions.lacks "<" a -> stripTagsFrom None (a ++ s) = a ++ stripTagsFrom None s.
Proof.
  induction a as [|x a IH]; intros H; [reflexivity|].
  apply lacks_cons in H. destruct H as [Hx Ha].
  cbn [append stripTagsFrom].
  destruct (Ascii.eqb_spec x "<"); [contradiction|]. now rewrite IH.
Qed.

Lemma strip_inside (p t s : string) :
  Notions.lacks ">" t ->
  stripTagsFrom (Some p) (t ++ s) = stripTagsFrom (Some (p ++ t)) s.
Proof.
  revert p. induction t as [|x t IH]; intros p H.
  - cbn. now rewrite StringFacts.append_empty_r.
  - apply lacks_cons in H. destruct H as [Hx Ht].
    cbn [append stripTagsFrom].
    destruct (Ascii.eqb_spec x ">"); [contradiction|].
    rewrite IH by exact Ht. rewrite StringFacts.append_assoc. reflexivity.
Qed.

(** X26.  The plain-text version of a mail: text without [<] is left as it
    is, a tag, from a [<] to the next [>], is removed, and a [<] that is
    never closed stays in the text with everything after it. *)
Theorem stripTags_removes_closed_tags (a t b : string) :
  Notions.lacks "<" a -> Notions.lacks ">" t ->
  stripTags a = a
  /\ stripTags (a ++ "<" ++ t ++ ">" ++ b) = a ++ stripTags b
  /\ stripTags (a ++ "<" ++ t) = a ++ "<" ++ t.
Proof.
  intros Ha Ht. unfold stripTags. split; [|split].
  - rewrite <- (StringFacts.append_empty_r a) at 1.
    rewrite strip_outside by exact Ha. cbn. apply StringFacts.append_empty_r.
  - rewrite strip_outside by exact Ha. f_equal.
    cbn [append stripTagsFrom Ascii.eqb Bool.eqb].
    rewrite strip_inside by exact Ht. reflexivity.
  - rewrite strip_outside by exact Ha. f_equal.
    cbn [append stripTagsFrom Ascii.eqb Bool.eqb].
    rewrite <- (StringFacts.append_empty_r t) at 1.
    rewrite strip_inside by exact Ht. reflexivity.
Qed.

(** X27.  A service built by the constructor, outside development mode,
    sends by the configured provider: it holds a transporter exactly when
    the provider is smtp; with provider sendgrid the message goes to
    SendGrid even when no API key is set and the constructor has warned
    that mails are only logged; with provider smtp it goes to the
    transporter; with any other provider nothing is sent and the answer is
    false. *)
Theorem constructed_service_sends_by_provider
    (R : Runtime) (config : EmailConfig) (sdk : Sdk) (options : EmailOptions)
    (w : World) (Hprod : Notions.devMode config = false) :
  exists this w1,
    constructor config w = (Ok this, w1)
    /\ (transporter this <> None <-> provider config = "smtp")
    /\ (provider config = "sendgrid" -> sendgridApiKey config = "" ->
          w_log w1
          = (w_log w
             ++ [(LWarn,
                  "No email provider configured - emails will be logged only")])%list)
    /\ (provider config = "sendgrid" ->
          fst (send R config sdk this options w1)
          = Ok match fst (sgMail_send sdk (messageOf config options) w1) with
               | Ok _ => true
               | Throw _ => false
               end)
    /\ (provider config = "smtp" ->
          fst (send R config sdk this options w1)
          = Ok match
                 fst (transporter_sendMail sdk (messageOf config options) w1)
               with
               | Ok _ => true
               | Throw _ => false
               end)
    /\ (provider config <> "sendgrid" -> provider config <> "smtp" ->
          send R config sdk this options w1
          = (Ok false,
             appendLog LWarn
               ("Email not sent (no provider): " ++ to options ++ " - "
                ++ subject options) w1)).
Proof.
  unfold constructor, send. fold (Notions.devMode config). rewrite Hprod.
  unfold tryCatch, bind, await, logger, modify, ret.
  destruct (String.eqb_spec (provider config) "sendgrid") as [Hsg|Hsg].
  - assert (Hsmtp : (provider config =? "smtp") = false)
      by (rewrite Hsg; reflexivity).
    destruct (String.eqb_spec (sendgridApiKey config) "") as [Hkey|Hkey];
      cbn [andb negb]; rewrite ?Hsmtp; do 2 eexists;
      (split; [reflexivity|]); cbn [transporter];
      (split; [split; [intros H; now contradiction H
                      | intros H; rewrite Hsg in H; discriminate H]|]);
      (split; [intros _ Hk; try contradiction; reflexivity|]);
      (split; [intros _;
               match goal with
               | |- context [sgMail_send ?a ?b ?c] =>
                   destruct (sgMail_send a b c) as [[[]|e] w2]
               end; reflexivity|]);
      (split; [intros H; rewrite Hsg in H; discriminate H
              | intros H; contradiction]).
  - cbn [andb].
    destruct (String.eqb_spec (provider config) "smtp") as [Hsmtp|Hsmtp];
      do 2 eexists; (split; [reflexivity|]); cbn [transporter].
    + split; [split; [auto | discriminate]|].
      split; [intros H; contradiction|].
      split; [intros H; contradiction|].
      split; [|intros _ H; contradiction].
      intros _.
      match goal with
      | |- context [transporter_sendMail ?a ?b ?c] =>
          destruct (transporter_sendMail a b c) as [[[]|e] w2]
      end; reflexivity.
    + split; [split; [intros H; now contradiction H | intros H; contradiction]|].
      split; [intros H; contradiction|].
      split; [intros H; contradiction|].
      split; [intros H; contradiction|].
      intros _ _. reflexivity.
Qed.

(** The welcome mail: logged in development, not sent when the SMTP
    server refuses. *)
Lemma welcome_mail_in_development_and_with_smtp_down :
  fst (send Fixtures.quiet Samples.development Samples.sdkDown
         (mkEmailService (Some SmtpTransporter)) Samples.welcome
         Fixtures.emptyWorld) = Ok true
  /\ fst (send Fixtures.quiet Samples.productionSmtp Samples.sdkDown
            (mkEmailService (Some SmtpTransporter)) Samples.welcome
            Fixtures.emptyWorld) = Ok false.
Proof.
  split.
  - pose proof (send_answers_and_never_throws Fixtures.quiet
                  Samples.development Samples.sdkDown
                  (mkEmailService (Some SmtpTransporter)) Samples.welcome
                  Fixtures.emptyWorld) as H.
    cbv zeta in H. destruct H as [answer [w' [E [Hdev _]]]].
    rewrite E. cbn [fst]. f_equal. apply Hdev. reflexivity.
  - pose proof (send_answers_and_never_throws Fixtures.quiet
                  Samples.productionSmtp Samples.sdkDown
                  (mkEmailService (Some SmtpTransporter)) Samples.welcome
                  Fixtures.emptyWorld) as H.
    cbv zeta in H. destruct H as [answer [w' [E [_ Hprod]]]].
    rewrite E. cbn [fst]. f_equal. destruct answer; [|reflexivity].
    destruct (proj1 (Hprod eq_refl) eq_refl) as [[Hp _]|[_ [_ Hs]]].
    + vm_compute in Hp. discriminate Hp.
    + vm_compute in Hs. discriminate Hs.
Defined.

(** The text of the welcome mail, and a comparison left alone. *)
Lemma text_of_the_welcome_mail :
  stripTags "Dear <b>Ann</b>" = "Dear Ann" /\ stripTags "1 < 2" = "1 < 2".
Proof.
  split.
  - pose proof (proj1 (proj2 (stripTags_removes_closed_tags "Dear " "b"
                                 "Ann</b>" eq_refl eq_refl))) as H1.
    pose proof (proj1 (proj2 (stripTags_removes_closed_tags "Ann" "/b" ""
                                 eq_refl eq_refl))) as H2.
    cbn [append] in H1, H2. rewrite H2 in H1. exact H1.
  - exact (proj2 (proj2 (stripTags_removes_closed_tags "1 " " 2" ""
                           eq_refl eq_refl))).
Defined.

(** SendGrid chosen without a key: the constructor warns that mails
    are logged only, and the mail is handed to SendGrid all the same. *)
Lemma sendgrid_without_a_key_still_sends :
  exists this w1,
    constructor Samples.sendgridNoKey Fixtures.emptyWorld = (Ok this, w1)
    /\ w_log w1
       = [(LWarn, "No email provider configured - emails will be logged only")]
    /\ fst (send Fixtures.quiet Samples.sendgridNoKey Samples.sdkUp this
              Samples.welcome w1) = Ok true.
Proof.
  destruct (constructed_service_sends_by_provider Fixtures.quiet
              Samples.sendgridNoKey Samples.sdkUp Samples.welcome
              Fixtures.emptyWorld eq_refl)
    as [this [w1 [E [_ [Hwarn [Hsg _]]]]]].
  exists this, w1. split; [exact E|]. split.
  - rewrite (Hwarn eq_refl eq_refl). reflexivity.
  - rewrite (Hsg eq_refl). reflexivity.
Defined.

End MailerFacts.
